(** * HubSpot dashboard: the ticket aggregator and the chart data builder

    A shallow embedding of [src/app/api/dashboard-data/route.ts]:
    [getStatusFromStage], [fetchHubSpotTickets], [generateDashboardStats],
    [generateCharts] and the [GET] handler, together with the parts of the
    JavaScript runtime they rest on (property lookup on plain objects, the
    order of [Object.keys], [parseFloat], double addition, the [Date]
    algorithms of ECMA-262 and [Array.prototype.sort]). *)

From Stdlib Require Import ZArith List Bool Lia.
From Stdlib Require Import Strings.String Strings.Ascii.
From Stdlib Require Import Sorting.Permutation Sorting.Sorted.
From Stdlib Require Import Numbers.DecimalString.
From Stdlib Require Floats.SpecFloat.
Import ListNotations.

Local Open Scope string_scope.
Local Open Scope list_scope.
Local Open Scope Z_scope.

(* ================================================================= *)
(** ** JavaScript values and plain objects *)

(** The values this program stores in variables and object properties.
    Counters and array lengths stay far below 2^53, where arithmetic on
    doubles is exact integer arithmetic: they are carried as [Z]. *)
Inductive value : Type :=
| VUndefined
| VNaN
| VInt (n : Z)
| VString (s : string)
| VNative (key : string)       (* the built-in function Object.prototype[key] *)
| VObjectPrototype.            (* the object Object.prototype itself *)

Module JS.

(** ToBoolean. *)
Definition truthy (v : value) : bool :=
match v with
| VUndefined | VNaN => false
| VInt n => negb (n =? 0)
| VString s => negb (s =? "")%string
| VNative _ | VObjectPrototype => true
end.

(** [a || b]. *)
Definition or (a b : value) : value := if truthy a then a else b.

(** Strict equality [===] (and SameValueZero, which differs only on NaN
  and is used by [Array.prototype.includes]). *)
Definition strict_eq (a b : value) : bool :=
match a, b with
| VUndefined, VUndefined => true
| VInt n, VInt m => n =? m
| VString s, VString t => (s =? t)%string
| VNative f, VNative g => (f =? g)%string
| VObjectPrototype, VObjectPrototype => true
| _, _ => false
end.

Definition same_value_zero (a b : value) : bool :=
match a, b with
| VNaN, VNaN => true
| _, _ => strict_eq a b
end.

(** [arr.includes(v)] on an array of strings. *)
Definition includes (arr : list string) (v : value) : bool :=
existsb (fun s => same_value_zero (VString s) v) arr.

(** Decimal rendering of a non-negative integer ([Number.prototype.toString]). *)
Definition decimal (n : Z) : string :=
NilZero.string_of_uint (N.to_uint (Z.to_N n)).

(** The source text V8 prints for the built-in function stored under the
  key [key] of [Object.prototype] ([constructor] holds [Object]). *)
Definition native_source (key : string) : string :=
let name := if (key =? "constructor")%string then "Object" else key in
("function " ++ name ++ "() { [native code] }")%string.

(** ToString, as applied by [+] to a non-numeric operand. *)
Definition to_string (v : value) : string :=
match v with
| VUndefined => "undefined"
| VNaN => "NaN"
| VInt n => if n <? 0 then ("-" ++ decimal (- n))%string else decimal n
| VString s => s
| VNative f => native_source f
| VObjectPrototype => "[object Object]"
end.

(** [v + 1]: numeric addition on numbers, concatenation otherwise. *)
Definition plus_one (v : value) : value :=
match v with
| VInt n => VInt (n + 1)
| VUndefined | VNaN => VNaN
| _ => VString (to_string v ++ "1")%string
end.

(** *** Plain objects

  An object created by a literal: its own properties in creation
  order, and [Object.prototype] as its prototype. *)
Definition object := list (string * value).

(** The data properties of [Object.prototype] (all of them functions). *)
Definition prototype_methods : list string :=
[ "constructor"; "__defineGetter__"; "__defineSetter__"; "hasOwnProperty";
  "__lookupGetter__"; "__lookupSetter__"; "isPrototypeOf";
  "propertyIsEnumerable"; "toString"; "valueOf"; "toLocaleString" ].

Fixpoint get_own (o : object) (k : string) : option value :=
match o with
| [] => None
| (k', v) :: o' => if (k' =? k)%string then Some v else get_own o' k
end.

(** [Object.prototype[k]]: the accessor [__proto__] of an ordinary object
  returns its prototype. *)
Definition get_inherited (k : string) : value :=
if (k =? "__proto__")%string then VObjectPrototype
else if existsb (String.eqb k) prototype_methods then VNative k
else VUndefined.

(** [o[k]]: own property first, then the prototype chain. *)
Definition get (o : object) (k : string) : value :=
match get_own o k with
| Some v => v
| None => get_inherited k
end.

Fixpoint update_own (o : object) (k : string) (v : value) : object :=
match o with
| [] => [(k, v)]
| (k', v') :: o' =>
    if (k' =? k)%string then (k', v) :: o' else (k', v') :: update_own o' k v
end.

(** [o[k] = v] for a primitive [v] (this program assigns numbers and
  strings only): an own property is overwritten in place, a new one is
  appended (the inherited methods are writable data properties, so they
  are shadowed), and the inherited setter [__proto__] ignores a value
  that is not an object. *)
Definition set (o : object) (k : string) (v : value) : object :=
if (k =? "__proto__")%string then o else update_own o k v.

(** *** Array indices and the order of own keys *)

Definition digit_of (c : ascii) : option Z :=
let n := Z.of_nat (nat_of_ascii c) in
if (48 <=? n) && (n <=? 57) then Some (n - 48) else None.

Fixpoint digits_value (acc : Z) (s : string) : option Z :=
match s with
| EmptyString => Some acc
| String c s' =>
    match digit_of c with
    | Some d => digits_value (10 * acc + d) s'
    | None => None
    end
end.

(** A property key is an array index when it is the canonical decimal
  form of an integer in [0, 2^32 - 2]. *)
Definition array_index (k : string) : option Z :=
match k with
| EmptyString => None
| String c rest =>
    if (Ascii.eqb c "0"%char) && negb (rest =? "")%string then None
    else match digits_value 0 k with
         | Some n => if n <=? 4294967294 then Some n else None
         | None => None
         end
end.

Fixpoint insert_index (x : Z * (string * value)) (l : list (Z * (string * value)))
: list (Z * (string * value)) :=
match l with
| [] => [x]
| y :: l' => if fst x <=? fst y then x :: l else y :: insert_index x l'
end.

Definition index_entries (o : object) : list (Z * (string * value)) :=
flat_map (fun kv => match array_index (fst kv) with
                    | Some n => [(n, kv)]
                    | None => []
                    end) o.

Definition is_index (k : string) : bool :=
match array_index k with Some _ => true | None => false end.

(** OrdinaryOwnPropertyKeys: the array indices in ascending numeric
  order, then the other string keys in creation order. *)
Definition own_entries (o : object) : list (string * value) :=
map snd (fold_right insert_index [] (index_entries o))
++ filter (fun kv => negb (is_index (fst kv))) o.

Definition keys (o : object) : list string := map fst (own_entries o).
Definition values (o : object) : list value := map snd (own_entries o).

End JS.

(* ================================================================= *)
(** ** Status classification *)

Definition stageMapping : JS.object :=
  [ ("1", VString "NEW");
    ("2", VString "BACKLOG");
    ("3", VString "RESOURCE_SUPPORT");
    ("4", VString "CLOSED");
    ("257285392", VString "WAITING_FOR_RESPONSE");
    ("257285393", VString "COMPLETED");
    ("1686843097", VString "IN_PROCESS_STAFFMARK");
    ("1687677633", VString "EMPLOYMENT_SUPPORT");
    ("999098012", VString "IN_PROCESS_OSW");
    ("1746656967", VString "ARCHIVED") ].

(** [stageId] is [string | undefined]: [None] is an absent identifier. *)
Definition getStatusFromStage (stageId : option string) : value :=
  match stageId with
  | None => VString "UNKNOWN"
  | Some s =>
      if (s =? "")%string then VString "UNKNOWN"          (* !stageId *)
      else JS.or (JS.get stageMapping s) (VString ("STAGE_" ++ s)%string)
  end.

(* ================================================================= *)
(** ** Time values and the Date algorithms (ECMA-262, 21.4.1) *)

Module JSDate.

(** A time value: milliseconds since the epoch, or [None] for NaN (an
  Invalid Date).  Time values are integers of magnitude at most
  8.64e15, which doubles hold exactly. *)
Definition time := option Z.

Definition msPerDay : Z := 86400000.

Definition Day (t : Z) : Z := t / msPerDay.
Definition TimeWithinDay (t : Z) : Z := t mod msPerDay.

Definition DaysInYear (y : Z) : Z :=
if negb (y mod 4 =? 0) then 365
else if negb (y mod 100 =? 0) then 366
else if negb (y mod 400 =? 0) then 365
else 366.

Definition DayFromYear (y : Z) : Z :=
365 * (y - 1970) + (y - 1969) / 4 - (y - 1901) / 100 + (y - 1601) / 400.

Definition TimeFromYear (y : Z) : Z := msPerDay * DayFromYear y.

(** The largest [y] with [TimeFromYear y <= t], computed by cycles of
  400, 100, 4 and 1 years counted from 1 January 1601
  (see [YearFromTime_largest]). *)
Definition YearFromTime (t : Z) : Z :=
let d := Day t - DayFromYear 1601 in
let r := d mod 146097 in
let c := Z.min (r / 36524) 3 in
let r2 := r - c * 36524 in
let r3 := r2 mod 1461 in
1601 + 400 * (d / 146097) + 100 * c + 4 * (r2 / 1461) + Z.min (r3 / 365) 3.

Definition InLeapYear (t : Z) : Z :=
if DaysInYear (YearFromTime t) =? 366 then 1 else 0.

Definition DayWithinYear (t : Z) : Z := Day t - DayFromYear (YearFromTime t).

(** Number of the first day of month [m] (0 to 11) within its year. *)
Definition monthStart (m leap : Z) : Z :=
if m =? 0 then 0
else if m =? 1 then 31
else if m =? 2 then 59 + leap
else if m =? 3 then 90 + leap
else if m =? 4 then 120 + leap
else if m =? 5 then 151 + leap
else if m =? 6 then 181 + leap
else if m =? 7 then 212 + leap
else if m =? 8 then 243 + leap
else if m =? 9 then 273 + leap
else if m =? 10 then 304 + leap
else 334 + leap.

Definition MonthFromTime (t : Z) : Z :=
let d := DayWithinYear t in
let leap := InLeapYear t in
if d <? 31 then 0
else if d <? 59 + leap then 1
else if d <? 90 + leap then 2
else if d <? 120 + leap then 3
else if d <? 151 + leap then 4
else if d <? 181 + leap then 5
else if d <? 212 + leap then 6
else if d <? 243 + leap then 7
else if d <? 273 + leap then 8
else if d <? 304 + leap then 9
else if d <? 334 + leap then 10
else 11.

Definition DateFromTime (t : Z) : Z :=
DayWithinYear t - monthStart (MonthFromTime t) (InLeapYear t) + 1.

Definition WeekDay (t : Z) : Z := (Day t + 4) mod 7.

Definition MakeTime (hour min sec ms : Z) : Z :=
hour * 3600000 + min * 60000 + sec * 1000 + ms.

(** The day number of the first of the month is that of the time value
  whose year is [ym], month [mn] and date 1. *)
Definition MakeDay (year month date : Z) : Z :=
let ym := year + month / 12 in
let mn := month mod 12 in
let leap := if DaysInYear ym =? 366 then 1 else 0 in
DayFromYear ym + monthStart mn leap + date - 1.

Definition MakeDate (day tm : Z) : Z := day * msPerDay + tm.

Definition TimeClip (t : Z) : time :=
if 8640000000000000 <? Z.abs t then None else Some t.

(** The host: its string parser ([Date.parse], implementation-defined
  outside the ISO format) and the offset of its local time zone in
  milliseconds, the abstract operation [LocalTZA(t, isUTC)].  With [isUTC = true],
  [t] is a time value and the result is the offset in effect at that
  instant; with [isUTC = false], [t] is a local time value and the
  result is the offset the host resolves that clock reading with (the
  one before the transition when a clock change repeats or skips the
  reading).  The offset varies with [t] where the zone observes
  daylight-saving time. *)
Record Host : Type := {
Date_parse : string -> option Z;
LocalTZA : Z -> bool -> Z
}.

Section WithHost.
Variable h : Host.

Definition LocalTime (t : Z) : Z := t + LocalTZA h t true.
Definition UTC (t : Z) : Z := t - LocalTZA h t false.

(** [new Date(s)] for a string [s]. *)
Definition of_string (s : string) : time :=
match Date_parse h s with
| Some t => TimeClip t
| None => None
end.

(** [d.getDate()] and [d.getDay()]; NaN on an Invalid Date. *)
Definition getDate (d : time) : option Z :=
option_map (fun t => DateFromTime (LocalTime t)) d.
Definition getDay (d : time) : option Z :=
option_map (fun t => WeekDay (LocalTime t)) d.

(** [d.setDate(dt)]: the new time value of [d]. *)
Definition setDate (d : time) (dt : option Z) : time :=
match d, dt with
| Some u, Some n =>
  let t := LocalTime u in
  let newDate :=
    MakeDate (MakeDay (YearFromTime t) (MonthFromTime t) n) (TimeWithinDay t) in
  TimeClip (UTC newDate)
| _, _ => None
end.

(** [d.setHours(hour, min, sec, ms)]. *)
Definition setHours (d : time) (hour min sec ms : Z) : time :=
match d with
| Some u =>
  let t := LocalTime u in
  TimeClip (UTC (MakeDate (Day t) (MakeTime hour min sec ms)))
| None => None
end.
End WithHost.

(** [a >= b] on Dates: the comparison of their time values, false as soon
  as one is NaN. *)
Definition ge (a b : time) : bool :=
match a, b with
| Some x, Some y => y <=? x
| _, _ => false
end.

(** [a - b] on two numbers that are time values or NaN, kept as its sign
  (the difference of two distinct time values never rounds to zero). *)
Definition sub_sign (a b : time) : option comparison :=
match a, b with
| Some x, Some y => Some (x ?= y)
| _, _ => None
end.

End JSDate.

(* ================================================================= *)
(** ** Numbers: IEEE-754 binary64 *)

Module Double.

(** A finite double is an integer multiple of 2^-1074 (the spacing of
  the subnormals): [Finite n] stands for n * 2^-1074, where the
  magnitude of [n] is below 2^2098 and a multiple of the spacing of the
  doubles around it ([representable]). *)
Inductive number : Type :=
| NaN
| Infinity (negative : bool)
| NegZero
| Finite (n : Z).

Definition unit_exponent : Z := 1074.

(** The spacing of the doubles around a magnitude [m] is [2 ^ ulp_shift m]:
  53 significant bits. *)
Definition ulp_shift (m : Z) : Z := Z.max 0 (Z.log2 m - 52).

Definition representable (m : Z) : Prop := m mod 2 ^ ulp_shift m = 0.

(** Round to nearest, ties to even, of the positive rational [p / q]
  (counted in units of 2^-1074). *)
Definition round_ratio (p q : Z) : Z :=
let k := ulp_shift (p / q) in
let d := q * 2 ^ k in
let m := p / d in
let r := p mod d in
let up := (d <? 2 * r) || ((d =? 2 * r) && Z.odd m) in
(if up then m + 1 else m) * 2 ^ k.

Definition of_ratio (negative : bool) (p q : Z) : number :=
let n := round_ratio p q in
if n =? 0 then (if negative then NegZero else Finite 0)
else if 2 ^ 2098 <=? n then Infinity negative
else Finite (if negative then - n else n).

Definition of_Z (z : Z) : number := of_ratio (z <? 0) (Z.abs z * 2 ^ unit_exponent) 1.

(** [a + b]. *)
Definition add (a b : number) : number :=
match a, b with
| NaN, _ | _, NaN => NaN
| Infinity s, Infinity s' => if Bool.eqb s s' then Infinity s else NaN
| Infinity s, _ | _, Infinity s => Infinity s
| NegZero, y => y
| x, NegZero => x
| Finite x, Finite y => of_ratio (x + y <? 0) (Z.abs (x + y)) 1
end.

(** [a <= b]. *)
Definition leb (a b : number) : bool :=
match a, b with
| NaN, _ | _, NaN => false
| Infinity true, _ => true
| _, Infinity false => true
| Infinity false, _ => false
| _, Infinity true => false
| NegZero, NegZero => true
| NegZero, Finite y => 0 <=? y
| Finite x, NegZero => x <=? 0
| Finite x, Finite y => x <=? y
end.

Definition isNaN (a : number) : bool :=
match a with NaN => true | _ => false end.

(** *** parseFloat *)

(** White space and line terminators among the 8-bit characters. *)
Definition is_white_space (c : ascii) : bool :=
let n := nat_of_ascii c in
((9 <=? n) && (n <=? 13))%nat || (n =? 32)%nat || (n =? 160)%nat.

Fixpoint trim_start (s : string) : string :=
match s with
| String c s' => if is_white_space c then trim_start s' else s
| EmptyString => s
end.

(** The longest prefix of decimal digits, and what follows it. *)
Fixpoint take_digits (s : string) : list Z * string :=
match s with
| String c s' =>
    match JS.digit_of c with
    | Some d => let (ds, rest) := take_digits s' in (d :: ds, rest)
    | None => ([], s)
    end
| EmptyString => ([], s)
end.

Definition digits_to_Z (ds : list Z) : Z :=
fold_left (fun acc d => 10 * acc + d) ds 0.

Definition take_sign (s : string) : bool * string :=
match s with
| String "+" s' => (false, s')
| String "-" s' => (true, s')
| _ => (false, s)
end.

(** The value of an ExponentPart at the head of [s]; 0 when there is none
  (an [e] that no digit follows is not part of the literal). *)
Definition take_exponent (s : string) : Z :=
match s with
| String c s' =>
    if (Ascii.eqb c "e" || Ascii.eqb c "E")%bool then
      let (neg, s'') := take_sign s' in
      match take_digits s'' with
      | ([], _) => 0
      | (ds, _) => if neg then - digits_to_Z ds else digits_to_Z ds
      end
    else 0
| EmptyString => 0
end.

(** [parseFloat(input)]: the longest prefix of the trimmed string that is
  a StrDecimalLiteral, rounded to the nearest double; NaN without one. *)
Definition parseFloat (input : string) : number :=
let (neg, s1) := take_sign (trim_start input) in
if String.prefix "Infinity" s1 then Infinity neg
else
  let (ip, s2) := take_digits s1 in
  let (fp, s3) :=
    match s2 with
    | String "." s' => take_digits s'
    | _ => ([], s2)
    end in
  match ip ++ fp with
  | [] => NaN
  | ds =>
      let m := digits_to_Z ds in
      let e := take_exponent s3 - Z.of_nat (List.length fp) in
      if 0 <=? e then of_ratio neg (m * 10 ^ e * 2 ^ unit_exponent) 1
      else of_ratio neg (m * 2 ^ unit_exponent) (10 ^ (- e))
  end.

End Double.

(* ================================================================= *)
(** ** Exceptions *)

Record Error : Type := { name : string; message : string }.

Inductive completion (A : Type) : Type :=
| Normal (a : A)
| Throw (e : Error).
Arguments Normal {A} a.
Arguments Throw {A} e.

Definition bind {A B : Type} (c : completion A) (k : A -> completion B) : completion B :=
  match c with
  | Normal a => k a
  | Throw e => Throw e
  end.

Notation "x <- c ;; k" := (bind c (fun x => k))
  (at level 61, c at next level, right associativity).

(* ================================================================= *)
(** ** Ticket records *)

(** The attribute bag, restricted to the fields the program reads; an
    absent (or null) attribute is [None]. *)
Record Properties : Type := {
  hs_pipeline_stage : option string;
  createdate : option string;
  service_provided : option string;
  crisis_wish : option string;
  birthday : option string
}.

(** [status] is declared a string and is what [getStatusFromStage]
    returned for the ticket. *)
Record HubSpotTicket : Type := {
  id : string;
  status : value;
  created_at : option string;
  properties : Properties
}.

(** A string-valued condition [if (s)]: present and not empty. *)
Definition present (s : option string) : option string :=
  match s with
  | Some x => if (x =? "")%string then None else Some x
  | None => None
  end.

(* ================================================================= *)
(** ** The ticket aggregator *)

Record DashboardStats : Type := {
  open_tickets : Z;
  new_tickets_this_week : Z;
  osw_count : Z;
  staffmark_count : Z;
  closed_tickets : Z
}.

Definition openStatuses : list string :=
  [ "NEW"; "BACKLOG"; "RESOURCE_SUPPORT"; "EMPLOYMENT_SUPPORT";
    "IN_PROCESS_STAFFMARK"; "IN_PROCESS_OSW"; "WAITING_FOR_RESPONSE" ].

Definition closedStatuses : list string := [ "CLOSED"; "COMPLETED"; "ARCHIVED" ].

(** [arr.filter(p).length]. *)
Definition count {A : Type} (p : A -> bool) (l : list A) : Z :=
  Z.of_nat (List.length (filter p l)).

(** The Date [startOfWeek] after its two updates, for [today = new Date()]
    read at the instant [now]. *)
Definition startOfWeek (h : JSDate.Host) (now : Z) : JSDate.time :=
  let today := Some now in
  let startOfWeek := today in
  let startOfWeek :=
    JSDate.setDate h startOfWeek
      (match JSDate.getDate h today, JSDate.getDay h today with
       | Some date, Some day => Some (date - day)
       | _, _ => None
       end) in
  JSDate.setHours h startOfWeek 0 0 0 0.

Definition createdThisWeek (h : JSDate.Host) (start : JSDate.time)
    (ticket : HubSpotTicket) : bool :=
  match present (created_at ticket) with
  | None => false
  | Some s => JSDate.ge (JSDate.of_string h s) start
  end.

Definition generateDashboardStats (h : JSDate.Host) (now : Z)
    (tickets : list HubSpotTicket) : DashboardStats :=
  match tickets with
  | [] =>
      {| open_tickets := 0; new_tickets_this_week := 0; osw_count := 0;
         staffmark_count := 0; closed_tickets := 0 |}
  | _ =>
      let openTickets := count (fun t => JS.includes openStatuses (status t)) tickets in
      let closedTickets := count (fun t => JS.includes closedStatuses (status t)) tickets in
      let oswCount :=
        count (fun t => JS.strict_eq (status t) (VString "IN_PROCESS_OSW")) tickets in
      let staffmarkCount :=
        count (fun t => JS.strict_eq (status t) (VString "IN_PROCESS_STAFFMARK")) tickets in
      let newTicketsThisWeek := count (createdThisWeek h (startOfWeek h now)) tickets in
      {| open_tickets := openTickets;
         new_tickets_this_week := newTicketsThisWeek;
         osw_count := oswCount;
         staffmark_count := staffmarkCount;
         closed_tickets := closedTickets |}
  end.

(* ================================================================= *)
(** ** Date.prototype.toISOString *)

Module ISO.
Import JSDate.

Fixpoint zeros (n : nat) : string :=
match n with
| O => ""
| S n' => String "0" (zeros n')
end.

Definition pad (width : nat) (n : Z) : string :=
let s := JS.decimal n in
(zeros (width - String.length s) ++ s)%string.

Definition year_text (y : Z) : string :=
if (0 <=? y) && (y <=? 9999) then pad 4 y
else
  let sign := if y <? 0 then "-" else "+" in
  (sign ++ pad 6 (Z.abs y))%string.

Definition text (t : Z) : string :=
let month := MonthFromTime t + 1 in
let hour := (t / 3600000) mod 24 in
let minute := (t / 60000) mod 60 in
let second := (t / 1000) mod 60 in
let ms := t mod 1000 in
(year_text (YearFromTime t) ++ "-" ++ pad 2 month ++ "-" ++ pad 2 (DateFromTime t)
 ++ "T" ++ pad 2 hour ++ ":" ++ pad 2 minute ++ ":" ++ pad 2 second
 ++ "." ++ pad 3 ms ++ "Z")%string.

(** [d.toISOString()] throws a RangeError on an Invalid Date. *)
Definition toISOString (d : time) : completion string :=
match d with
| Some t => Normal (text t)
| None => Throw {| name := "RangeError"; message := "Invalid time value" |}
end.

(** [s.split('T')[0]]. *)
Fixpoint before_T (s : string) : string :=
match s with
| EmptyString => ""
| String c s' => if Ascii.eqb c "T" then "" else String c (before_T s')
end.
End ISO.

(* ================================================================= *)
(** ** The chart data builder

    Each payload is the document that [JSON.stringify] serializes, cut
    down to its series: the layout and style constants are left out. *)

Record ResourceChart : Type := {
  resource_x : list string;
  resource_y : list Z;
  resource_text : list string
}.

Record ServiceChart : Type := {
  labels : list string;
  values : list value
}.

Record CrisisChart : Type := {
  dates : list string;
  runningCounts : list Z;
  runningTotals : list Double.number
}.

Record AgeSeries : Type := {
  age_x : list Z;
  age_y : list string;
  age_text : list string
}.

Record AgeChart : Type := {
  age_data : list AgeSeries;
  age_title : string
}.

Record Charts : Type := {
  resource_support : ResourceChart;
  service_chart : ServiceChart;
  crisis_wish_tracking : CrisisChart;
  age_demographics : AgeChart
}.

(** *** Resource support *)

Definition resourceChart (tickets : list HubSpotTicket) : ResourceChart :=
  let resourceSupportCount :=
    count (fun t => JS.strict_eq (status t) (VString "RESOURCE_SUPPORT")) tickets in
  let waitingResponseCount :=
    count (fun t => JS.strict_eq (status t) (VString "WAITING_FOR_RESPONSE")) tickets in
  {| resource_x := ["Resource"; "Waiting"];
     resource_y := [resourceSupportCount; waitingResponseCount];
     resource_text := [JS.decimal resourceSupportCount; JS.decimal waitingResponseCount] |}.

(** *** Service provided *)

(** One round of the [forEach] that fills [serviceCounts]. *)
Definition countService (serviceCounts : JS.object) (ticket : HubSpotTicket) : JS.object :=
  match service_provided (properties ticket) with
  | Some service =>
      if negb (service =? "")%string && negb (service =? "null")%string
         && negb (service =? "")%string
      then JS.set serviceCounts service
             (JS.plus_one (JS.or (JS.get serviceCounts service) (VInt 0)))
      else serviceCounts
  | None => serviceCounts
  end.

Definition serviceCounts (tickets : list HubSpotTicket) : JS.object :=
  fold_left countService tickets [].

Definition serviceChart (tickets : list HubSpotTicket) : ServiceChart :=
  let counts := serviceCounts tickets in
  {| labels := JS.keys counts; values := JS.values counts |}.

(** *** Crisis wish tracking *)

Record CrisisItem : Type := { date : JSDate.time; amount : Double.number }.

(** One round of the [forEach] that fills [crisisData] ([parseFloat]
    does not throw: the [catch] is never entered). *)
Definition crisisEntry (h : JSDate.Host) (ticket : HubSpotTicket) : list CrisisItem :=
  match present (crisis_wish (properties ticket)), present (created_at ticket) with
  | Some crisisWish, Some createdAt =>
      let amount := Double.parseFloat crisisWish in
      if negb (Double.isNaN amount)
      then [ {| date := JSDate.of_string h createdAt; amount := amount |} ]
      else []
  | _, _ => []
  end.

Definition crisisData (h : JSDate.Host) (tickets : list HubSpotTicket) : list CrisisItem :=
  flat_map (crisisEntry h) tickets.

(** [Array.prototype.sort]: stable, the comparator's result kept as its
    sign, a NaN result counted as zero. *)
Fixpoint insert {A : Type} (cmp : A -> A -> comparison) (x : A) (l : list A) : list A :=
  match l with
  | [] => [x]
  | y :: l' =>
      match cmp x y with
      | Gt => y :: insert cmp x l'
      | _ => x :: l
      end
  end.

Definition sort {A : Type} (cmp : A -> A -> comparison) (l : list A) : list A :=
  fold_right (insert cmp) [] l.

(** [(a, b) => a.date.getTime() - b.date.getTime()]. *)
Definition byDate (a b : CrisisItem) : comparison :=
  match JSDate.sub_sign (date a) (date b) with
  | Some c => c
  | None => Eq
  end.

(** The [forEach] over the sorted [crisisData], from position [index] and
    with [runningTotal] so far: the three arrays it fills. *)
Fixpoint runningTally (items : list CrisisItem) (index : Z) (runningTotal : Double.number)
  : completion (list Z * list Double.number * list string) :=
  match items with
  | [] => Normal ([], [], [])
  | item :: rest =>
      let runningTotal := Double.add runningTotal (amount item) in
      iso <- ISO.toISOString (date item) ;;
      let day := JS.or (VString (ISO.before_T iso)) (VString "") in
      tail <- runningTally rest (index + 1) runningTotal ;;
      let '(counts, totals, days) := tail in
      Normal ((index + 1) :: counts, runningTotal :: totals, JS.to_string day :: days)
  end.

Definition crisisChart (h : JSDate.Host) (tickets : list HubSpotTicket)
  : completion CrisisChart :=
  let sorted := sort byDate (crisisData h tickets) in
  tally <- runningTally sorted 0 (Double.Finite 0) ;;
  let '(counts, totals, days) := tally in
  Normal {| dates := days; runningCounts := counts; runningTotals := totals |}.

(** *** Age demographics *)

(** [365.25 * 24 * 60 * 60 * 1000]. *)
Definition msPerYear : Z := 31557600000.

(** [Math.floor((currentDate.getTime() - birthDate.getTime()) / msPerYear)],
    NaN for an Invalid Date, with the exact quotient.  The program divides
    doubles ([ageOfDoubles] below): the floor is the same wherever the age
    is at most 121, and on both sides an age outside [0, 120] is one
    ([age_in_doubles]); beyond 2^53 milliseconds the two floors can differ
    by one. *)
Definition ageAt (now : Z) (birthDate : JSDate.time) : option Z :=
  option_map (fun b => (now - b) / msPerYear) birthDate.

(** One round of the [forEach] that fills [ages] ([new Date] does not
    throw: the [catch] is never entered). *)
Definition ageEntry (h : JSDate.Host) (now : Z) (ticket : HubSpotTicket) : list Z :=
  match present (birthday (properties ticket)) with
  | Some birthday =>
      match ageAt now (JSDate.of_string h birthday) with
      | Some age => if (0 <=? age) && (age <=? 120) then [age] else []
      | None => []
      end
  | None => []
  end.

Definition ages (h : JSDate.Host) (now : Z) (tickets : list HubSpotTicket) : list Z :=
  flat_map (ageEntry h now) tickets.

Definition ageGroupsInitial : list (string * Z) :=
  [ ("0-17", 0); ("18-24", 0); ("25-34", 0); ("35-44", 0);
    ("45-54", 0); ("55-64", 0); ("65+", 0) ].

(** [groups[i][1]++]. *)
Fixpoint increment (i : nat) (groups : list (string * Z)) : list (string * Z) :=
  match groups, i with
  | [], _ => []
  | (label, n) :: rest, O => (label, n + 1) :: rest
  | g :: rest, S i' => g :: increment i' rest
  end.

Definition ageGroupIndex (age : Z) : nat :=
  if age <? 18 then 0
  else if age <? 25 then 1
  else if age <? 35 then 2
  else if age <? 45 then 3
  else if age <? 55 then 4
  else if age <? 65 then 5
  else 6.

Definition ageGroupsOrdered (ages : list Z) : list (string * Z) :=
  fold_left (fun groups age => increment (ageGroupIndex age) groups) ages ageGroupsInitial.

Definition ageChart (h : JSDate.Host) (now : Z) (tickets : list HubSpotTicket) : AgeChart :=
  let ages := ages h now tickets in
  let filteredGroups := filter (fun g => 0 <? snd g) (ageGroupsOrdered ages) in
  if (0 <? Z.of_nat (List.length filteredGroups)) then
    {| age_data :=
         [ {| age_x := map snd filteredGroups;
              age_y := map fst filteredGroups;
              age_text := map (fun g => JS.decimal (snd g)) filteredGroups |} ];
       age_title :=
         let people := JS.decimal (Z.of_nat (List.length ages)) in
         ("Age Demographics Distribution (" ++ people ++ " people)")%string |}
  else
    {| age_data := []; age_title := "Age Demographics - No Data Available" |}.

(** The second argument is the instant read by [currentDate = new Date()]. *)
Definition generateCharts (h : JSDate.Host) (now : Z) (tickets : list HubSpotTicket)
  : completion Charts :=
  let resource := resourceChart tickets in
  let service := serviceChart tickets in
  crisis <- crisisChart h tickets ;;
  let age := ageChart h now tickets in
  Normal {| resource_support := resource;
            service_chart := service;
            crisis_wish_tracking := crisis;
            age_demographics := age |}.

(* ================================================================= *)
(** ** The inbound fetch and the GET handler *)

Record RawTicket : Type := {
  raw_id : string;
  raw_properties : Properties
}.

(** The parsed body of one page: [data.results] and [data.paging.next.after]. *)
Record Page : Type := {
  results : option (list RawTicket);
  paging_next_after : option string
}.

Record Response : Type := {
  ok : bool;
  response_status : Z;
  statusText : string;
  json : completion Page        (* [response.json()] rejects on a malformed body *)
}.

Inductive FetchResult : Type :=
| Rejected (e : Error)          (* transport error: fetch rejects with a TypeError *)
| Fulfilled (r : Response).

Record Request : Type := {
  url : string;
  search_limit : string;
  search_properties : string;
  search_after : option string;
  header_authorization : string;
  header_content_type : string
}.

(** What a request of the handler depends on: the process environment,
    the network (the answer to the n-th call of [fetch]), the host, and the
    two instants read by [new Date()]. *)
Record Environment : Type := {
  HUBSPOT_API_KEY : option string;
  fetch : nat -> Request -> FetchResult;
  env_host : JSDate.Host;
  statsInstant : Z;
  chartsInstant : Z
}.

Definition requestedProperties : list string :=
  [ "subject"; "content"; "hs_pipeline_stage"; "hs_ticket_priority";
    "source_type"; "hs_ticket_category"; "hubspot_owner_id";
    "createdate"; "hs_lastmodifieddate";
    "closed_date"; "time_to_close";
    "service_provided"; "county"; "zip_code_for_request";
    "amount_needed"; "crisis_wish"; "birthday" ].

Definition transformTicket (ticket : RawTicket) : HubSpotTicket :=
  {| id := raw_id ticket;
     status := getStatusFromStage (hs_pipeline_stage (raw_properties ticket));
     created_at := createdate (raw_properties ticket);
     properties := raw_properties ticket |}.

Definition apiError (response : Response) : Error :=
  let code := JS.to_string (VInt (response_status response)) in
  {| name := "Error";
     message := ("HubSpot API error: " ++ code ++ " " ++ statusText response)%string |}.

(** The request of one round of the loop: [after] is appended when it is
    set and not empty. *)
Definition pageRequest (apiKey : string) (after : option string) : Request :=
  {| url := "https://api.hubapi.com/crm/v3/objects/tickets";
     search_limit := "100";
     search_properties := String.concat "," requestedProperties;
     search_after := present after;
     header_authorization := ("Bearer " ++ apiKey)%string;
     header_content_type := "application/json" |}.

(** The [while (true)] loop, [fuel] pages at most: [None] when the loop is
    still running after [fuel] pages.  [call] counts the calls of [fetch]. *)
Fixpoint fetchPages (env : Environment) (apiKey : string) (fuel call : nat)
    (after : option string) (allTickets : list HubSpotTicket)
  : option (completion (list HubSpotTicket)) :=
  match fuel with
  | O => None
  | S fuel' =>
      match fetch env call (pageRequest apiKey after) with
      | Rejected e => Some (Throw e)
      | Fulfilled response =>
          if negb (ok response) then Some (Throw (apiError response))
          else
            match json response with
            | Throw e => Some (Throw e)
            | Normal data =>
                let transformedTickets :=
                  match results data with
                  | Some rs => map transformTicket rs
                  | None => []
                  end in
                let allTickets := allTickets ++ transformedTickets in
                match present (paging_next_after data) with
                | None => Some (Normal allTickets)
                | Some next => fetchPages env apiKey fuel' (S call) (Some next) allTickets
                end
            end
      end
  end.

(** The [catch] of [fetchHubSpotTickets] logs and rethrows. *)
Definition fetchHubSpotTickets (env : Environment) (fuel : nat)
  : option (completion (list HubSpotTicket)) :=
  match present (HUBSPOT_API_KEY env) with
  | None =>
      Some (Throw {| name := "Error";
                     message := "HUBSPOT_API_KEY environment variable is not set" |})
  | Some apiKey => fetchPages env apiKey fuel 0 None []
  end.

Record DashboardResponse : Type := {
  success : bool;
  stats : option DashboardStats;
  charts : option Charts;
  error : option string
}.

Record NextResponse : Type := {
  http_status : Z;
  body : DashboardResponse
}.

(** The [try] block of [GET] once the tickets are there. *)
Definition respond (env : Environment) (tickets : list HubSpotTicket)
  : completion DashboardResponse :=
  let stats := generateDashboardStats (env_host env) (statsInstant env) tickets in
  charts <- generateCharts (env_host env) (chartsInstant env) tickets ;;
  Normal {| success := true; stats := Some stats; charts := Some charts; error := None |}.

(** Every value thrown here is an instance of [Error]: the [catch] of
    [GET] answers with its message. *)
Definition failure (e : Error) : NextResponse :=
  {| http_status := 500;
     body := {| success := false; stats := None; charts := None;
                error := Some (message e) |} |}.

Definition GET (env : Environment) (fuel : nat) : option NextResponse :=
  match fetchHubSpotTickets env fuel with
  | None => None
  | Some fetched =>
      Some match tickets <- fetched ;; respond env tickets with
           | Normal response => {| http_status := 200; body := response |}
           | Throw e => failure e
           end
  end.

(* ================================================================= *)
(** ** A sample host

    Used to run the program on concrete tickets: a parser of the two ISO
    forms [YYYY-MM-DD] and [YYYY-MM-DDTHH:mm:ss.sssZ] (NaN on anything
    else), and a local time five hours behind UTC. *)

Module Sample.
Import JSDate.

Definition field (s : string) (start len : nat) : option Z :=
JS.digits_value 0 (String.substring start len s).

Definition sep (s : string) (pos : nat) (c : ascii) : bool :=
match String.get pos s with
| Some c' => Ascii.eqb c c'
| None => false
end.

Definition daysInMonth (y m : Z) : Z :=
MakeDay y (m + 1) 1 - MakeDay y m 1.

Definition parseDay (s : string) : option Z :=
match field s 0 4, field s 5 2, field s 8 2 with
| Some y, Some m, Some d =>
    if sep s 4 "-" && sep s 7 "-" && (1 <=? m) && (m <=? 12)
       && (1 <=? d) && (d <=? daysInMonth y (m - 1))
    then Some (MakeDay y (m - 1) d)
    else None
| _, _, _ => None
end.

Definition parseClock (s : string) : option Z :=
match field s 11 2, field s 14 2, field s 17 2, field s 20 3 with
| Some hh, Some mm, Some ss, Some ms =>
    if sep s 10 "T" && sep s 13 ":" && sep s 16 ":" && sep s 19 "." && sep s 23 "Z"
       && (hh <=? 23) && (mm <=? 59) && (ss <=? 59)
    then Some (MakeTime hh mm ss ms)
    else None
| _, _, _, _ => None
end.

Definition parse (s : string) : option Z :=
if (String.length s =? 10)%nat then
  option_map (fun day => MakeDate day 0) (parseDay s)
else if (String.length s =? 24)%nat then
  match parseDay s, parseClock s with
  | Some day, Some tm => Some (MakeDate day tm)
  | _, _ => None
  end
else None.

Definition host : Host :=
{| Date_parse := parse; LocalTZA := fun _ _ => - 18000000 |}.

Definition raw (stage created service wish born : option string) : RawTicket :=
{| raw_id := "1";
   raw_properties :=
     {| hs_pipeline_stage := stage; createdate := created;
        service_provided := service; crisis_wish := wish; birthday := born |} |}.

Definition ticket (stage created service wish born : option string) : HubSpotTicket :=
transformTicket (raw stage created service wish born).

(** A successful answer carrying one page. *)
Definition page (tickets : list RawTicket) (next : option string) : FetchResult :=
Fulfilled {| ok := true; response_status := 200; statusText := "OK";
             json := Normal {| results := Some tickets; paging_next_after := next |} |}.

(** An answer with a status that is not a success. *)
Definition refusal (code : Z) (text : string) : FetchResult :=
Fulfilled {| ok := false; response_status := code; statusText := text;
             json := Normal {| results := None; paging_next_after := None |} |}.

(** A network that answers the n-th call with the n-th element of
  [answers], and rejects any further call. *)
Definition network (answers : list FetchResult) (call : nat) (_ : Request) : FetchResult :=
nth call answers (Rejected {| name := "TypeError"; message := "fetch failed" |}).

Definition env (key : option string) (answers : list FetchResult) : Environment :=
{| HUBSPOT_API_KEY := key; fetch := network answers; env_host := host;
   statsInstant := 1793701230123; chartsInstant := 1793701230124 |}.
End Sample.

(* ================================================================= *)
(** ** Vocabulary of the specification *)

(** The status lies in the Open set or in the Closed set. *)
Definition settled (v : value) : Prop :=
  JS.includes openStatuses v = true \/ JS.includes closedStatuses v = true.

(** The status is UNKNOWN or of the form STAGE_<code>. *)
Definition unclassified (v : value) : Prop :=
  v = VString "UNKNOWN" \/ exists code, v = VString ("STAGE_" ++ code)%string.

(** The stage code is a key of the static table. *)
Definition tabulated (code : string) : bool :=
  match JS.get_own stageMapping code with
  | Some _ => true
  | None => false
  end.

(** The stage code names a member that plain objects inherit. *)
Definition inherited (code : string) : bool :=
  JS.truthy (JS.get_inherited code).

(** The ticket was created on or after [boundary]: its [created_at] is
    there, is not empty, and parses to a time value that is at least
    [boundary]. *)
Definition createdOnOrAfter (h : JSDate.Host) (boundary : Z) (t : HubSpotTicket) : bool :=
  match created_at t with
  | Some s =>
      if (s =? "")%string then false
      else match JSDate.of_string h s with
           | Some created => boundary <=? created
           | None => false
           end
  | None => false
  end.

(** [start] is the most recent Sunday 00:00:00.000 of the host's local
    time at the instant [now], seven days before [now] at most: the
    reading of a week of seven times 24 hours. *)
Definition mostRecentSunday (h : JSDate.Host) (now start : Z) : Prop :=
  JSDate.TimeWithinDay (JSDate.LocalTime h start) = 0
  /\ JSDate.WeekDay (JSDate.LocalTime h start) = 0
  /\ start <= now < start + 7 * JSDate.msPerDay.

(** The host's offset never changes: a zone without daylight-saving
    time. *)
Definition fixedOffset (h : JSDate.Host) (offset : Z) : Prop :=
  forall (t : Z) (isUTC : bool), JSDate.LocalTZA h t isUTC = offset.

(** [start] is the most recent Sunday 00:00:00 local time at [now], on a
    host whose clock may change through the week: at the instant [start]
    the local clock reads 00:00:00.000 on a Sunday, and that Sunday is the
    local date of [now] or one of the six dates before it. *)
Definition weekStart (h : JSDate.Host) (now start : Z) : Prop :=
  JSDate.TimeWithinDay (JSDate.LocalTime h start) = 0
  /\ JSDate.WeekDay (JSDate.LocalTime h start) = 0
  /\ JSDate.Day (JSDate.LocalTime h start) <= JSDate.Day (JSDate.LocalTime h now)
     < JSDate.Day (JSDate.LocalTime h start) + 7.

(** The statistic as the specification words it: there is a most recent
    Sunday 00:00:00 local time, and the statistic counts the tickets
    created on or after it. *)
Definition weekStartAsSpecified (h : JSDate.Host) (now : Z)
    (tickets : list HubSpotTicket) : Prop :=
  exists start : Z,
    weekStart h now start
    /\ new_tickets_this_week (generateDashboardStats h now tickets)
       = count (createdOnOrAfter h start) tickets.

(** The two clock readings the code asks the host to resolve: the reading
    of [now] moved back to the most recent Sunday, hour unchanged
    ([setDate]), and 00:00:00.000 of that Sunday ([setHours]). *)
Definition sameHourOnSunday (h : JSDate.Host) (now : Z) : Z :=
  JSDate.LocalTime h now - JSDate.WeekDay (JSDate.LocalTime h now) * JSDate.msPerDay.

Definition sundayMidnight (h : JSDate.Host) (now : Z) : Z :=
  (JSDate.Day (JSDate.LocalTime h now) - JSDate.WeekDay (JSDate.LocalTime h now))
  * JSDate.msPerDay.

(** No clock change disturbs the two readings: the host resolves the first
    to an instant of that Sunday's date, and the second to an instant at
    which the clock shows it (a change that skips the midnight resolves it
    to a later reading). *)
Definition undisturbed (h : JSDate.Host) (now : Z) : Prop :=
  JSDate.Day (JSDate.LocalTime h (JSDate.UTC h (sameHourOnSunday h now)))
  = JSDate.Day (sameHourOnSunday h now)
  /\ JSDate.LocalTime h (JSDate.UTC h (sundayMidnight h now)) = sundayMidnight h now.

(** Hosts whose clock changes. *)
Module Zones.

(** The offsets of a zone with one clock change, at the instant [change],
    from the offset [before] to the offset [after].  A local time value
    that the change repeats or skips is resolved with the offset before
    the change. *)
Definition oneChange (change before after : Z) (t : Z) (isUTC : bool) : Z :=
  if isUTC
  then (if t <? change then before else after)
  else (if t <? change + Z.max before after then before else after).

(** America/New_York in the autumn of 2026: daylight time (four hours
    behind UTC) ends on Sunday 1 November at 06:00 UTC, 02:00 on the
    local clock, which goes back to 01:00. *)
Definition newYork : JSDate.Host :=
  {| JSDate.Date_parse := Sample.parse;
     JSDate.LocalTZA := oneChange 1793512800000 (- 14400000) (- 18000000) |}.

(** America/Havana in the spring of 2026: daylight time begins on Sunday
    8 March at 05:00 UTC, 00:00 on the local clock, which goes on to
    01:00. *)
Definition havana : JSDate.Host :=
  {| JSDate.Date_parse := Sample.parse;
     JSDate.LocalTZA := oneChange 1772946000000 (- 18000000) (- 14400000) |}.

End Zones.

(** The seven age ranges, ascending, with the bounds of each. *)
Definition ageRanges : list (string * (Z * Z)) :=
  [ ("0-17", (0, 17)); ("18-24", (18, 24)); ("25-34", (25, 34)); ("35-44", (35, 44));
    ("45-54", (45, 54)); ("55-64", (55, 64)); ("65+", (65, 120)) ].

(** The age in whole years that a ticket's birthday yields at [now]; none
    when the birthday is absent, empty or unparsable. *)
Definition ticketAge (h : JSDate.Host) (now : Z) (t : HubSpotTicket) : option Z :=
  match present (birthday (properties t)) with
  | Some b => ageAt now (JSDate.of_string h b)
  | None => None
  end.

Definition inRange (range : Z * Z) (age : option Z) : bool :=
  match age with
  | Some a => (fst range <=? a) && (a <=? snd range)
  | None => false
  end.

(** The histogram of the specification: for each range in ascending order
    the number of tickets whose age falls in it, ranges without a member
    left out. *)
Definition histogram (h : JSDate.Host) (now : Z) (tickets : list HubSpotTicket)
  : list (string * Z) :=
  filter (fun g => 0 <? snd g)
    (map (fun r => (fst r, count (fun t => inRange (snd r) (ticketAge h now t)) tickets))
       ageRanges).

(** A year of 365.25 days in milliseconds: 1461 quarters of a day. *)
Definition yearOfDays : Z := 1461 * 21600000.

(** [age] is the number of whole years of 365.25 days from the instant
    [birth] to [now]. *)
Definition wholeYears (birth now age : Z) : Prop :=
  age * yearOfDays <= now - birth < (age + 1) * yearOfDays.

(** The ticket carries a birthday that is not empty and parses to the
    instant [birth]. *)
Definition bornAt (h : JSDate.Host) (t : HubSpotTicket) (birth : Z) : Prop :=
  exists b : string,
    birthday (properties t) = Some b /\ b <> ""%string
    /\ JSDate.of_string h b = Some birth.

(** The instant a ticket's birthday parses to, if it does. *)
Definition birthOf (h : JSDate.Host) (t : HubSpotTicket) : option Z :=
  match birthday (properties t) with
  | Some b => if (b =? "")%string then None else JSDate.of_string h b
  | None => None
  end.

(** The ticket's birthday lies at least [fst range] and less than
    [snd range + 1] years of 365.25 days before [now]. *)
Definition agedWithin (h : JSDate.Host) (now : Z) (range : Z * Z)
    (t : HubSpotTicket) : bool :=
  match birthOf h t with
  | Some birth =>
      (fst range * yearOfDays <=? now - birth)
      && (now - birth <? (snd range + 1) * yearOfDays)
  | None => false
  end.

(** The histogram read off the birthdays: for each range in ascending
    order the number of tickets born that many years before [now], ranges
    without a member left out. *)
Definition histogramOfBirthdays (h : JSDate.Host) (now : Z)
    (tickets : list HubSpotTicket) : list (string * Z) :=
  filter (fun g => 0 <? snd g)
    (map (fun r => (fst r, count (agedWithin h now (snd r)) tickets)) ageRanges).

(** The bars of an age chart: label and count, in the order of the series. *)
Definition bars (c : AgeChart) : list (string * Z) :=
  flat_map (fun s => combine (age_y s) (age_x s)) (age_data c).

(** The explicit empty-chart marker. *)
Definition emptyAgeChart : AgeChart :=
  {| age_data := []; age_title := "Age Demographics - No Data Available" |}.

(** A running total: a double that is not negative and not NaN. *)
Definition isTotal (a : Double.number) : Prop :=
  match a with
  | Double.Finite n => 0 <= n /\ Double.representable n
  | Double.Infinity false => True
  | _ => False
  end.

(** [0 <= a]. *)
Definition nonNegative (a : Double.number) : Prop :=
  Double.leb (Double.Finite 0) a = true.

(** The cumulative sums of [amounts] on top of [total]. *)
Fixpoint partialSums (total : Double.number) (amounts : list Double.number)
  : list Double.number :=
  match amounts with
  | [] => []
  | a :: rest => Double.add total a :: partialSums (Double.add total a) rest
  end.

(** A sequence of numbers that never decreases from one entry to the next. *)
Definition nonDecreasing (l : list Double.number) : Prop :=
  Sorted (fun a b => Double.leb a b = true) l.

(** [a] is dated no later than [b], both dates being valid. *)
Definition dateLe (a b : CrisisItem) : Prop :=
  match date a, date b with
  | Some x, Some y => x <= y
  | _, _ => False
  end.

(** The items are in ascending order of their dates. *)
Definition byAscendingDate (items : list CrisisItem) : Prop := Sorted dateLe items.

(** What [toISOString] throws on an Invalid Date. *)
Definition rangeError : Error :=
  {| name := "RangeError"; message := "Invalid time value" |}.

(** The calendar day [YYYY-MM-DD] (UTC) of an item's date. *)
Definition isoDay (item : CrisisItem) : string :=
  match date item with
  | Some t => ISO.before_T (ISO.text t)
  | None => ""
  end.

(** The crisis-wish chart as the specification words it: it is emitted,
    its running count is 1, 2, 3, ... over the selected records, and its
    running total never decreases. *)
Definition tallyAsSpecified (h : JSDate.Host) (tickets : list HubSpotTicket) : Prop :=
  exists chart : CrisisChart,
    crisisChart h tickets = Normal chart
    /\ runningCounts chart
       = map Z.of_nat (seq 1 (List.length (crisisData h tickets)))
    /\ nonDecreasing (runningTotals chart).

(** The error with which one answer of the network fails the fetch, if it
    does: a rejection, a status that is not a success, or a body that does
    not parse. *)
Definition pageFailure (result : FetchResult) : option Error :=
  match result with
  | Rejected e => Some e
  | Fulfilled r =>
      if negb (ok r) then Some (apiError r)
      else match json r with
           | Throw e => Some e
           | Normal _ => None
           end
  end.

(** What thrown the missing credential is reported with. *)
Definition missingCredential : Error :=
  {| name := "Error"; message := "HUBSPOT_API_KEY environment variable is not set" |}.

(** The network fails the fetch with [e] after [pagesRead] pages: from
    call number [call] on and with the cursor [after], [pagesRead] answers
    are successes whose bodies parse and name a next page, each request
    sending the cursor of the page before, and the answer to the request
    after them fails with [e]. *)
Fixpoint failsAfter (env : Environment) (apiKey : string) (call : nat)
    (after : option string) (pagesRead : nat) (e : Error) : Prop :=
  match pagesRead with
  | O => pageFailure (fetch env call (pageRequest apiKey after)) = Some e
  | S pagesRead' =>
      exists (r : Response) (data : Page) (next : string),
        fetch env call (pageRequest apiKey after) = Fulfilled r
        /\ ok r = true /\ json r = Normal data
        /\ paging_next_after data = Some next /\ next <> ""%string
        /\ failsAfter env apiKey (S call) (Some next) pagesRead' e
  end.

(** A failure of the inbound fetch with the error [e]: the credential is
    not set (or empty), or the network fails the fetch after some pages. *)
Definition inboundFailure (env : Environment) (pagesRead : nat) (e : Error) : Prop :=
  ((HUBSPOT_API_KEY env = None \/ HUBSPOT_API_KEY env = Some ""%string)
   /\ e = missingCredential)
  \/ exists apiKey : string,
       HUBSPOT_API_KEY env = Some apiKey /\ apiKey <> ""%string
       /\ failsAfter env apiKey 0 None pagesRead e.

(** The services that count toward the pie, in the order of the tickets:
    present, not empty and not the literal string "null". *)
Definition countedService (t : HubSpotTicket) : list string :=
  match service_provided (properties t) with
  | Some s => if (s =? "")%string || (s =? "null")%string then [] else [s]
  | None => []
  end.

Definition countedServices (tickets : list HubSpotTicket) : list string :=
  flat_map countedService tickets.

(** The distinct elements of a list, each at its first occurrence. *)
Fixpoint distinct (l : list string) : list string :=
  match l with
  | [] => []
  | x :: l' => x :: filter (fun y => negb (y =? x)%string) (distinct l')
  end.

(** The occurrence frequency of [k] in [l]. *)
Definition occurrences (k : string) (l : list string) : Z := count (String.eqb k) l.

(** Two array-index keys in ascending numeric order. *)
Definition indexLe (a b : string) : Prop :=
  match JS.array_index a, JS.array_index b with
  | Some x, Some y => x <= y
  | _, _ => False
  end.

(** The pie as the specification words it: one slice per distinct counted
    value, in first-seen order, with its occurrence frequency. *)
Definition slicesAsSpecified (tickets : list HubSpotTicket) : Prop :=
  labels (serviceChart tickets) = distinct (countedServices tickets)
  /\ values (serviceChart tickets)
     = map (fun k => VInt (occurrences k (countedServices tickets)))
         (distinct (countedServices tickets)).

(** The object that holds, under each key of [ks] in this order of
    creation, the value [g] gives it. *)
Definition table (g : string -> value) (ks : list string) : JS.object :=
  map (fun k => (k, g k)) ks.

(** The object that has counted the services [seen]. *)
Definition tallied (seen : list string) : JS.object :=
  table (fun k => VInt (occurrences k seen)) (distinct seen).

(** One round of the loop over the services that count. *)
Definition countOne (counts : JS.object) (service : string) : JS.object :=
  JS.set counts service (JS.plus_one (JS.or (JS.get counts service) (VInt 0))).

(* ================================================================= *)
(** ** Vocabulary of the further properties *)

(** The tickets one page contributes. *)
Definition pageTickets (data : Page) : list HubSpotTicket :=
  match results data with
  | Some rs => map transformTicket rs
  | None => []
  end.

(** [pages] are the bodies the loop reads, one call of [fetch] each, from
    call number [call] on and with the cursor [after]: every answer is a
    success whose body parses, every page but the last carries a cursor
    that is not empty, and the next request sends it. *)
Fixpoint paginated (env : Environment) (apiKey : string) (call : nat)
    (after : option string) (pages : list Page) : Prop :=
  match pages with
  | [] => False
  | data :: rest =>
      (exists r : Response,
         fetch env call (pageRequest apiKey after) = Fulfilled r
         /\ ok r = true /\ json r = Normal data)
      /\ match rest with
         | [] => present (paging_next_after data) = None
         | _ :: _ =>
             exists next : string,
               present (paging_next_after data) = Some next
               /\ paginated env apiKey (S call) (Some next) rest
         end
  end.

(** Every answer of the network is a page that names a next page. *)
Definition endless (env : Environment) : Prop :=
  forall (call : nat) (request : Request),
    exists (r : Response) (data : Page) (next : string),
      fetch env call request = Fulfilled r
      /\ ok r = true /\ json r = Normal data
      /\ present (paging_next_after data) = Some next.

(** The total of a list of integers. *)
Definition total (l : list Z) : Z := fold_right Z.add 0 l.

(** The number a slice holds, when it is a number. *)
Definition sliceCount (v : value) : Z :=
  match v with
  | VInt n => n
  | _ => 0
  end.

(** Further sample environments. *)
Module Cases.

(** A network whose every answer is an empty page that names a next page. *)
Definition endlessNetwork (_ : nat) (_ : Request) : FetchResult :=
  Sample.page [] (Some "next").

Definition endlessEnv : Environment :=
  {| HUBSPOT_API_KEY := Some "secret"; fetch := endlessNetwork;
     env_host := Sample.host;
     statsInstant := 1793701230123; chartsInstant := 1793701230124 |}.

(** Two pages of one ticket each. *)
Definition twoPages : Environment :=
  Sample.env (Some "secret")
    [ Sample.page [Sample.raw (Some "1") (Some "2026-11-02T08:00:00.000Z")
                     (Some "Rent") (Some "40") (Some "1990-01-01")] (Some "100");
      Sample.page [Sample.raw (Some "4") (Some "2026-10-02T08:00:00.000Z")
                     (Some "Food") None None] None ].

End Cases.

(* ================================================================= *)
(** ** More arithmetic on doubles: division, product, Math.round *)

Module DoubleArith.
Import Double.

Definition negative (a : number) : bool :=
  match a with
  | NaN => false
  | Infinity s => s
  | NegZero => true
  | Finite n => n <? 0
  end.

Definition is_zero (a : number) : bool :=
  match a with
  | NegZero => true
  | Finite n => n =? 0
  | _ => false
  end.

Definition magnitude (a : number) : Z :=
  match a with
  | Finite n => Z.abs n
  | _ => 0
  end.

Definition zero (negative : bool) : number := if negative then NegZero else Finite 0.

(** [a / b]. *)
Definition div (a b : number) : number :=
  let s := xorb (negative a) (negative b) in
  match a, b with
  | NaN, _ | _, NaN => NaN
  | Infinity _, Infinity _ => NaN
  | Infinity _, _ => Infinity s
  | _, Infinity _ => zero s
  | _, _ =>
      if is_zero b then (if is_zero a then NaN else Infinity s)
      else if is_zero a then zero s
      else of_ratio s (magnitude a * 2 ^ unit_exponent) (magnitude b)
  end.

(** [a * b]. *)
Definition mul (a b : number) : number :=
  let s := xorb (negative a) (negative b) in
  match a, b with
  | NaN, _ | _, NaN => NaN
  | Infinity _, _ => if is_zero b then NaN else Infinity s
  | _, Infinity _ => if is_zero a then NaN else Infinity s
  | _, _ =>
      if is_zero a || is_zero b then zero s
      else of_ratio s (magnitude a * magnitude b) (2 ^ unit_exponent)
  end.

(** [a > b]. *)
Definition gtb (a b : number) : bool := leb b a && negb (leb a b).

(** ToBoolean of a number: false on 0, -0 and NaN. *)
Definition truthy (a : number) : bool := negb (is_zero a || isNaN a).

(** [a || b] on numbers. *)
Definition or (a b : number) : number := if truthy a then a else b.

(** The values of [Math.round]: the integers, -0, the infinities, NaN. *)
Inductive integral : Type :=
| INaN
| IInfinity (negative : bool)
| INegZero
| IInt (z : Z).

(** [Math.round(a)]: the integer nearest to [a], a tie going up, and -0
    for a negative [a] that rounds to zero. *)
Definition round (a : number) : integral :=
  match a with
  | NaN => INaN
  | Infinity s => IInfinity s
  | NegZero => INegZero
  | Finite n =>
      let z := (2 * n + 2 ^ unit_exponent) / 2 ^ (unit_exponent + 1) in
      if (z =? 0) && (n <? 0) then INegZero else IInt z
  end.

(** [-a]. *)
Definition negate (a : number) : number :=
  match a with
  | NaN => NaN
  | Infinity s => Infinity (negb s)
  | NegZero => Finite 0
  | Finite n => if n =? 0 then NegZero else Finite (- n)
  end.

(** [a - b]. *)
Definition sub (a b : number) : number := add a (negate b).

(** [Math.floor(a)]. *)
Definition floor (a : number) : integral :=
  match a with
  | NaN => INaN
  | Infinity s => IInfinity s
  | NegZero => INegZero
  | Finite n => IInt (n / 2 ^ unit_exponent)
  end.

End DoubleArith.

(* ================================================================= *)
(** ** The dashboard page ([src/app/page.tsx])

    The state of the [Dashboard] component, [loadDashboard],
    [createStatusPieChart] and what the component renders from its state.
    The four server charts are read from the data and handed to the
    plotting library as they come. *)

Module Page.

(** The statistics as the page receives them: JSON numbers. *)
Record DashboardStats : Type := {
  open_tickets : Double.number;
  new_tickets_this_week : Double.number;
  osw_count : Double.number;
  staffmark_count : Double.number;
  closed_tickets : Double.number
}.

(** The parsed body of the answer; a field that the body lacks is [None]. *)
Record DashboardData : Type := {
  success : bool;
  stats : option DashboardStats;
  charts : option Charts;
  error : option string
}.

Record Response : Type := {
  ok : bool;
  status : Z;
  json : completion DashboardData
}.

(** The outcome of [fetch('/api/dashboard-data')]. *)
Inductive Fetched : Type :=
| Rejected (e : Error)
| Fulfilled (r : Response).

(** The three state variables of the component. *)
Record State : Type := {
  isLoading : bool;
  errorText : option string;
  data : option DashboardData
}.

Definition initial : State := {| isLoading := true; errorText := None; data := None |}.

(** The [try] block of [loadDashboard]: the state updates it makes, or
    what it throws. *)
Definition tryLoad (s : State) (outcome : Fetched) : completion State :=
  match outcome with
  | Rejected e => Throw e
  | Fulfilled response =>
      if negb (ok response) then
        Throw {| name := "Error";
                 message := ("Server error: "
                             ++ JS.to_string (VInt (status response)))%string |}
      else
        dashboardData <- json response ;;
        if success dashboardData then
          Normal {| isLoading := isLoading s; errorText := errorText s;
                    data := Some dashboardData |}
        else
          let text :=
            match present (error dashboardData) with
            | Some e => e
            | None => "Unknown error"
            end in
          Normal {| isLoading := isLoading s; errorText := Some text; data := data s |}
  end.

(** [loadDashboard], from the state [s] to the state once the fetch has
    settled with [outcome]. *)
Definition loadDashboard (s : State) (outcome : Fetched) : State :=
  let s := {| isLoading := true; errorText := None; data := data s |} in
  let s :=
    match tryLoad s outcome with
    | Normal s' => s'
    | Throw _ =>
        {| isLoading := isLoading s;
           errorText :=
             Some "Cannot connect to server. Please check if the server is running.";
           data := data s |}
    end in
  {| isLoading := false; errorText := errorText s; data := data s |}.

(** The status pie: its two values and the text of its annotation, the
    percentage before the sign [%]. *)
Record PieChart : Type := {
  pie_values : list Double.number;
  pie_labels : list string;
  annotation : DoubleArith.integral
}.

(** Reading [data.stats]: a TypeError when the body has no statistics. *)
Definition statsOf (d : DashboardData) : completion DashboardStats :=
  match stats d with
  | Some s => Normal s
  | None =>
      Throw {| name := "TypeError";
               message := "Cannot read properties of undefined (reading 'open_tickets')" |}
  end.

Definition hundred : Double.number := Double.of_Z 100.

(** [Math.round((part / whole) * 100)]. *)
Definition percentage (part whole : Double.number) : DoubleArith.integral :=
  DoubleArith.round (DoubleArith.mul (DoubleArith.div part whole) hundred).

Definition createStatusPieChart (data : option DashboardData) : completion (option PieChart) :=
  match data with
  | None => Normal None
  | Some d =>
      s <- statsOf d ;;
      let openTickets := DoubleArith.or (open_tickets s) (Double.Finite 0) in
      let closedTickets := DoubleArith.or (closed_tickets s) (Double.Finite 0) in
      let total := Double.add openTickets closedTickets in
      let closedPercentage :=
        if DoubleArith.gtb total (Double.Finite 0)
        then percentage closedTickets total
        else DoubleArith.IInt 0 in
      Normal (Some {| pie_values := [closedTickets; openTickets];
                      pie_labels := ["Closed"; "Open"];
                      annotation := closedPercentage |})
  end.

(** What the dashboard shows: the status pie, the two percentages of its
    legend, the four numbers, and the four server charts ([None] where
    the cards read "No data available"). *)
Record View : Type := {
  pie : option PieChart;
  legendClosed : DoubleArith.integral;
  legendOpen : DoubleArith.integral;
  shownOpen : Double.number;
  shownNew : Double.number;
  shownStaffmark : Double.number;
  shownOsw : Double.number;
  plots : option Charts
}.

Inductive Screen : Type :=
| Spinner
| ErrorBox (message : string)
| Dashboard (view : View).

(** [data?.stats.field || 0]. *)
Definition shown (data : option DashboardData) (field : DashboardStats -> Double.number)
  : completion Double.number :=
  match data with
  | None => Normal (Double.Finite 0)
  | Some d => s <- statsOf d ;; Normal (DoubleArith.or (field s) (Double.Finite 0))
  end.

(** The percentage of the legend:
    [data ? Math.round((part / (open + closed)) * 100) : 0]. *)
Definition legend (data : option DashboardData) (part : DashboardStats -> Double.number)
  : completion DoubleArith.integral :=
  match data with
  | None => Normal (DoubleArith.IInt 0)
  | Some d =>
      s <- statsOf d ;;
      Normal (percentage (part s) (Double.add (open_tickets s) (closed_tickets s)))
  end.

(** Reading [data.charts]: a TypeError when the body has no charts. *)
Definition chartsOf (d : DashboardData) : completion Charts :=
  match charts d with
  | Some c => Normal c
  | None =>
      Throw {| name := "TypeError";
               message := "Cannot read properties of undefined (reading 'resource_support')" |}
  end.

(** [data?.charts.x && createChart(data.charts.x)] for the four charts:
    nothing to plot without data, the charts of the body otherwise (each
    is a document with its series and layout, neither empty nor [{}]). *)
Definition plotted (data : option DashboardData) : completion (option Charts) :=
  match data with
  | None => Normal None
  | Some d => c <- chartsOf d ;; Normal (Some c)
  end.

(** The render of the component. *)
Definition render (s : State) : completion Screen :=
  if isLoading s then Normal Spinner
  else
    match present (errorText s) with
    | Some message => Normal (ErrorBox message)
    | None =>
        pieChartData <- createStatusPieChart (data s) ;;
        closed <- legend (data s) closed_tickets ;;
        opened <- legend (data s) open_tickets ;;
        shownOpen <- shown (data s) open_tickets ;;
        shownNew <- shown (data s) new_tickets_this_week ;;
        shownStaffmark <- shown (data s) staffmark_count ;;
        shownOsw <- shown (data s) osw_count ;;
        plots <- plotted (data s) ;;
        Normal (Dashboard {| pie := pieChartData;
                             legendClosed := closed; legendOpen := opened;
                             shownOpen := shownOpen; shownNew := shownNew;
                             shownStaffmark := shownStaffmark; shownOsw := shownOsw;
                             plots := plots |})
    end.

End Page.

(** *** From the handler to the page *)

(** The statistics once serialized and parsed: each counter as a double. *)
Definition receivedStats (s : DashboardStats) : Page.DashboardStats :=
  {| Page.open_tickets := Double.of_Z (open_tickets s);
     Page.new_tickets_this_week := Double.of_Z (new_tickets_this_week s);
     Page.osw_count := Double.of_Z (osw_count s);
     Page.staffmark_count := Double.of_Z (staffmark_count s);
     Page.closed_tickets := Double.of_Z (closed_tickets s) |}.

Definition receivedBody (b : DashboardResponse) : Page.DashboardData :=
  {| Page.success := success b;
     Page.stats := option_map receivedStats (stats b);
     Page.charts := charts b;
     Page.error := error b |}.

(** The answer of the handler as the page's [fetch] sees it: [ok] on a
    status from 200 to 299. *)
Definition served (r : NextResponse) : Page.Fetched :=
  Page.Fulfilled
    {| Page.ok := (200 <=? http_status r) && (http_status r <=? 299);
       Page.status := http_status r;
       Page.json := Normal (receivedBody (body r)) |}.

(** The state of the page after it has loaded, one after the other, the
    outcomes [outcomes]. *)
Definition afterLoads (outcomes : list Page.Fetched) : Page.State :=
  fold_left Page.loadDashboard outcomes Page.initial.

(** The state of a page that holds the successful answer [b] of the handler. *)
Definition holding (b : DashboardResponse) : Page.State :=
  {| Page.isLoading := false; Page.errorText := None;
     Page.data := Some (receivedBody b) |}.

(** A successful body with the statistics [s] and the charts [built]. *)
Definition successBody (s : DashboardStats) (built : Charts) : DashboardResponse :=
  {| success := true; stats := Some s; charts := Some built; error := None |}.

(** The text the page shows for any failure of its fetch. *)
Definition cannotConnect : string :=
  "Cannot connect to server. Please check if the server is running.".

(** The outcome is a network failure of the page's fetch, or an answer
    that the handler gave in some environment. *)
Definition fromHandler (outcome : Page.Fetched) : Prop :=
  (exists e : Error, outcome = Page.Rejected e)
  \/ (exists (env : Environment) (fuel : nat) (r : NextResponse),
        GET env fuel = Some r /\ outcome = served r).

(** The data a page holds came from a successful answer of the handler. *)
Definition holdsHandlerData (s : Page.State) : Prop :=
  forall d : Page.DashboardData,
    Page.data s = Some d ->
    exists (st : DashboardStats) (built : Charts), d = receivedBody (successBody st built).

(* ================================================================= *)
(** ** Doubles against the Standard Library's specification of floats *)

(** The double as a [spec_float] of precision 53 and maximal exponent
    1024, in canonical form. *)
Definition toSpecFloat (a : Double.number) : SpecFloat.spec_float :=
  match a with
  | Double.NaN => SpecFloat.S754_nan
  | Double.Infinity s => SpecFloat.S754_infinity s
  | Double.NegZero => SpecFloat.S754_zero true
  | Double.Finite n => SpecFloat.binary_normalize 53 1024 n (- 1074) false
  end.

(* ================================================================= *)
(** ** The age as the program computes it *)

(** [365.25 * 24 * 60 * 60 * 1000]. *)
Definition yearInDoubles : Double.number :=
  DoubleArith.mul
    (DoubleArith.mul
       (DoubleArith.mul
          (DoubleArith.mul (Double.of_ratio false (1461 * 2 ^ Double.unit_exponent) 4)
             (Double.of_Z 24))
          (Double.of_Z 60))
       (Double.of_Z 60))
    (Double.of_Z 1000).

(** [Math.floor((currentDate.getTime() - birthDate.getTime()) / (365.25 * 24 * 60 * 60 * 1000))]
    on two valid Dates, every operation a double operation. *)
Definition ageOfDoubles (now birth : Z) : DoubleArith.integral :=
  DoubleArith.floor
    (DoubleArith.div (DoubleArith.sub (Double.of_Z now) (Double.of_Z birth))
       yearInDoubles).

(** [if (age >= 0 && age <= 120)]: the age that is pushed, if any. *)
Definition keptAge (age : DoubleArith.integral) : option Z :=
  match age with
  | DoubleArith.IInt z => if (0 <=? z) && (z <=? 120) then Some z else None
  | DoubleArith.INegZero => Some 0
  | _ => None
  end.

(* ================================================================= *)
(** * Properties *)

(* ================================================================= *)
(** ** Counting *)

Lemma count_nil {A : Type} (p : A -> bool) : count p [] = 0.
Proof. reflexivity. Qed.

Lemma count_cons {A : Type} (p : A -> bool) (x : A) (l : list A) :
  count p (x :: l) = (if p x then 1 else 0) + count p l.
Proof.
  unfold count. cbn [filter]. destruct (p x); cbn [List.length]; lia.
Qed.

Lemma count_app {A : Type} (p : A -> bool) (l1 l2 : list A) :
  count p (l1 ++ l2) = count p l1 + count p l2.
Proof.
  induction l1 as [|x l1 IH]; [reflexivity|].
  simpl app. rewrite !count_cons, IH. lia.
Qed.

Lemma count_bounds {A : Type} (p : A -> bool) (l : list A) :
  0 <= count p l <= Z.of_nat (List.length l).
Proof.
  induction l as [|x l IH]; [unfold count; simpl; lia|].
  rewrite count_cons. cbn [List.length]. destruct (p x); lia.
Qed.

Lemma count_ext {A : Type} (p q : A -> bool) (l : list A) :
  (forall x, In x l -> p x = q x) -> count p l = count q l.
Proof.
  induction l as [|x l IH]; intros H; [reflexivity|].
  rewrite !count_cons, (H x (or_introl eq_refl)), IH; [reflexivity|].
  intros y Hy. apply H. now right.
Qed.

(** Two predicates that never hold together split a list into at most
    its length, and into exactly its length when one of them always holds. *)
Lemma count_disjoint {A : Type} (p q : A -> bool) (l : list A) :
  (forall x, p x = true -> q x = false) ->
  count p l + count q l <= Z.of_nat (List.length l) /\
  (count p l + count q l = Z.of_nat (List.length l) <->
   Forall (fun x => p x = true \/ q x = true) l).
Proof.
  intros Hpq. induction l as [|x l [IHle IHeq]].
  - split; [unfold count; simpl; lia|]. split; [constructor | reflexivity].
  - rewrite !count_cons. cbn [List.length]. rewrite Forall_cons_iff.
    pose proof (Hpq x) as Hx.
    destruct (p x) eqn:Hp, (q x) eqn:Hq; try (specialize (Hx eq_refl); discriminate);
      (split; [lia|]); split.
    + intros H. split; [now left | apply IHeq; lia].
    + intros [_ H]. apply IHeq in H. lia.
    + intros H. split; [now right | apply IHeq; lia].
    + intros [_ H]. apply IHeq in H. lia.
    + lia.
    + intros [[H | H] _]; discriminate.
Qed.

(* ================================================================= *)
(** ** Status classification *)

Lemma string_eqb_true (a b : string) : (a =? b)%string = true -> a = b.
Proof. apply String.eqb_eq. Qed.

Lemma includes_string (arr : list string) (s : string) :
  JS.includes arr (VString s) = true <-> In s arr.
Proof.
  unfold JS.includes. rewrite existsb_exists. split.
  - intros [x [Hin Heq]]. simpl in Heq. apply String.eqb_eq in Heq. now subst.
  - intros Hin. exists s. split; [assumption|]. simpl. apply String.eqb_refl.
Qed.

Lemma includes_only_strings (arr : list string) (v : value) :
  JS.includes arr v = true -> exists s, v = VString s /\ In s arr.
Proof.
  unfold JS.includes. rewrite existsb_exists. intros [x [Hin Heq]].
  destruct v; simpl in Heq; try discriminate.
  apply String.eqb_eq in Heq. subst. now exists s.
Qed.

(** The Open set and the Closed set are disjoint. *)
Lemma open_not_closed (v : value) :
  JS.includes openStatuses v = true -> JS.includes closedStatuses v = false.
Proof.
  intros H. apply includes_only_strings in H as [s [-> Hin]].
  simpl in Hin.
  repeat (destruct Hin as [<- | Hin]; [reflexivity|]). contradiction.
Qed.

Lemma unclassified_not_settled (v : value) : unclassified v -> ~ settled v.
Proof.
  intros [-> | [code ->]] [H | H]; try discriminate H;
    apply includes_string in H; simpl in H;
    repeat (destruct H as [H | H]; [discriminate H|]); contradiction.
Qed.

Lemma getStatusFromStage_absent : getStatusFromStage None = VString "UNKNOWN".
Proof. reflexivity. Qed.

Lemma getStatusFromStage_empty : getStatusFromStage (Some "") = VString "UNKNOWN".
Proof. reflexivity. Qed.

(** The ten codes of the static table and their labels. *)
Lemma getStatusFromStage_table :
  map (fun code => getStatusFromStage (Some code))
      [ "1"; "2"; "3"; "4"; "257285392"; "257285393"; "1686843097";
        "1687677633"; "999098012"; "1746656967" ]
  = map VString
      [ "NEW"; "BACKLOG"; "RESOURCE_SUPPORT"; "CLOSED"; "WAITING_FOR_RESPONSE";
        "COMPLETED"; "IN_PROCESS_STAFFMARK"; "EMPLOYMENT_SUPPORT";
        "IN_PROCESS_OSW"; "ARCHIVED" ].
Proof. reflexivity. Qed.

Ltac split_table code :=
  repeat match goal with
         | |- context [String.eqb ?k code] =>
             destruct (String.eqb_spec k code) as [<- | ?]
         | H : context [String.eqb ?k code] |- _ =>
             destruct (String.eqb_spec k code) as [<- | ?]
         end.

(** A tabulated code maps to a label of the Open or the Closed set. *)
Lemma getStatusFromStage_tabulated (code : string) :
  tabulated code = true -> settled (getStatusFromStage (Some code)).
Proof.
  unfold tabulated, getStatusFromStage, JS.get, stageMapping. cbn [JS.get_own].
  split_table code; intros H; try discriminate H;
    first [ left; reflexivity | right; reflexivity ].
Qed.

(** A code that is neither empty, nor tabulated, nor the name of an
    inherited member maps to STAGE_<code>. *)
Lemma getStatusFromStage_other (code : string) :
  code <> "" -> tabulated code = false -> inherited code = false ->
  getStatusFromStage (Some code) = VString ("STAGE_" ++ code)%string.
Proof.
  intros Hne Htab Hinh. unfold getStatusFromStage.
  destruct (String.eqb_spec code "") as [-> | _]; [contradiction|].
  unfold JS.get. unfold tabulated in Htab.
  destruct (JS.get_own stageMapping code); [discriminate|].
  unfold JS.or. unfold inherited in Hinh. now rewrite Hinh.
Qed.

(** Away from the inherited names, a classified status lies outside both
    sets exactly when it is UNKNOWN or STAGE_<code>. *)
Lemma classified_settled_or_unclassified (stage : option string) :
  match stage with Some code => inherited code = false | None => True end ->
  (settled (getStatusFromStage stage) <-> ~ unclassified (getStatusFromStage stage)).
Proof.
  intros Hinh. split.
  - intros Hs Hu. exact (unclassified_not_settled _ Hu Hs).
  - intros Hu. destruct stage as [code|].
    + destruct (String.eqb_spec code "") as [-> | Hne].
      * exfalso. apply Hu. now left.
      * destruct (tabulated code) eqn:Htab.
        -- now apply getStatusFromStage_tabulated.
        -- exfalso. apply Hu. right. exists code.
           now apply getStatusFromStage_other.
    + exfalso. apply Hu. now left.
Qed.

(* ================================================================= *)
(** ** The aggregator: open and closed totals *)

Section Aggregator.
Variable h : JSDate.Host.
Variable now : Z.

Lemma stats_open (tickets : list HubSpotTicket) :
  open_tickets (generateDashboardStats h now tickets)
  = count (fun t => JS.includes openStatuses (status t)) tickets.
Proof. destruct tickets; reflexivity. Qed.

Lemma stats_closed (tickets : list HubSpotTicket) :
  closed_tickets (generateDashboardStats h now tickets)
  = count (fun t => JS.includes closedStatuses (status t)) tickets.
Proof. destruct tickets; reflexivity. Qed.

Lemma stats_new (tickets : list HubSpotTicket) :
  new_tickets_this_week (generateDashboardStats h now tickets)
  = count (createdThisWeek h (startOfWeek h now)) tickets.
Proof. destruct tickets; reflexivity. Qed.

(** What one more ticket, anywhere in the collection, adds to the two totals. *)
Lemma stats_one_more (t : HubSpotTicket) (before after : list HubSpotTicket) :
  open_tickets (generateDashboardStats h now (before ++ t :: after))
  = (if JS.includes openStatuses (status t) then 1 else 0)
    + open_tickets (generateDashboardStats h now (before ++ after))
  /\
  closed_tickets (generateDashboardStats h now (before ++ t :: after))
  = (if JS.includes closedStatuses (status t) then 1 else 0)
    + closed_tickets (generateDashboardStats h now (before ++ after)).
Proof.
  rewrite !stats_open, !stats_closed, !count_app, !count_cons. lia.
Qed.
End Aggregator.

(** A ticket whose stage code is "257285393" is COMPLETED: it adds one to
    closed_tickets and nothing to open_tickets. *)
Lemma completed_counts_as_closed (h : JSDate.Host) (now : Z)
    (rid : string) (created service wish born : option string)
    (before after : list HubSpotTicket) :
  let t := transformTicket
             {| raw_id := rid;
                raw_properties :=
                  {| hs_pipeline_stage := Some "257285393"; createdate := created;
                     service_provided := service; crisis_wish := wish;
                     birthday := born |} |} in
  status t = VString "COMPLETED" /\
  closed_tickets (generateDashboardStats h now (before ++ t :: after))
  = 1 + closed_tickets (generateDashboardStats h now (before ++ after)) /\
  open_tickets (generateDashboardStats h now (before ++ t :: after))
  = open_tickets (generateDashboardStats h now (before ++ after)).
Proof.
  intros t. split; [reflexivity|].
  destruct (stats_one_more h now t before after) as [Ho Hc].
  rewrite Ho, Hc. split; reflexivity.
Qed.

(** C1. For every ticket collection, open_tickets + closed_tickets is at
    most the number of tickets; the two are equal exactly when every
    ticket's status lies in the Open set or in the Closed set; a ticket
    whose status is UNKNOWN or STAGE_<code> makes the sum strictly smaller;
    and for tickets classified from stage codes that are not names of
    inherited members, equality holds exactly when no status is UNKNOWN or
    STAGE_<code>. *)
Theorem C1_open_plus_closed (h : JSDate.Host) (now : Z) (tickets : list HubSpotTicket) :
  let s := generateDashboardStats h now tickets in
  let total := Z.of_nat (List.length tickets) in
  open_tickets s + closed_tickets s <= total
  /\ (open_tickets s + closed_tickets s = total
      <-> Forall (fun t => settled (status t)) tickets)
  /\ (Exists (fun t => unclassified (status t)) tickets
      -> open_tickets s + closed_tickets s < total)
  /\ (forall raws : list RawTicket,
        tickets = map transformTicket raws ->
        Forall (fun r => match hs_pipeline_stage (raw_properties r) with
                         | Some code => inherited code = false
                         | None => True
                         end) raws ->
        (open_tickets s + closed_tickets s = total
         <-> Forall (fun t => ~ unclassified (status t)) tickets)).
Proof.
  intros s total. subst s total. rewrite stats_open, stats_closed.
  destruct (count_disjoint
              (fun t => JS.includes openStatuses (status t))
              (fun t => JS.includes closedStatuses (status t))
              tickets (fun t => open_not_closed (status t))) as [Hle Heq].
  split; [exact Hle|]. split; [exact Heq|]. split.
  - intros Hex.
    assert (Hne : ~ Forall (fun t => settled (status t)) tickets).
    { intros Hall. apply Exists_exists in Hex as [t [Hin Hu]].
      rewrite Forall_forall in Hall.
      exact (unclassified_not_settled _ Hu (Hall t Hin)). }
    rewrite <- Heq in Hne. lia.
  - intros raws -> Hraws. rewrite Heq. clear Hle Heq.
    induction Hraws as [|r raws Hr _ IH]; [split; constructor|].
    cbn [map]. rewrite !Forall_cons_iff, IH.
    cbn [transformTicket status].
    now rewrite (classified_settled_or_unclassified _ Hr).
Qed.

(** C2, at the stage code "constructor": the lookup in the table finds the
    member that every plain object inherits, and the classifier returns
    that function instead of the string STAGE_constructor. *)
Theorem C2_inherited_name_is_not_staged :
  getStatusFromStage (Some "constructor") = VNative "constructor"
  /\ getStatusFromStage (Some "constructor") <> VString "STAGE_constructor"
  /\ tabulated "constructor" = false.
Proof.
  split; [reflexivity|]. split; [discriminate | reflexivity].
Qed.

(** C10. The empty stage code is classified UNKNOWN, and a ticket carrying
    it adds nothing to open_tickets nor to closed_tickets. *)
Theorem C10_empty_stage_is_unknown (h : JSDate.Host) (now : Z)
    (rid : string) (created service wish born : option string)
    (before after : list HubSpotTicket) :
  let t := transformTicket
             {| raw_id := rid;
                raw_properties :=
                  {| hs_pipeline_stage := Some ""; createdate := created;
                     service_provided := service; crisis_wish := wish;
                     birthday := born |} |} in
  getStatusFromStage (Some "") = VString "UNKNOWN"
  /\ status t = VString "UNKNOWN"
  /\ open_tickets (generateDashboardStats h now (before ++ t :: after))
     = open_tickets (generateDashboardStats h now (before ++ after))
  /\ closed_tickets (generateDashboardStats h now (before ++ t :: after))
     = closed_tickets (generateDashboardStats h now (before ++ after)).
Proof.
  intros t. split; [reflexivity|]. split; [reflexivity|].
  destruct (stats_one_more h now t before after) as [Ho Hc].
  rewrite Ho, Hc. split; reflexivity.
Qed.

(* ================================================================= *)
(** ** Dates: the start of the week *)

Module DateFacts.
Import JSDate.

(** [YearFromTime t] is the year [y] with
    [TimeFromYear y <= t < TimeFromYear (y + 1)]. *)
Lemma YearFromTime_largest (t : Z) :
  TimeFromYear (YearFromTime t) <= t < TimeFromYear (YearFromTime t + 1).
Proof.
  assert (Hday : DayFromYear (YearFromTime t) <= Day t
                 < DayFromYear (YearFromTime t + 1)).
  { unfold YearFromTime. generalize (Day t). intros d.
    unfold DayFromYear. Z.div_mod_to_equations. lia. }
  unfold TimeFromYear, Day, msPerDay in *. Z.div_mod_to_equations. lia.
Qed.

Lemma MonthFromTime_range (t : Z) : 0 <= MonthFromTime t <= 11.
Proof.
  unfold MonthFromTime.
  repeat match goal with
         | |- context [if ?c then _ else _] => destruct c
         end; lia.
Qed.

Lemma DayFromYear_next (y : Z) : DayFromYear (y + 1) = DayFromYear y + DaysInYear y.
Proof.
  unfold DayFromYear, DaysInYear.
  destruct (Z.eqb_spec (y mod 4) 0), (Z.eqb_spec (y mod 100) 0),
           (Z.eqb_spec (y mod 400) 0);
    cbn [negb]; Z.div_mod_to_equations; lia.
Qed.

Lemma DayWithinYear_range (t : Z) : 0 <= DayWithinYear t < 365 + InLeapYear t.
Proof.
  pose proof (YearFromTime_largest t) as Hy.
  unfold DayWithinYear, InLeapYear, TimeFromYear in *.
  rewrite DayFromYear_next in Hy.
  revert Hy. generalize (YearFromTime t). intros y Hy.
  assert (Hl : DaysInYear y = 365 \/ DaysInYear y = 366)
    by (unfold DaysInYear; repeat destruct (negb _); auto).
  unfold Day, msPerDay in *.
  destruct Hl as [Hl | Hl]; rewrite Hl in *; cbn [Z.eqb Pos.eqb];
    Z.div_mod_to_equations; lia.
Qed.

Lemma DateFromTime_range (t : Z) : 1 <= DateFromTime t <= 31.
Proof.
  pose proof (DayWithinYear_range t) as Hd.
  unfold DateFromTime, MonthFromTime, monthStart.
  revert Hd. generalize (DayWithinYear t). intros d Hd.
  assert (Hl : InLeapYear t = 0 \/ InLeapYear t = 1)
    by (unfold InLeapYear; destruct (_ =? _); auto).
  revert Hl Hd. generalize (InLeapYear t). intros l Hl Hd.
  repeat match goal with
         | |- context [?a <? ?b] => destruct (Z.ltb_spec a b)
         end;
  repeat match goal with
         | |- context [?a =? ?b] => destruct (Z.eqb_spec a b)
         end; lia.
Qed.

(** Within the month of [t], [MakeDay] counts days from the day of [t]. *)
Lemma MakeDay_in_month (t n : Z) :
  MakeDay (YearFromTime t) (MonthFromTime t) n = Day t - DateFromTime t + n.
Proof.
  pose proof (MonthFromTime_range t) as Hm.
  unfold MakeDay.
  rewrite (Z.div_small (MonthFromTime t) 12), (Z.mod_small (MonthFromTime t) 12) by lia.
  rewrite Z.add_0_r.
  unfold DateFromTime, DayWithinYear, InLeapYear. lia.
Qed.

Lemma TimeWithinDay_range (u : Z) : 0 <= TimeWithinDay u < msPerDay.
Proof. unfold TimeWithinDay, msPerDay. apply Z.mod_pos_bound. lia. Qed.

Lemma WeekDay_range (u : Z) : 0 <= WeekDay u <= 6.
Proof. unfold WeekDay. pose proof (Z.mod_pos_bound (Day u + 4) 7). lia. Qed.

Lemma Day_TimeWithinDay (u : Z) : u = Day u * msPerDay + TimeWithinDay u.
Proof.
  unfold Day, TimeWithinDay, msPerDay.
  pose proof (Z.div_mod u 86400000). lia.
Qed.

Lemma TimeClip_in_range (u : Z) :
  - 8640000000000000 <= u <= 8640000000000000 -> TimeClip u = Some u.
Proof.
  intros Hu. unfold TimeClip.
  destruct (Z.ltb_spec 8640000000000000 (Z.abs u)); [lia | reflexivity].
Qed.

Lemma Day_days_back (u n : Z) : Day (u - n * msPerDay) = Day u - n.
Proof.
  unfold Day, msPerDay.
  replace (u - n * 86400000) with (u + (- n) * 86400000) by lia.
  rewrite Z.div_add by lia. lia.
Qed.

(** The day [d] moved back by its week day is a Sunday, [d] itself or one
    of the six days before it, and the time value of its start is a
    midnight. *)
Lemma sunday_midnight (d : Z) :
  let m := (d - (d + 4) mod 7) * msPerDay in
  TimeWithinDay m = 0 /\ WeekDay m = 0 /\ Day m <= d < Day m + 7.
Proof.
  intros m. unfold m.
  assert (Hday : Day ((d - (d + 4) mod 7) * msPerDay) = d - (d + 4) mod 7)
    by (unfold Day, msPerDay; apply Z.div_mul; lia).
  split; [unfold TimeWithinDay, msPerDay; apply Z.mod_mul; lia|].
  unfold WeekDay. rewrite Hday. split.
  - Z.div_mod_to_equations. lia.
  - pose proof (Z.mod_pos_bound (d + 4) 7). lia.
Qed.

(** *** On a host whose offset never changes *)

Section StartOfWeek.
Variable h : Host.
Variable offset : Z.
Hypothesis Hfixed : fixedOffset h offset.
Variable now : Z.
Hypothesis Hnow : - 8640000000000000 + 7 * msPerDay <= now <= 8640000000000000.

Let t := LocalTime h now.

Lemma LocalTime_fixed (u : Z) : LocalTime h u = u + offset.
Proof. unfold LocalTime. now rewrite Hfixed. Qed.

Lemma UTC_fixed (u : Z) : UTC h u = u - offset.
Proof. unfold UTC. now rewrite Hfixed. Qed.

(** The value the code computes. *)
Lemma startOfWeek_value :
  startOfWeek h now
  = Some (now - WeekDay t * msPerDay - TimeWithinDay t).
Proof.
  pose proof (WeekDay_range t) as Hw.
  pose proof (TimeWithinDay_range t) as Hd.
  pose proof (Day_TimeWithinDay t) as Ht.
  assert (Et : t = now + offset) by apply LocalTime_fixed.
  unfold startOfWeek. cbn [getDate getDay option_map setDate]. fold t.
  rewrite MakeDay_in_month.
  replace (UTC h (MakeDate (Day t - DateFromTime t + (DateFromTime t - WeekDay t))
                    (TimeWithinDay t)))
    with (now - WeekDay t * msPerDay)
    by (rewrite UTC_fixed; unfold MakeDate; lia).
  rewrite TimeClip_in_range by (unfold msPerDay in *; lia).
  cbn [setHours].
  replace (LocalTime h (now - WeekDay t * msPerDay))
    with (t - WeekDay t * msPerDay)
    by (rewrite LocalTime_fixed; lia).
  rewrite Day_days_back.
  replace (UTC h (MakeDate (Day t - WeekDay t) (MakeTime 0 0 0 0)))
    with (now - WeekDay t * msPerDay - TimeWithinDay t)
    by (rewrite UTC_fixed; unfold MakeDate, MakeTime; lia).
  apply TimeClip_in_range. unfold msPerDay in *. lia.
Qed.

(** It is the most recent Sunday midnight of the local time. *)
Lemma startOfWeek_is_sunday :
  mostRecentSunday h now (now - WeekDay t * msPerDay - TimeWithinDay t).
Proof.
  pose proof (WeekDay_range t) as Hw.
  pose proof (TimeWithinDay_range t) as Hd.
  pose proof (Day_TimeWithinDay t) as Ht.
  assert (Et : t = now + offset) by apply LocalTime_fixed.
  assert (Hlocal : LocalTime h (now - WeekDay t * msPerDay - TimeWithinDay t)
                   = (Day t - (Day t + 4) mod 7) * msPerDay)
    by (rewrite LocalTime_fixed; unfold WeekDay in *; lia).
  destruct (sunday_midnight (Day t)) as [Hm [Hs _]].
  unfold mostRecentSunday. rewrite Hlocal.
  split; [exact Hm|]. split; [exact Hs|].
  unfold msPerDay in *. lia.
Qed.

(** No clock change disturbs the week start. *)
Lemma fixedOffset_undisturbed : undisturbed h now.
Proof.
  unfold undisturbed.
  rewrite !LocalTime_fixed, !UTC_fixed.
  split; [f_equal; lia | lia].
Qed.
End StartOfWeek.

(** *** On any host *)

Section WeekStart.
Variable h : Host.
Variable now : Z.
Hypothesis Hzone :
  forall (u : Z) (isUTC : bool), - msPerDay <= LocalTZA h u isUTC <= msPerDay.
Hypothesis Hnow :
  - 8640000000000000 + 11 * msPerDay <= now <= 8640000000000000 - 4 * msPerDay.

(** The value the code computes: the host resolves the reading of [now]
    moved back to Sunday, and then the midnight of the local date of the
    instant it found. *)
Lemma startOfWeek_resolved :
  startOfWeek h now
  = Some (UTC h (Day (LocalTime h (UTC h (sameHourOnSunday h now))) * msPerDay)).
Proof.
  set (t := LocalTime h now).
  pose proof (WeekDay_range t) as Hw.
  pose proof (TimeWithinDay_range t) as Hd.
  pose proof (Day_TimeWithinDay t) as Ht.
  pose proof (Hzone now true) as Hz0.
  unfold startOfWeek. cbn [getDate getDay option_map setDate]. fold t.
  rewrite MakeDay_in_month.
  replace (MakeDate (Day t - DateFromTime t + (DateFromTime t - WeekDay t))
             (TimeWithinDay t))
    with (sameHourOnSunday h now)
    by (unfold sameHourOnSunday, MakeDate; fold t; lia).
  set (back := sameHourOnSunday h now).
  assert (Hback : t - 6 * msPerDay <= back <= t)
    by (unfold back, sameHourOnSunday; fold t; unfold msPerDay in *; lia).
  pose proof (Hzone back false) as Hz1.
  assert (Et : t = now + LocalTZA h now true) by reflexivity.
  assert (Eu : UTC h back = back - LocalTZA h back false) by reflexivity.
  rewrite TimeClip_in_range by (unfold msPerDay in *; lia).
  cbn [setHours].
  set (t1 := LocalTime h (UTC h back)).
  pose proof (Hzone (UTC h back) true) as Hz2.
  assert (Et1 : t1 = UTC h back + LocalTZA h (UTC h back) true) by reflexivity.
  pose proof (TimeWithinDay_range t1) as Hd1.
  pose proof (Day_TimeWithinDay t1) as Ht1.
  replace (MakeDate (Day t1) (MakeTime 0 0 0 0)) with (Day t1 * msPerDay)
    by (unfold MakeDate, MakeTime; lia).
  pose proof (Hzone (Day t1 * msPerDay) false) as Hz3.
  assert (Eu2 : UTC h (Day t1 * msPerDay)
                = Day t1 * msPerDay - LocalTZA h (Day t1 * msPerDay) false)
    by reflexivity.
  apply TimeClip_in_range. unfold msPerDay in *. lia.
Qed.

(** Undisturbed by a clock change, it is the most recent Sunday midnight
    of the local clock. *)
Lemma startOfWeek_is_weekStart :
  undisturbed h now ->
  weekStart h now
    (UTC h (Day (LocalTime h (UTC h (sameHourOnSunday h now))) * msPerDay)).
Proof.
  intros [Hday Hmid].
  rewrite Hday. unfold sameHourOnSunday at 1. rewrite Day_days_back.
  fold (sundayMidnight h now).
  unfold weekStart. rewrite Hmid. unfold sundayMidnight, WeekDay at 1 3 5.
  apply (sunday_midnight (Day (LocalTime h now))).
Qed.
End WeekStart.
End DateFacts.

Lemma createdThisWeek_spec (h : JSDate.Host) (start : Z) (t : HubSpotTicket) :
  createdThisWeek h (Some start) t = createdOnOrAfter h start t.
Proof.
  unfold createdThisWeek, createdOnOrAfter, present.
  destruct (created_at t) as [s|]; [|reflexivity].
  destruct (s =? "")%string; [reflexivity|].
  unfold JSDate.ge. now destruct (JSDate.of_string h s).
Qed.

(** On a host whose offset never changes, the two notions of the most
    recent Sunday midnight agree. *)
Lemma mostRecentSunday_weekStart (h : JSDate.Host) (offset now start : Z) :
  fixedOffset h offset -> weekStart h now start -> mostRecentSunday h now start.
Proof.
  intros Hfixed [Hm [Hw Hd]].
  split; [exact Hm|]. split; [exact Hw|].
  rewrite !(DateFacts.LocalTime_fixed h offset Hfixed) in *.
  unfold JSDate.TimeWithinDay, JSDate.Day, JSDate.msPerDay in *.
  Z.div_mod_to_equations. lia.
Qed.



(** That week in New York is 169 hours long: on Saturday 7 November at
    23:59 on the local clock, more than seven days after the boundary,
    the boundary is the same; and between the boundary and that instant
    the clock never reads a Sunday 00:00:00 again. *)
Example newYork_long_week :
  startOfWeek Zones.newYork 1794113940000 = Some 1793505600000
  /\ 1793505600000 + 7 * JSDate.msPerDay <= 1794113940000
  /\ undisturbed Zones.newYork 1794113940000
  /\ (forall s : Z,
        1793505600000 < s <= 1794113940000 ->
        ~ (JSDate.TimeWithinDay (JSDate.LocalTime Zones.newYork s) = 0
           /\ JSDate.WeekDay (JSDate.LocalTime Zones.newYork s) = 0)).
Proof.
  split; [vm_compute; reflexivity|].
  split; [unfold JSDate.msPerDay; lia|].
  split; [split; vm_compute; reflexivity|].
  intros s Hs [Hm Hw].
  unfold JSDate.LocalTime in Hm, Hw.
  cbn [JSDate.LocalTZA Zones.newYork] in Hm, Hw. unfold Zones.oneChange in Hm, Hw.
  unfold JSDate.TimeWithinDay, JSDate.WeekDay, JSDate.Day, JSDate.msPerDay in *.
  destruct (Z.ltb_spec s 1793512800000); Z.div_mod_to_equations; lia.
Qed.

(** On the sample host, five hours behind UTC throughout, the same week
    began at 05:00 UTC. *)
Example new_tickets_this_week_sample :
  new_tickets_this_week
    (generateDashboardStats Sample.host 1793701230123
       [ Sample.ticket (Some "1") (Some "2026-10-31T23:00:00.000Z") None None None;
         Sample.ticket (Some "1") (Some "2026-11-01T04:59:59.999Z") None None None;
         Sample.ticket (Some "1") (Some "2026-11-01T05:00:00.000Z") None None None ])
  = 1.
Proof. vm_compute. reflexivity. Qed.


Example havana_week_start :
  startOfWeek Zones.havana 1773154800000 = Some 1772946000000
  /\ JSDate.LocalTime Zones.havana 1772946000000 = 20520 * JSDate.msPerDay + 3600000
  /\ JSDate.LocalTime Zones.havana (1772946000000 - 1) = 20520 * JSDate.msPerDay - 1
  /\ JSDate.WeekDay (JSDate.LocalTime Zones.havana 1772946000000) = 0
  /\ new_tickets_this_week
       (generateDashboardStats Zones.havana 1773154800000
          [ Sample.ticket (Some "1") (Some "2026-03-04T12:00:00.000Z") None None None;
            Sample.ticket (Some "1") (Some "2026-03-08T05:00:00.000Z") None None None ])
     = 1.
Proof.
  split; [vm_compute; reflexivity|]. split; [vm_compute; reflexivity|].
  split; [vm_compute; reflexivity|]. split; vm_compute; reflexivity.
Qed.

(* ================================================================= *)
(** ** The age histogram *)

Lemma combine_fst_snd {A B : Type} (l : list (A * B)) :
  combine (map fst l) (map snd l) = l.
Proof.
  induction l as [|[a b] l IH]; [reflexivity|]. cbn. now rewrite IH.
Qed.

(** Settles every comparison of the goal that linear arithmetic decides. *)
Ltac settle_tests :=
  repeat match goal with
         | |- context [?x <? ?y] =>
             first [ rewrite (proj2 (Z.ltb_lt x y)) by lia
                   | rewrite (proj2 (Z.ltb_ge x y)) by lia ]
         | |- context [?x <=? ?y] =>
             first [ rewrite (proj2 (Z.leb_le x y)) by lia
                   | rewrite (proj2 (Z.leb_gt x y)) by lia ]
         end.

(** The seven counters after the loop over [ages], from any start. *)
Lemma ageGroups_fold (ages : list Z) (c0 c1 c2 c3 c4 c5 c6 : Z) :
  Forall (fun a => 0 <= a <= 120) ages ->
  fold_left (fun groups age => increment (ageGroupIndex age) groups) ages
    [ ("0-17", c0); ("18-24", c1); ("25-34", c2); ("35-44", c3);
      ("45-54", c4); ("55-64", c5); ("65+", c6) ]
  = [ ("0-17", c0 + count (fun a => inRange (0, 17) (Some a)) ages);
      ("18-24", c1 + count (fun a => inRange (18, 24) (Some a)) ages);
      ("25-34", c2 + count (fun a => inRange (25, 34) (Some a)) ages);
      ("35-44", c3 + count (fun a => inRange (35, 44) (Some a)) ages);
      ("45-54", c4 + count (fun a => inRange (45, 54) (Some a)) ages);
      ("55-64", c5 + count (fun a => inRange (55, 64) (Some a)) ages);
      ("65+", c6 + count (fun a => inRange (65, 120) (Some a)) ages) ].
Proof.
  intros Hages. revert c0 c1 c2 c3 c4 c5 c6.
  induction Hages as [|a ages Ha _ IH]; intros.
  - rewrite !count_nil, !Z.add_0_r. reflexivity.
  - cbn [fold_left]. rewrite !count_cons.
    unfold ageGroupIndex. unfold inRange at 1 3 5 7 9 11 13. cbn [fst snd].
    assert (Hcase : a < 18 \/ 18 <= a < 25 \/ 25 <= a < 35 \/ 35 <= a < 45
                    \/ 45 <= a < 55 \/ 55 <= a < 65 \/ 65 <= a) by lia.
    destruct Hcase as [H | [H | [H | [H | [H | [H | H]]]]]];
      settle_tests; cbn [increment andb]; rewrite IH;
      repeat (first [ lia | f_equal ]).
Qed.

Lemma ageEntry_valid (h : JSDate.Host) (now : Z) (t : HubSpotTicket) :
  Forall (fun a => 0 <= a <= 120) (ageEntry h now t).
Proof.
  unfold ageEntry.
  destruct (present _); [|constructor].
  destruct (ageAt _ _) as [age|]; [|constructor].
  destruct (Z.leb_spec 0 age), (Z.leb_spec age 120); cbn [andb]; repeat constructor; lia.
Qed.

Lemma ages_valid (h : JSDate.Host) (now : Z) (tickets : list HubSpotTicket) :
  Forall (fun a => 0 <= a <= 120) (ages h now tickets).
Proof.
  unfold ages. induction tickets as [|t tickets IH]; [constructor|].
  cbn [flat_map]. apply Forall_app. split; [apply ageEntry_valid | exact IH].
Qed.

(** Counting the kept ages of a range is counting the tickets whose age
    falls in it, for a range within [0, 120]. *)
Lemma count_ages (h : JSDate.Host) (now : Z) (lo hi : Z) (tickets : list HubSpotTicket) :
  0 <= lo -> hi <= 120 ->
  count (fun a => inRange (lo, hi) (Some a)) (ages h now tickets)
  = count (fun t => inRange (lo, hi) (ticketAge h now t)) tickets.
Proof.
  intros Hlo Hhi. unfold ages.
  induction tickets as [|t tickets IH]; [reflexivity|].
  cbn [flat_map]. rewrite count_app, count_cons, IH. f_equal.
  unfold ageEntry, ticketAge, inRange. cbn [fst snd].
  destruct (present _); [|reflexivity].
  destruct (ageAt _ _) as [age|]; [|reflexivity].
  destruct (Z.leb_spec 0 age), (Z.leb_spec age 120); cbn [andb];
    rewrite ?count_cons, ?count_nil; cbn [fst snd inRange];
    destruct (Z.leb_spec lo age), (Z.leb_spec age hi); cbn [andb]; lia.
Qed.

Lemma ageGroupsOrdered_spec (h : JSDate.Host) (now : Z) (tickets : list HubSpotTicket) :
  ageGroupsOrdered (ages h now tickets)
  = map (fun r => (fst r, count (fun t => inRange (snd r) (ticketAge h now t)) tickets))
      ageRanges.
Proof.
  unfold ageGroupsOrdered, ageGroupsInitial.
  rewrite ageGroups_fold by apply ages_valid.
  rewrite !count_ages by lia. reflexivity.
Qed.

Lemma ageChart_bars (h : JSDate.Host) (now : Z) (tickets : list HubSpotTicket) :
  bars (ageChart h now tickets) = histogram h now tickets.
Proof.
  unfold ageChart, histogram. rewrite ageGroupsOrdered_spec.
  set (groups := filter _ _).
  destruct groups as [|g groups'] eqn:Hg; [reflexivity|].
  cbn [List.length Z.of_nat Z.ltb Z.compare]. unfold bars. cbn [age_data flat_map age_x age_y].
  now rewrite app_nil_r, combine_fst_snd.
Qed.

(** The age of the model is the number of whole years of 365.25 days
    from the birthday to [now], and only a birthday that parses has one. *)
Lemma ticketAge_wholeYears (h : JSDate.Host) (now : Z) (t : HubSpotTicket) (age : Z) :
  ticketAge h now t = Some age
  <-> exists birth : Z, bornAt h t birth /\ wholeYears birth now age.
Proof.
  unfold ticketAge, bornAt, wholeYears, present, ageAt, msPerYear, yearOfDays.
  destruct (birthday (properties t)) as [b|].
  - destruct (String.eqb_spec b "") as [-> | Hb].
    + split; [discriminate|]. intros [birth [[b' [Eb [Hb' _]]] _]]. congruence.
    + destruct (JSDate.of_string h b) as [birth|] eqn:Eparse; cbn [option_map].
      * split.
        -- intros E. injection E as <-. exists birth.
           split; [exists b; repeat split; assumption|].
           Z.div_mod_to_equations. lia.
        -- intros [birth' [[b' [Eb [_ Eparse']]] Hage]].
           injection Eb as <-. rewrite Eparse in Eparse'. injection Eparse' as <-.
           f_equal. Z.div_mod_to_equations. lia.
      * split; [discriminate|].
        intros [birth' [[b' [Eb [_ Eparse']]] _]]. congruence.
  - split; [discriminate|]. intros [birth [[b' [Eb _]] _]]. discriminate.
Qed.

Lemma inRange_agedWithin (h : JSDate.Host) (now : Z) (range : Z * Z) (t : HubSpotTicket) :
  inRange range (ticketAge h now t) = agedWithin h now range t.
Proof.
  unfold ticketAge, agedWithin, birthOf, present, ageAt, inRange, msPerYear, yearOfDays.
  destruct range as [lo hi]. cbn [fst snd].
  destruct (birthday (properties t)) as [b|]; [|reflexivity].
  destruct (b =? "")%string; [reflexivity|].
  destruct (JSDate.of_string h b) as [birth|]; [|reflexivity].
  cbn [option_map].
  destruct (Z.leb_spec lo ((now - birth) / 31557600000));
    destruct (Z.leb_spec ((now - birth) / 31557600000) hi);
    destruct (Z.leb_spec (lo * (1461 * 21600000)) (now - birth));
    destruct (Z.ltb_spec (now - birth) ((hi + 1) * (1461 * 21600000)));
    try reflexivity; exfalso; Z.div_mod_to_equations; lia.
Qed.

Lemma histogram_of_birthdays (h : JSDate.Host) (now : Z) (tickets : list HubSpotTicket) :
  histogram h now tickets = histogramOfBirthdays h now tickets.
Proof.
  unfold histogram, histogramOfBirthdays. f_equal.
  apply map_ext. intros r. f_equal.
  apply count_ext. intros t _. apply inRange_agedWithin.
Qed.

(** C5. The bars of the age chart are, for the seven ranges 0-17, 18-24,
    25-34, 35-44, 45-54, 55-64 and 65+ (up to 120) taken in this order,
    the number of tickets whose birthday lies that many whole years of
    365.25 days before [now], the ranges without a member left out.  A
    ticket whose birthday parses to an instant 17 whole years before [now]
    gives alone one bar "0-17", 18 years one bar "18-24", 120 years one
    bar "65+"; a ticket born 121 years before, or any number of years
    below 0 or above 120, or without a birthday that parses, gives no
    bar. *)
Theorem C5_age_histogram (h : JSDate.Host) (now : Z) (tickets : list HubSpotTicket) :
  bars (ageChart h now tickets) = histogram h now tickets
  /\ map fst ageRanges = ["0-17"; "18-24"; "25-34"; "35-44"; "45-54"; "55-64"; "65+"]
  /\ (forall t : HubSpotTicket,
        (ticketAge h now t = Some 17 -> bars (ageChart h now [t]) = [("0-17", 1)])
        /\ (ticketAge h now t = Some 18 -> bars (ageChart h now [t]) = [("18-24", 1)])
        /\ (ticketAge h now t = Some 120 -> bars (ageChart h now [t]) = [("65+", 1)])
        /\ (ticketAge h now t = Some 121 -> bars (ageChart h now [t]) = [])
        /\ (forall a, ticketAge h now t = Some a -> a < 0 \/ 120 < a ->
                      bars (ageChart h now [t]) = [])
        /\ (ticketAge h now t = None -> bars (ageChart h now [t]) = []))
  /\ bars (ageChart h now tickets) = histogramOfBirthdays h now tickets
  /\ 4 * yearOfDays = (4 * 365 + 1) * JSDate.msPerDay
  /\ (forall (t : HubSpotTicket) (age : Z),
        ticketAge h now t = Some age
        <-> exists birth : Z, bornAt h t birth /\ wholeYears birth now age)
  /\ (forall (t : HubSpotTicket) (birth : Z),
        bornAt h t birth ->
        (wholeYears birth now 17 -> bars (ageChart h now [t]) = [("0-17", 1)])
        /\ (wholeYears birth now 18 -> bars (ageChart h now [t]) = [("18-24", 1)])
        /\ (wholeYears birth now 120 -> bars (ageChart h now [t]) = [("65+", 1)])
        /\ (wholeYears birth now 121 -> bars (ageChart h now [t]) = [])
        /\ (forall age : Z, wholeYears birth now age -> age < 0 \/ 120 < age ->
                            bars (ageChart h now [t]) = []))
  /\ (forall t : HubSpotTicket,
        (forall birth : Z, ~ bornAt h t birth) -> bars (ageChart h now [t]) = []).
Proof.
  assert (Hcases : forall t : HubSpotTicket,
        (ticketAge h now t = Some 17 -> bars (ageChart h now [t]) = [("0-17", 1)])
        /\ (ticketAge h now t = Some 18 -> bars (ageChart h now [t]) = [("18-24", 1)])
        /\ (ticketAge h now t = Some 120 -> bars (ageChart h now [t]) = [("65+", 1)])
        /\ (ticketAge h now t = Some 121 -> bars (ageChart h now [t]) = [])
        /\ (forall a, ticketAge h now t = Some a -> a < 0 \/ 120 < a ->
                      bars (ageChart h now [t]) = [])
        /\ (ticketAge h now t = None -> bars (ageChart h now [t]) = [])).
  { intros t. rewrite ageChart_bars. unfold histogram, ageRanges. cbn [map fst snd].
    rewrite !count_cons, !count_nil.
    repeat split.
    - intros ->. reflexivity.
    - intros ->. reflexivity.
    - intros ->. reflexivity.
    - intros ->. reflexivity.
    - intros a -> Ha. unfold inRange. cbn [fst snd].
      destruct Ha; settle_tests; reflexivity.
    - intros ->. reflexivity. }
  split; [apply ageChart_bars|]. split; [reflexivity|].
  split; [exact Hcases|].
  split; [rewrite ageChart_bars; apply histogram_of_birthdays|].
  split; [reflexivity|].
  split; [intros t age; apply ticketAge_wholeYears|].
  split.
  - intros t birth Hborn.
    destruct (Hcases t) as [H17 [H18 [H120 [H121 [Hout _]]]]].
    assert (Hage : forall age, wholeYears birth now age -> ticketAge h now t = Some age)
      by (intros age Hage; apply ticketAge_wholeYears; now exists birth).
    split; [intros H; apply H17, Hage, H|].
    split; [intros H; apply H18, Hage, H|].
    split; [intros H; apply H120, Hage, H|].
    split; [intros H; apply H121, Hage, H|].
    intros age H Hrange. apply (Hout age); [apply Hage, H | exact Hrange].
  - intros t Hnone.
    destruct (Hcases t) as [_ [_ [_ [_ [_ Hno]]]]]. apply Hno.
    destruct (ticketAge h now t) as [age|] eqn:E; [|reflexivity].
    apply ticketAge_wholeYears in E as [birth [Hborn _]].
    now elim (Hnone birth).
Qed.

(** On Tuesday 3 November 2026, 10:20:30.123 UTC: born on 3 November 2008,
    almost 18 calendar years before, is 17 years of 365.25 days; born the
    day before is 18; born on 3 November 1906 is 120, on 3 November 1905 is
    121; an empty and an unparsable birthday give no age. *)
Lemma C5_witness :
  bars (ageChart Sample.host 1793701230123
          [Sample.ticket None None None None (Some "2008-11-03")]) = [("0-17", 1)]
  /\ bars (ageChart Sample.host 1793701230123
             [Sample.ticket None None None None (Some "2008-11-02")]) = [("18-24", 1)]
  /\ bars (ageChart Sample.host 1793701230123
             [Sample.ticket None None None None (Some "1906-11-03")]) = [("65+", 1)]
  /\ bars (ageChart Sample.host 1793701230123
             [Sample.ticket None None None None (Some "1905-11-03")]) = []
  /\ bars (ageChart Sample.host 1793701230123
             [Sample.ticket None None None None (Some "2030-01-01")]) = []
  /\ bars (ageChart Sample.host 1793701230123
             [Sample.ticket None None None None (Some "")]) = []
  /\ bars (ageChart Sample.host 1793701230123
             [Sample.ticket None None None None (Some "3 November")]) = [].
Proof.
  pose proof (C5_age_histogram Sample.host 1793701230123 [])
    as [_ [_ [_ [_ [_ [_ [Hborn Hnone]]]]]]].
  assert (Hb : forall (s : string) (birth : Z),
            s <> ""%string -> JSDate.of_string Sample.host s = Some birth ->
            bornAt Sample.host (Sample.ticket None None None None (Some s)) birth)
    by (intros s birth Hs Hp; exists s; repeat split; assumption).
  split.
  { apply (proj1 (Hborn _ 1225670400000
                    (Hb "2008-11-03"%string _ ltac:(discriminate) eq_refl))).
    unfold wholeYears, yearOfDays. lia. }
  split.
  { apply (proj1 (proj2 (Hborn _ 1225584000000
                    (Hb "2008-11-02"%string _ ltac:(discriminate) eq_refl)))).
    unfold wholeYears, yearOfDays. lia. }
  split.
  { apply (proj1 (proj2 (proj2 (Hborn _ (- 1993248000000)
                    (Hb "1906-11-03"%string _ ltac:(discriminate) eq_refl))))).
    unfold wholeYears, yearOfDays. lia. }
  split.
  { apply (proj1 (proj2 (proj2 (proj2 (Hborn _ (- 2024784000000)
                    (Hb "1905-11-03"%string _ ltac:(discriminate) eq_refl)))))).
    unfold wholeYears, yearOfDays. lia. }
  split.
  { apply (proj2 (proj2 (proj2 (proj2 (Hborn _ 1893456000000
                    (Hb "2030-01-01"%string _ ltac:(discriminate) eq_refl))))) (- 4)).
    - unfold wholeYears, yearOfDays. lia.
    - lia. }
  split.
  { apply Hnone. intros birth [b [Eb [Hne _]]]. injection Eb as <-. now elim Hne. }
  apply Hnone. intros birth [b [Eb [_ Hp]]]. injection Eb as <-. discriminate Hp.
Defined.

Example age_histogram_sample :
  bars (ageChart Sample.host 1793701230123
          [ Sample.ticket None None None None (Some "1905-11-03");
            Sample.ticket None None None None (Some "1906-11-03");
            Sample.ticket None None None None (Some "2008-11-02");
            Sample.ticket None None None None None;
            Sample.ticket None None None None (Some "2008-11-03");
            Sample.ticket None None None None (Some "2010-06-30") ])
  = [("0-17", 2); ("18-24", 1); ("65+", 1)]
  /\ map (ticketAge Sample.host 1793701230123)
       [ Sample.ticket None None None None (Some "1905-11-03");
         Sample.ticket None None None None (Some "1906-11-03");
         Sample.ticket None None None None (Some "2008-11-02");
         Sample.ticket None None None None (Some "2008-11-03") ]
     = [Some 121; Some 120; Some 18; Some 17].
Proof. split; vm_compute; reflexivity. Qed.

(** C6. On the empty collection the five statistics are 0 and the age
    chart is the empty-chart marker: no series, and the no-data title.
    More generally the marker is emitted whenever no ticket yields an age
    in [0, 120], and a chart that has a series has at least one bar. *)
Theorem C6_empty_collection (h : JSDate.Host) (now now' : Z) :
  generateDashboardStats h now []
  = {| open_tickets := 0; new_tickets_this_week := 0; osw_count := 0;
       staffmark_count := 0; closed_tickets := 0 |}
  /\ (exists charts : Charts,
        generateCharts h now' [] = Normal charts
        /\ age_demographics charts = emptyAgeChart)
  /\ (forall tickets : list HubSpotTicket,
        ages h now' tickets = [] -> ageChart h now' tickets = emptyAgeChart)
  /\ (forall tickets : list HubSpotTicket,
        age_data (ageChart h now' tickets) <> [] -> bars (ageChart h now' tickets) <> []).
Proof.
  split; [reflexivity|]. split; [eexists; split; reflexivity|]. split.
  - intros tickets Hages. unfold ageChart. rewrite Hages. reflexivity.
  - intros tickets. unfold ageChart.
    set (groups := filter _ _).
    destruct groups as [|[label n] groups'] eqn:Hg; [intros H; now elim H|].
    intros _. discriminate.
Qed.

(* ================================================================= *)
(** ** Doubles: adding a non-negative number *)

Module DoubleFacts.
Import Double.

Lemma ulp_shift_nonneg (m : Z) : 0 <= ulp_shift m.
Proof. unfold ulp_shift. lia. Qed.

Lemma ulp_shift_mono (a b : Z) : a <= b -> ulp_shift a <= ulp_shift b.
Proof.
  intros H. unfold ulp_shift. pose proof (Z.log2_le_mono a b H). lia.
Qed.

(** Above the subnormal range the significand [n / 2^k] has exactly 53 bits. *)
Lemma significand_range (n : Z) :
  0 < ulp_shift n ->
  2 ^ 52 <= n / 2 ^ ulp_shift n < 2 ^ 53.
Proof.
  intros Hk. unfold ulp_shift in *.
  assert (Hlog : 52 < Z.log2 n) by lia.
  assert (Hpos : 0 < n).
  { destruct (Z.le_gt_cases n 0) as [Hle | Hp]; [|exact Hp].
    rewrite Z.log2_nonpos in Hlog by exact Hle. lia. }
  rewrite Z.max_r by lia.
  set (k := Z.log2 n - 52) in *.
  destruct (Z.log2_spec n Hpos) as [Hlo Hhi].
  replace (Z.log2 n) with (52 + k) in Hlo by lia.
  replace (Z.succ (Z.log2 n)) with (53 + k) in Hhi by lia.
  rewrite Z.pow_add_r in Hlo, Hhi by lia.
  assert (H2k : 0 < 2 ^ k) by (apply Z.pow_pos_nonneg; lia).
  split.
  - apply Z.div_le_lower_bound; lia.
  - apply Z.div_lt_upper_bound; lia.
Qed.

(** The rounding of an integer [n]: the significand [n / 2^k], or the
    next one when a non-zero remainder is rounded up. *)
Lemma round_ratio_integer (n : Z) :
  let k := ulp_shift n in
  exists m' : Z,
    round_ratio n 1 = m' * 2 ^ k
    /\ (m' = n / 2 ^ k \/ (m' = n / 2 ^ k + 1 /\ 0 < k)).
Proof.
  intros k. unfold round_ratio. rewrite Z.div_1_r, Z.mul_1_l. fold k.
  assert (H2k : 0 < 2 ^ k) by (apply Z.pow_pos_nonneg; [lia | apply ulp_shift_nonneg]).
  destruct ((2 ^ k <? 2 * (n mod 2 ^ k))
            || ((2 ^ k =? 2 * (n mod 2 ^ k)) && Z.odd (n / 2 ^ k))) eqn:Hup.
  - exists (n / 2 ^ k + 1). split; [reflexivity|]. right. split; [reflexivity|].
    pose proof (ulp_shift_nonneg n) as Hk. fold k in Hk.
    destruct (Z.eq_dec k 0) as [Hk0 | Hk0]; [|lia].
    rewrite Hk0 in Hup. change (2 ^ 0) with 1 in Hup.
    rewrite Z.mod_1_r in Hup. discriminate Hup.
  - exists (n / 2 ^ k). split; [reflexivity | now left].
Qed.

(** Rounding never goes below a double that the exact value dominates. *)
Lemma round_ratio_lower (x n : Z) :
  0 <= x <= n -> representable x -> x <= round_ratio n 1.
Proof.
  intros [Hx Hxn] Hrep.
  destruct (round_ratio_integer n) as [m' [-> Hm']].
  set (k := ulp_shift n) in *.
  pose proof (ulp_shift_nonneg n) as Hk. fold k in Hk.
  assert (H2k : 0 < 2 ^ k) by (apply Z.pow_pos_nonneg; lia).
  assert (Hfloor : x <= n / 2 ^ k * 2 ^ k).
  { destruct (Z.eq_dec k 0) as [Hk0 | Hk0].
    - rewrite Hk0. change (2 ^ 0) with 1. rewrite Z.div_1_r. lia.
    - assert (Hkpos : 0 < k) by lia.
      pose proof (significand_range n Hkpos) as Hsig. fold k in Hsig.
      pose proof (ulp_shift_mono x n Hxn) as Hmono. fold k in Hmono.
      destruct (Z.eq_dec (ulp_shift x) k) as [Heq | Hne].
      + unfold representable in Hrep. rewrite Heq in Hrep.
        pose proof (Z.div_mod x (2 ^ k)) as Hdm.
        pose proof (Z.div_le_mono x n (2 ^ k) H2k Hxn) as Hdiv.
        nia.
      + assert (Hlt : x < 2 ^ 52 * 2 ^ k).
        { destruct (Z.eq_dec x 0) as [-> | Hx0]; [lia|].
          destruct (Z.log2_spec x ltac:(lia)) as [_ Hhi].
          assert (Hle : Z.succ (Z.log2 x) <= 52 + k)
            by (unfold ulp_shift in *; lia).
          rewrite <- Z.pow_add_r by lia.
          eapply Z.lt_le_trans; [exact Hhi|].
          apply Z.pow_le_mono_r; lia. }
        nia. }
  destruct Hm' as [-> | [-> _]]; nia.
Qed.

(** The rounding of a positive integer is representable. *)
Lemma round_ratio_representable (n : Z) :
  0 <= n -> representable (round_ratio n 1).
Proof.
  intros Hn.
  destruct (round_ratio_integer n) as [m' [-> Hm']].
  set (k := ulp_shift n) in *.
  pose proof (ulp_shift_nonneg n) as Hk. fold k in Hk.
  assert (H2k : 0 < 2 ^ k) by (apply Z.pow_pos_nonneg; lia).
  unfold representable.
  destruct (Z.eq_dec k 0) as [Hk0 | Hk0].
  - destruct Hm' as [-> | [_ Hpos]]; [|lia].
    rewrite Hk0. change (2 ^ 0) with 1. rewrite Z.div_1_r, Z.mul_1_r.
    unfold k in Hk0. now rewrite Hk0, Z.mod_1_r.
  - assert (Hkpos : 0 < k) by lia.
    pose proof (significand_range n Hkpos) as Hsig. fold k in Hsig.
    assert (Hm : 2 ^ 52 <= m' <= 2 ^ 53) by (destruct Hm' as [-> | [-> _]]; lia).
    assert (Hlog : Z.log2 (m' * 2 ^ k) = k + Z.log2 m')
      by (apply Z.log2_mul_pow2; lia).
    destruct (Z.eq_dec m' (2 ^ 53)) as [-> | Hne].
    + unfold ulp_shift. rewrite Hlog, Z.log2_pow2 by lia.
      rewrite Z.max_r by lia.
      replace (k + 53 - 52) with (k + 1) by lia.
      replace (2 ^ 53 * 2 ^ k) with (2 ^ 52 * 2 ^ (k + 1))
        by (rewrite !Z.pow_add_r by lia; lia).
      apply Z.mod_mul. apply Z.pow_nonzero; lia.
    + assert (Hl52 : Z.log2 m' = 52) by (apply Z.log2_unique; lia).
      unfold ulp_shift. rewrite Hlog, Hl52.
      rewrite Z.max_r by lia.
      replace (k + 52 - 52) with k by lia.
      apply Z.mod_mul. lia.
Qed.

(** Adding a number that is not negative to a running total gives a
    running total that is not smaller. *)
Lemma add_nonNegative (total a : number) :
  isTotal total -> nonNegative a ->
  leb total (add total a) = true /\ isTotal (add total a).
Proof.
  unfold nonNegative.
  destruct total as [| [|] | | x]; cbn [isTotal]; try contradiction;
    destruct a as [| [|] | | y]; cbn [leb add Bool.eqb]; try discriminate;
    intros Ht Ha; try (split; [reflexivity | exact I]).
  - split; [apply Z.leb_refl | exact Ht].
  - destruct Ht as [Hx Hrep]. apply Z.leb_le in Ha.
    unfold of_ratio.
    destruct (Z.ltb_spec (x + y) 0) as [Hneg | _]; [lia|].
    rewrite Z.abs_eq by lia.
    pose proof (round_ratio_lower x (x + y) ltac:(lia) Hrep) as Hlow.
    pose proof (round_ratio_representable (x + y) ltac:(lia)) as Hr.
    destruct (Z.eqb_spec (round_ratio (x + y) 1) 0) as [H0 | H0].
    + cbn [leb isTotal]. split; [apply Z.leb_le; lia|].
      split; [lia | reflexivity].
    + destruct (2 ^ 2098 <=? round_ratio (x + y) 1); cbn [leb isTotal].
      * split; [reflexivity | exact I].
      * split; [apply Z.leb_le; lia|]. split; [lia | exact Hr].
Qed.

End DoubleFacts.

(* ================================================================= *)
(** ** Sorting the crisis records *)

Lemma insert_permutation {A : Type} (cmp : A -> A -> comparison) (x : A) (l : list A) :
  Permutation (insert cmp x l) (x :: l).
Proof.
  induction l as [|y l IH]; [reflexivity|].
  cbn [insert]. destruct (cmp x y); try reflexivity.
  rewrite IH. apply perm_swap.
Qed.

Lemma sort_permutation {A : Type} (cmp : A -> A -> comparison) (l : list A) :
  Permutation (sort cmp l) l.
Proof.
  induction l as [|x l IH]; [reflexivity|].
  unfold sort in *. cbn [fold_right].
  rewrite insert_permutation. now constructor.
Qed.

Lemma byDate_valid (a b : CrisisItem) (x y : Z) :
  date a = Some x -> date b = Some y -> byDate a b = (x ?= y).
Proof. intros Ha Hb. unfold byDate, JSDate.sub_sign. now rewrite Ha, Hb. Qed.

Lemma insert_byDate_sorted (x : CrisisItem) (l : list CrisisItem) :
  date x <> None -> Forall (fun i => date i <> None) l ->
  Sorted dateLe l -> Sorted dateLe (insert byDate x l).
Proof.
  intros Hx Hl Hs. induction Hs as [|y l Hs IH Hhd]; cbn [insert].
  - repeat constructor.
  - apply Forall_cons_iff in Hl as [Hy Hl].
    destruct (date x) as [tx|] eqn:Ex; [|contradiction].
    destruct (date y) as [ty|] eqn:Ey; [|contradiction].
    assert (Hxy : tx <= ty -> dateLe x y) by (unfold dateLe; now rewrite Ex, Ey).
    assert (Hyx : ty <= tx -> dateLe y x) by (unfold dateLe; now rewrite Ex, Ey).
    rewrite (byDate_valid x y tx ty Ex Ey).
    destruct (Z.compare_spec tx ty) as [Heq | Hlt | Hgt].
    + constructor; [now constructor|]. constructor. apply Hxy. lia.
    + constructor; [now constructor|]. constructor. apply Hxy. lia.
    + constructor; [now apply IH|].
      destruct l as [|z l']; cbn [insert].
      * constructor. apply Hyx. lia.
      * destruct (byDate x z); constructor;
          first [ apply Hyx; lia | now inversion Hhd ].
Qed.

Lemma sort_byDate_sorted (l : list CrisisItem) :
  Forall (fun i => date i <> None) l -> Sorted dateLe (sort byDate l).
Proof.
  induction l as [|x l IH]; intros Hl; [constructor|].
  apply Forall_cons_iff in Hl as [Hx Hl].
  unfold sort in *. cbn [fold_right].
  apply insert_byDate_sorted; [exact Hx | | now apply IH].
  eapply Permutation_Forall; [|exact Hl].
  symmetry. apply (sort_permutation byDate).
Qed.

(* ================================================================= *)
(** ** The running tally *)

(** The day pushed for a valid date is never replaced by the empty string. *)
Lemma day_text (s : string) :
  JS.to_string (JS.or (VString s) (VString "")) = s.
Proof.
  unfold JS.or. cbn [JS.truthy].
  destruct (String.eqb_spec s "") as [-> | _]; reflexivity.
Qed.

(** When every date is valid the loop completes; its three arrays. *)
Lemma runningTally_valid (items : list CrisisItem) (index : Z) (total : Double.number) :
  Forall (fun i => date i <> None) items ->
  runningTally items index total
  = Normal (map (fun k => index + Z.of_nat k) (seq 1 (List.length items)),
            partialSums total (map amount items),
            map isoDay items).
Proof.
  intros Hitems. revert index total.
  induction Hitems as [|item items Hitem _ IH]; intros index total; [reflexivity|].
  cbn [runningTally]. unfold isoDay at 1.
  destruct (date item) as [t|] eqn:Et; [|contradiction].
  cbn [ISO.toISOString bind]. rewrite IH. cbn [bind].
  rewrite day_text. cbn [List.length seq map partialSums]. rewrite Et.
  assert (Hseq : map (fun k => index + 1 + Z.of_nat k) (seq 1 (List.length items))
                 = map (fun k => index + Z.of_nat k) (seq 2 (List.length items))).
  { rewrite <- (seq_shift (List.length items) 1), map_map.
    apply map_ext. intros k. lia. }
  rewrite Hseq. reflexivity.
Qed.

(** One Invalid Date among the items makes the loop throw, whatever the
    order of the items. *)
Lemma runningTally_invalid (items : list CrisisItem) (index : Z) (total : Double.number) :
  Exists (fun i => date i = None) items ->
  runningTally items index total = Throw rangeError.
Proof.
  intros Hex. revert index total.
  induction items as [|item items IH]; intros index total; [inversion Hex|].
  cbn [runningTally].
  destruct (date item) as [t|] eqn:Et; [|reflexivity].
  cbn [ISO.toISOString bind]. rewrite IH; [reflexivity|].
  inversion Hex as [? ? H | ? ? H]; subst; [congruence | exact H].
Qed.

Lemma crisisChart_invalid (h : JSDate.Host) (tickets : list HubSpotTicket) :
  Exists (fun i => date i = None) (crisisData h tickets) ->
  crisisChart h tickets = Throw rangeError.
Proof.
  intros Hex. unfold crisisChart.
  rewrite runningTally_invalid; [reflexivity|].
  apply Exists_exists in Hex as [i [Hin Hi]].
  apply Exists_exists. exists i. split; [|exact Hi].
  eapply Permutation_in; [|exact Hin].
  symmetry. apply sort_permutation.
Qed.

(** The partial sums of amounts that are not negative never decrease. *)
Lemma partialSums_nonDecreasing (total : Double.number) (amounts : list Double.number) :
  isTotal total -> Forall nonNegative amounts ->
  nonDecreasing (partialSums total amounts)
  /\ HdRel (fun a b => Double.leb a b = true) total (partialSums total amounts).
Proof.
  intros Ht Ha. revert total Ht.
  induction Ha as [|a amounts Ha _ IH]; intros total Ht.
  - split; constructor.
  - cbn [partialSums].
    destruct (DoubleFacts.add_nonNegative total a Ht Ha) as [Hle Ht'].
    destruct (IH _ Ht') as [Hs Hhd].
    split; [constructor; assumption | constructor; exact Hle].
Qed.

(** What the loop over the tickets selects: a record per ticket that has a
    non-empty crisis_wish of which [parseFloat] makes a number, and a
    non-empty created_at. *)
Lemma crisisData_selects (h : JSDate.Host) (tickets : list HubSpotTicket) (item : CrisisItem) :
  In item (crisisData h tickets)
  <-> exists (t : HubSpotTicket) (wish created : string),
        In t tickets
        /\ present (crisis_wish (properties t)) = Some wish
        /\ present (created_at t) = Some created
        /\ Double.isNaN (Double.parseFloat wish) = false
        /\ item = {| date := JSDate.of_string h created;
                     amount := Double.parseFloat wish |}.
Proof.
  unfold crisisData. rewrite in_flat_map. split.
  - intros [t [Hin Hitem]]. unfold crisisEntry in Hitem.
    destruct (present (crisis_wish (properties t))) as [wish|] eqn:Ew; [|contradiction].
    destruct (present (created_at t)) as [created|] eqn:Ec; [|contradiction].
    destruct (Double.isNaN (Double.parseFloat wish)) eqn:En; [contradiction|].
    destruct Hitem as [<- | []]. now exists t, wish, created.
  - intros [t [wish [created [Hin [Ew [Ec [En ->]]]]]]].
    exists t. split; [exact Hin|].
    unfold crisisEntry. rewrite Ew, Ec, En. now left.
Qed.

Lemma crisisChart_completes (h : JSDate.Host) (tickets : list HubSpotTicket) :
  Forall (fun i => date i <> None) (crisisData h tickets) ->
  exists chart : CrisisChart, crisisChart h tickets = Normal chart.
Proof.
  intros Hdates. unfold crisisChart.
  rewrite runningTally_valid; [eexists; reflexivity|].
  eapply Permutation_Forall; [|exact Hdates].
  symmetry. apply sort_permutation.
Qed.

(** C3, amended. When the created_at of every selected record parses to a
    valid date, the crisis-wish chart is emitted over the selected records
    sorted by ascending date: its running count is 1, 2, 3, ..., its
    running total is the cumulative sum of the amounts in that order, and
    the running total never decreases provided no amount is negative. *)
Theorem C3_running_tally (h : JSDate.Host) (tickets : list HubSpotTicket)
    (Hdates : Forall (fun i => date i <> None) (crisisData h tickets)) :
  exists (sorted : list CrisisItem) (chart : CrisisChart),
    crisisChart h tickets = Normal chart
    /\ Permutation sorted (crisisData h tickets)
    /\ byAscendingDate sorted
    /\ dates chart = map isoDay sorted
    /\ runningCounts chart
       = map Z.of_nat (seq 1 (List.length (crisisData h tickets)))
    /\ runningTotals chart = partialSums (Double.Finite 0) (map amount sorted)
    /\ (Forall (fun i => nonNegative (amount i)) (crisisData h tickets)
        -> nonDecreasing (runningTotals chart)).
Proof.
  pose proof (sort_permutation byDate (crisisData h tickets)) as Hperm.
  assert (Hsorted : Forall (fun i => date i <> None) (sort byDate (crisisData h tickets)))
    by (eapply Permutation_Forall; [symmetry; exact Hperm | exact Hdates]).
  exists (sort byDate (crisisData h tickets)). eexists.
  split.
  { unfold crisisChart. rewrite (runningTally_valid _ _ _ Hsorted). reflexivity. }
  cbn [dates runningCounts runningTotals].
  split; [exact Hperm|].
  split; [now apply sort_byDate_sorted|].
  split; [reflexivity|].
  split.
  { rewrite (Permutation_length Hperm). apply map_ext. intros k. lia. }
  split; [reflexivity|].
  intros Hpos.
  apply partialSums_nonDecreasing.
  - split; [lia | reflexivity].
  - apply Forall_map.
    eapply Permutation_Forall; [symmetry; exact Hperm | exact Hpos].
Qed.

(** Two wishes of 25.50 and 10, the later ticket first. *)
Lemma C3_witness :
  Forall (fun i => date i <> None)
    (crisisData Sample.host
       [ Sample.ticket (Some "1") (Some "2026-11-02T08:00:00.000Z") None (Some "25.50") None;
         Sample.ticket (Some "2") (Some "2026-10-30T08:00:00.000Z") None (Some "10") None ])
  /\ exists (sorted : list CrisisItem) (chart : CrisisChart),
       crisisChart Sample.host
         [ Sample.ticket (Some "1") (Some "2026-11-02T08:00:00.000Z") None (Some "25.50") None;
           Sample.ticket (Some "2") (Some "2026-10-30T08:00:00.000Z") None (Some "10") None ]
       = Normal chart
       /\ Permutation sorted
            (crisisData Sample.host
               [ Sample.ticket (Some "1") (Some "2026-11-02T08:00:00.000Z") None
                   (Some "25.50") None;
                 Sample.ticket (Some "2") (Some "2026-10-30T08:00:00.000Z") None
                   (Some "10") None ])
       /\ byAscendingDate sorted
       /\ dates chart = map isoDay sorted
       /\ runningCounts chart
          = map Z.of_nat
              (seq 1 (List.length
                        (crisisData Sample.host
                           [ Sample.ticket (Some "1") (Some "2026-11-02T08:00:00.000Z") None
                               (Some "25.50") None;
                             Sample.ticket (Some "2") (Some "2026-10-30T08:00:00.000Z") None
                               (Some "10") None ])))
       /\ runningTotals chart = partialSums (Double.Finite 0) (map amount sorted)
       /\ (Forall (fun i => nonNegative (amount i))
             (crisisData Sample.host
                [ Sample.ticket (Some "1") (Some "2026-11-02T08:00:00.000Z") None
                    (Some "25.50") None;
                  Sample.ticket (Some "2") (Some "2026-10-30T08:00:00.000Z") None
                    (Some "10") None ])
           -> nonDecreasing (runningTotals chart)).
Proof.
  assert (Hdates :
    Forall (fun i => date i <> None)
      (crisisData Sample.host
         [ Sample.ticket (Some "1") (Some "2026-11-02T08:00:00.000Z") None (Some "25.50") None;
           Sample.ticket (Some "2") (Some "2026-10-30T08:00:00.000Z") None (Some "10") None ])).
  { vm_compute. repeat constructor; discriminate. }
  split; [exact Hdates|].
  exact (C3_running_tally Sample.host _ Hdates).
Defined.

Example crisis_chart_sample :
  option_map (fun c => (dates c, runningCounts c, runningTotals c))
    (match crisisChart Sample.host
             [ Sample.ticket (Some "1") (Some "2026-11-02T08:00:00.000Z") None
                 (Some "25.50") None;
               Sample.ticket (Some "2") (Some "2026-10-30T08:00:00.000Z") None
                 (Some "10") None;
               Sample.ticket (Some "3") (Some "2026-10-31T08:00:00.000Z") None
                 (Some "n/a") None ]
     with Normal c => Some c | Throw _ => None end)
  = Some (["2026-10-30"; "2026-11-02"], [1; 2],
          [Double.parseFloat "10"; Double.parseFloat "35.5"]).
Proof. vm_compute. reflexivity. Qed.

(** C3 as stated fails: a wish of 10 followed by a wish of -5 makes the
    running total go from 10 down to 5. *)
Lemma C3_counterexample :
  ~ tallyAsSpecified Sample.host
      [ Sample.ticket (Some "1") (Some "2026-10-30T08:00:00.000Z") None (Some "10") None;
        Sample.ticket (Some "2") (Some "2026-11-02T08:00:00.000Z") None (Some "-5") None ].
Proof.
  intros [chart [Hchart [_ Hmono]]].
  vm_compute in Hchart. injection Hchart as <-.
  cbn [runningTotals] in Hmono.
  inversion Hmono as [|a l _ Hhd]; subst.
  inversion Hhd as [|b l' Hle]; subst.
  vm_compute in Hle. discriminate Hle.
Qed.

(* ================================================================= *)
(** ** The chart builder as a whole *)

Lemma invalid_or_all_valid (items : list CrisisItem) :
  Forall (fun i => date i <> None) items \/ Exists (fun i => date i = None) items.
Proof.
  induction items as [|i items [IH | IH]].
  - left. constructor.
  - destruct (date i) eqn:E.
    + left. constructor; [congruence | exact IH].
    + right. now constructor.
  - right. now constructor 2.
Qed.

(** The chart builder throws exactly when a selected record carries an
    Invalid Date, and then what [toISOString] throws. *)
Lemma generateCharts_throws (h : JSDate.Host) (now : Z) (tickets : list HubSpotTicket)
    (e : Error) :
  generateCharts h now tickets = Throw e
  <-> Exists (fun i => date i = None) (crisisData h tickets) /\ e = rangeError.
Proof.
  unfold generateCharts. split.
  - intros H.
    destruct (invalid_or_all_valid (crisisData h tickets)) as [Hall | Hex].
    + destruct (crisisChart_completes h tickets Hall) as [chart Hc].
      rewrite Hc in H. discriminate H.
    + rewrite (crisisChart_invalid h tickets Hex) in H. cbn [bind] in H.
      split; [exact Hex | congruence].
  - intros [Hex ->]. now rewrite (crisisChart_invalid h tickets Hex).
Qed.

(* ================================================================= *)
(** ** The inbound fetch and the handler *)

(** More fuel does not change the outcome of a loop that has ended. *)
Lemma fetchPages_more_fuel (env : Environment) (apiKey : string) (fuel fuel' call : nat)
    (after : option string) (allTickets : list HubSpotTicket)
    (outcome : completion (list HubSpotTicket)) :
  (fuel <= fuel')%nat ->
  fetchPages env apiKey fuel call after allTickets = Some outcome ->
  fetchPages env apiKey fuel' call after allTickets = Some outcome.
Proof.
  revert fuel' call after allTickets.
  induction fuel as [|fuel IH]; intros fuel' call after allTickets Hle H; [discriminate H|].
  destruct fuel' as [|fuel']; [lia|].
  cbn [fetchPages] in *.
  destruct (fetch env call (pageRequest apiKey after)) as [e | r]; [exact H|].
  destruct (negb (ok r)); [exact H|].
  destruct (json r) as [data | e]; [|exact H].
  destruct (present (paging_next_after data)); [|exact H].
  apply IH; [lia | exact H].
Qed.

(** The loop throws only what one answer of the network fails with. *)
Lemma fetchPages_throws (env : Environment) (apiKey : string) (fuel call : nat)
    (after : option string) (allTickets : list HubSpotTicket) (e : Error) :
  fetchPages env apiKey fuel call after allTickets = Some (Throw e) ->
  exists (call' : nat) (after' : option string),
    pageFailure (fetch env call' (pageRequest apiKey after')) = Some e.
Proof.
  revert call after allTickets.
  induction fuel as [|fuel IH]; intros call after allTickets H; [discriminate H|].
  cbn [fetchPages] in H.
  destruct (fetch env call (pageRequest apiKey after)) as [e' | r] eqn:Ef.
  - exists call, after. rewrite Ef. cbn. congruence.
  - destruct (negb (ok r)) eqn:Eok.
    + exists call, after. rewrite Ef. cbn [pageFailure]. rewrite Eok. congruence.
    + destruct (json r) as [data | e'] eqn:Ej.
      * destruct (present (paging_next_after data)); [|discriminate H].
        now apply IH in H.
      * exists call, after. rewrite Ef. cbn [pageFailure]. rewrite Eok, Ej. congruence.
Qed.

Lemma fetch_missing_credential (env : Environment) (fuel : nat) :
  present (HUBSPOT_API_KEY env) = None ->
  fetchHubSpotTickets env fuel = Some (Throw missingCredential).
Proof. intros H. unfold fetchHubSpotTickets. now rewrite H. Qed.

(** A failure after [pagesRead] pages ends the loop with that error as
    soon as the bound allows the request that fails, whatever was read
    before; below that bound the loop is still running. *)
Lemma fetchPages_failsAfter (env : Environment) (apiKey : string) (pagesRead : nat) :
  forall (call : nat) (after : option string) (e : Error) (fuel : nat)
         (allTickets : list HubSpotTicket),
    failsAfter env apiKey call after pagesRead e ->
    fetchPages env apiKey fuel call after allTickets
    = if (pagesRead <? fuel)%nat then Some (Throw e) else None.
Proof.
  induction pagesRead as [|n IH]; intros call after e fuel allTickets Hfails;
    (destruct fuel as [|fuel]; [reflexivity|]); cbn [failsAfter] in Hfails.
  - cbn [fetchPages]. unfold pageFailure in Hfails.
    destruct (fetch env call (pageRequest apiKey after)) as [e' | r]; [now injection Hfails as ->|].
    destruct (negb (ok r)); [now injection Hfails as <-|].
    destruct (json r); [discriminate | now injection Hfails as ->].
  - destruct Hfails as [r [data [next [Hfetch [Hok [Hjson [Hnext [Hne Hrest]]]]]]]].
    cbn [fetchPages]. rewrite Hfetch, Hok, Hjson. cbn [negb].
    unfold present at 1. rewrite Hnext.
    destruct (String.eqb_spec next "") as [E | _]; [now elim Hne|].
    rewrite (IH _ _ _ fuel _ Hrest). reflexivity.
Qed.

(** Conversely, a loop that throws has met such a failure. *)
Lemma fetchPages_throws_failsAfter (env : Environment) (apiKey : string) (fuel : nat) :
  forall (call : nat) (after : option string) (allTickets : list HubSpotTicket) (e : Error),
    fetchPages env apiKey fuel call after allTickets = Some (Throw e) ->
    exists pagesRead : nat,
      (pagesRead < fuel)%nat /\ failsAfter env apiKey call after pagesRead e.
Proof.
  induction fuel as [|fuel IH]; intros call after allTickets e H; [discriminate H|].
  cbn [fetchPages] in H.
  destruct (fetch env call (pageRequest apiKey after)) as [e' | r] eqn:Ef.
  - exists 0%nat. split; [lia|]. cbn [failsAfter]. rewrite Ef. cbn. congruence.
  - destruct (ok r) eqn:Eok; cbn [negb] in H.
    + destruct (json r) as [data | e'] eqn:Ej.
      * unfold present in H.
        destruct (paging_next_after data) as [next|] eqn:En; [|discriminate H].
        destruct (String.eqb_spec next "") as [E | Hne]; [discriminate H|].
        apply IH in H as [n [Hn Hrest]].
        exists (S n). split; [lia|]. cbn [failsAfter].
        exists r, data, next. repeat split; assumption.
      * exists 0%nat. split; [lia|]. cbn [failsAfter].
        rewrite Ef. cbn [pageFailure]. rewrite Eok, Ej. cbn [negb]. congruence.
    + exists 0%nat. split; [lia|]. cbn [failsAfter].
      rewrite Ef. cbn [pageFailure]. rewrite Eok. cbn [negb]. congruence.
Qed.

(** The fetch throws exactly on an inbound failure. *)
Lemma fetch_throws_inboundFailure (env : Environment) (fuel : nat) (e : Error) :
  fetchHubSpotTickets env fuel = Some (Throw e) ->
  exists pagesRead : nat, inboundFailure env pagesRead e.
Proof.
  unfold fetchHubSpotTickets, present, inboundFailure.
  destruct (HUBSPOT_API_KEY env) as [apiKey|] eqn:Ek.
  - destruct (String.eqb_spec apiKey "") as [-> | Hne].
    + intros H. exists 0%nat. left. split; [now right|].
      unfold missingCredential. congruence.
    + intros H. apply fetchPages_throws_failsAfter in H as [n [_ Hn]].
      exists n. right. exists apiKey. repeat split; assumption.
  - intros H. exists 0%nat. left. split; [now left|].
    unfold missingCredential. congruence.
Qed.

(** What the fetch does on an inbound failure, for every bound. *)
Lemma fetch_inboundFailure (env : Environment) (pagesRead : nat) (e : Error) (fuel : nat) :
  inboundFailure env pagesRead e ->
  ((pagesRead < fuel)%nat -> fetchHubSpotTickets env fuel = Some (Throw e))
  /\ (fetchHubSpotTickets env fuel = Some (Throw e)
      \/ fetchHubSpotTickets env fuel = None).
Proof.
  intros [[Hkey ->] | [apiKey [Hkey [Hne Hfails]]]].
  - assert (H : fetchHubSpotTickets env fuel = Some (Throw missingCredential))
      by (apply fetch_missing_credential; destruct Hkey as [-> | ->]; reflexivity).
    split; [intros _; exact H | left; exact H].
  - unfold fetchHubSpotTickets, present. rewrite Hkey.
    destruct (String.eqb_spec apiKey "") as [E | _]; [now elim Hne|].
    rewrite (fetchPages_failsAfter env apiKey pagesRead _ _ e fuel [] Hfails).
    destruct (Nat.ltb_spec pagesRead fuel); split; try (intros; lia); auto.
Qed.

(** C8. On a failure of the inbound fetch with an error [e] -- the
    credential is not set, or the network fails a request (a rejection, a
    status that is not a success, an unreadable body), be it the first or
    one that follows [pagesRead] pages read -- the fetch throws [e] as
    soon as the bound allows that request, and the handler then answers
    with status 500 and a body whose success is false, whose error is the
    message of [e], and that has neither statistics nor charts.  Under no
    bound does the fetch return tickets or the handler answer anything
    else. *)
Theorem C8_fetch_failure (env : Environment) (pagesRead : nat) (e : Error)
    (Hfails : inboundFailure env pagesRead e) :
  (forall fuel : nat, (pagesRead < fuel)%nat ->
     fetchHubSpotTickets env fuel = Some (Throw e)
     /\ GET env fuel
        = Some {| http_status := 500;
                  body := {| success := false; stats := None; charts := None;
                             error := Some (message e) |} |})
  /\ (forall (fuel : nat) (tickets : list HubSpotTicket),
        fetchHubSpotTickets env fuel <> Some (Normal tickets))
  /\ (forall (fuel : nat) (response : NextResponse),
        GET env fuel = Some response ->
        response
        = {| http_status := 500;
             body := {| success := false; stats := None; charts := None;
                        error := Some (message e) |} |}).
Proof.
  split; [|split].
  - intros fuel Hfuel.
    pose proof (proj1 (fetch_inboundFailure env pagesRead e fuel Hfails) Hfuel) as H.
    split; [exact H|]. unfold GET. rewrite H. reflexivity.
  - intros fuel tickets.
    destruct (proj2 (fetch_inboundFailure env pagesRead e fuel Hfails)) as [H | H];
      rewrite H; discriminate.
  - intros fuel response. unfold GET.
    destruct (proj2 (fetch_inboundFailure env pagesRead e fuel Hfails)) as [H | H];
      rewrite H; [|discriminate].
    intros E. injection E as <-. reflexivity.
Qed.

(** A first page of one ticket, then a second answer 503: one page read,
    and no statistics of its ticket in the answer. *)
Lemma C8_witness :
  inboundFailure
    (Sample.env (Some "secret")
       [ Sample.page [Sample.raw (Some "1") None None None None] (Some "100");
         Sample.refusal 503 "Service Unavailable" ]) 1
    {| name := "Error"; message := "HubSpot API error: 503 Service Unavailable" |}
  /\ (forall fuel : nat, (1 < fuel)%nat ->
        fetchHubSpotTickets
          (Sample.env (Some "secret")
             [ Sample.page [Sample.raw (Some "1") None None None None] (Some "100");
               Sample.refusal 503 "Service Unavailable" ]) fuel
        = Some (Throw {| name := "Error";
                         message := "HubSpot API error: 503 Service Unavailable" |})
        /\ GET (Sample.env (Some "secret")
                  [ Sample.page [Sample.raw (Some "1") None None None None] (Some "100");
                    Sample.refusal 503 "Service Unavailable" ]) fuel
           = Some {| http_status := 500;
                     body := {| success := false; stats := None; charts := None;
                                error := Some "HubSpot API error: 503 Service Unavailable" |} |}).
Proof.
  assert (Hfails :
    inboundFailure
      (Sample.env (Some "secret")
         [ Sample.page [Sample.raw (Some "1") None None None None] (Some "100");
           Sample.refusal 503 "Service Unavailable" ]) 1
      {| name := "Error"; message := "HubSpot API error: 503 Service Unavailable" |}).
  { right. exists "secret"%string.
    split; [reflexivity|]. split; [discriminate|].
    cbn [failsAfter]. do 3 eexists.
    split; [reflexivity|]. split; [reflexivity|]. split; [reflexivity|].
    split; [reflexivity|]. split; [discriminate|].
    vm_compute. reflexivity. }
  split; [exact Hfails|].
  exact (proj1 (C8_fetch_failure _ _ _ Hfails)).
Defined.

(** The three kinds of failure, each after a first page that was read. *)
Example GET_fails_on_second_page :
  GET (Sample.env (Some "secret")
         [ Sample.page [Sample.raw (Some "1") None None None None] (Some "100") ]) 5
  = Some {| http_status := 500;
            body := {| success := false; stats := None; charts := None;
                       error := Some "fetch failed" |} |}
  /\ GET (Sample.env (Some "secret")
            [ Sample.page [Sample.raw (Some "1") None None None None] (Some "100");
              Sample.refusal 401 "Unauthorized" ]) 5
     = Some {| http_status := 500;
               body := {| success := false; stats := None; charts := None;
                          error := Some "HubSpot API error: 401 Unauthorized" |} |}
  /\ GET (Sample.env (Some "secret")
            [ Sample.page [Sample.raw (Some "1") None None None None] (Some "100");
              Fulfilled {| ok := true; response_status := 200; statusText := "OK";
                           json := Throw {| name := "SyntaxError";
                                            message := "Unexpected end of JSON input" |} |} ]) 5
     = Some {| http_status := 500;
               body := {| success := false; stats := None; charts := None;
                          error := Some "Unexpected end of JSON input" |} |}.
Proof. split; [|split]; vm_compute; reflexivity. Qed.

Example GET_missing_credential (answers : list FetchResult) (fuel : nat) :
  GET (Sample.env None answers) fuel
  = Some {| http_status := 500;
            body := {| success := false; stats := None; charts := None;
                       error := Some "HUBSPOT_API_KEY environment variable is not set" |} |}.
Proof. reflexivity. Qed.

Example GET_transport_error :
  GET (Sample.env (Some "secret") []) 1
  = Some {| http_status := 500;
            body := {| success := false; stats := None; charts := None;
                       error := Some "fetch failed" |} |}.
Proof. reflexivity. Qed.

Example GET_success :
  option_map (fun r => (http_status r, success (body r), stats (body r), error (body r)))
    (GET (Sample.env (Some "secret")
            [ Sample.page [Sample.raw (Some "1") (Some "2026-11-02T08:00:00.000Z")
                             None None None] (Some "100");
              Sample.page [Sample.raw (Some "4") (Some "2026-10-02T08:00:00.000Z")
                             None None None] None ]) 5)
  = Some (200, true,
          Some {| open_tickets := 1; new_tickets_this_week := 1; osw_count := 0;
                  staffmark_count := 0; closed_tickets := 1 |},
          None).
Proof. vm_compute. reflexivity. Qed.

(** C9, at a ticket whose crisis_wish is "100" and whose created_at is
    "not a date": the record is selected with an Invalid Date, the loop over
    the sorted records throws a RangeError out of [generateCharts], and the
    handler answers with a failure instead of leaving that record out. *)
Theorem C9_unparsable_created_at_aborts :
  generateCharts Sample.host 1793701230124
    [ Sample.ticket (Some "1") (Some "not a date") None (Some "100") None ]
  = Throw rangeError
  /\ GET (Sample.env (Some "secret")
            [ Sample.page [Sample.raw (Some "1") (Some "not a date") None (Some "100") None]
                None ]) 1
     = Some {| http_status := 500;
               body := {| success := false; stats := None; charts := None;
                          error := Some "Invalid time value" |} |}.
Proof. split; vm_compute; reflexivity. Qed.

(** Away from that path a bad field only leaves its record out: a
    crisis_wish that is not a number and a birthday that does not parse
    select nothing, and the chart builder completes as soon as every
    selected created_at parses. *)
Lemma bad_fields_are_skipped (h : JSDate.Host) (now : Z) (t : HubSpotTicket) :
  (forall wish, present (crisis_wish (properties t)) = Some wish ->
                Double.parseFloat wish = Double.NaN -> crisisEntry h t = [])
  /\ (forall born, present (birthday (properties t)) = Some born ->
                   JSDate.of_string h born = None -> ageEntry h now t = []).
Proof.
  split.
  - intros wish Hw Hnan. unfold crisisEntry. rewrite Hw, Hnan.
    now destruct (present (created_at t)).
  - intros born Hb Hnone. unfold ageEntry. now rewrite Hb, Hnone.
Qed.

Lemma generateCharts_completes (h : JSDate.Host) (now : Z) (tickets : list HubSpotTicket) :
  Forall (fun i => date i <> None) (crisisData h tickets) ->
  exists charts : Charts, generateCharts h now tickets = Normal charts.
Proof.
  intros Hdates. unfold generateCharts.
  destruct (crisisChart_completes h tickets Hdates) as [chart ->].
  eexists. reflexivity.
Qed.

(* ================================================================= *)
(** ** The service distribution *)

Module ServiceFacts.

(** *** Distinct values and frequencies *)

Lemma distinct_In (x : string) (l : list string) : In x (distinct l) <-> In x l.
Proof.
  induction l as [|y l IH]; [reflexivity|].
  cbn [distinct In]. rewrite filter_In, IH.
  destruct (String.eqb_spec x y) as [-> | Hne]; cbn [negb].
  - split; intros _; now left.
  - split.
    + intros [Hy | [Hx _]]; [now left | now right].
    + intros [Hy | Hx]; [now left | right; split; [exact Hx | reflexivity]].
Qed.

Lemma distinct_NoDup (l : list string) : NoDup (distinct l).
Proof.
  induction l as [|y l IH]; [constructor|].
  cbn [distinct]. constructor; [|now apply NoDup_filter].
  rewrite filter_In, String.eqb_refl. intros [_ H]. discriminate H.
Qed.

Lemma existsb_In (s : string) (l : list string) :
  existsb (String.eqb s) l = true <-> In s l.
Proof.
  rewrite existsb_exists. split.
  - intros [x [Hin Heq]]. apply String.eqb_eq in Heq. now subst.
  - intros Hin. exists s. split; [exact Hin | apply String.eqb_refl].
Qed.

Lemma existsb_distinct (s : string) (l : list string) :
  existsb (String.eqb s) (distinct l) = existsb (String.eqb s) l.
Proof.
  apply eq_true_iff_eq. rewrite !existsb_In. apply distinct_In.
Qed.

Lemma distinct_snoc (l : list string) (s : string) :
  distinct (l ++ [s])
  = if existsb (String.eqb s) l then distinct l else distinct l ++ [s].
Proof.
  induction l as [|y l IH]; [reflexivity|].
  cbn [app distinct existsb]. rewrite IH.
  destruct (String.eqb_spec s y) as [-> | Hne]; cbn [orb].
  - destruct (existsb (String.eqb y) l); [reflexivity|].
    rewrite filter_app. cbn [filter]. rewrite String.eqb_refl. cbn [negb].
    now rewrite app_nil_r.
  - destruct (existsb (String.eqb s) l); [reflexivity|].
    rewrite filter_app. cbn [filter].
    destruct (String.eqb_spec s y) as [Heq | _]; [contradiction|]. reflexivity.
Qed.

Lemma occurrences_snoc (k s : string) (l : list string) :
  occurrences k (l ++ [s]) = occurrences k l + (if (k =? s)%string then 1 else 0).
Proof.
  unfold occurrences. rewrite count_app, count_cons, count_nil. lia.
Qed.

Lemma occurrences_absent (k : string) (l : list string) :
  existsb (String.eqb k) l = false -> occurrences k l = 0.
Proof.
  unfold occurrences. induction l as [|y l IH]; [reflexivity|].
  cbn [existsb]. rewrite count_cons.
  destruct (k =? y)%string; cbn [orb]; [discriminate|]. intros H. rewrite IH; auto.
Qed.

Lemma occurrences_present (k : string) (l : list string) :
  existsb (String.eqb k) l = true -> 0 < occurrences k l.
Proof.
  unfold occurrences. induction l as [|y l IH]; [discriminate|].
  cbn [existsb]. rewrite count_cons.
  pose proof (count_bounds (String.eqb k) l) as Hb.
  destruct (k =? y)%string; cbn [orb]; [lia|]. intros H. apply IH in H. lia.
Qed.

(** *** Objects that tabulate a function over a list of keys *)

Lemma get_own_table (g : string -> value) (ks : list string) (s : string) :
  JS.get_own (table g ks) s
  = if existsb (String.eqb s) ks then Some (g s) else None.
Proof.
  induction ks as [|k ks IH]; [reflexivity|].
  cbn [table map JS.get_own existsb]. fold (table g ks). rewrite IH.
  rewrite (String.eqb_sym s k).
  destruct (String.eqb_spec k s) as [-> | _]; reflexivity.
Qed.

Lemma update_own_absent (g : string -> value) (ks : list string) (s : string) (v : value) :
  existsb (String.eqb s) ks = false ->
  JS.update_own (table g ks) s v = table g ks ++ [(s, v)].
Proof.
  induction ks as [|k ks IH]; [reflexivity|].
  cbn [table map JS.update_own existsb app]. fold (table g ks).
  rewrite (String.eqb_sym s k).
  destruct (k =? s)%string; cbn [orb]; [discriminate|].
  intros H. now rewrite IH.
Qed.

Lemma update_own_present (g : string -> value) (ks : list string) (s : string) (v : value) :
  NoDup ks -> existsb (String.eqb s) ks = true ->
  JS.update_own (table g ks) s v
  = map (fun k => (k, if (k =? s)%string then v else g k)) ks.
Proof.
  intros Hnd. induction Hnd as [|k ks Hk Hnd IH]; [discriminate|].
  cbn [table map JS.update_own existsb]. fold (table g ks).
  rewrite (String.eqb_sym s k).
  destruct (String.eqb_spec k s) as [-> | Hne]; cbn [orb].
  - intros _. f_equal. apply map_ext_in. intros k Hin.
    destruct (String.eqb_spec k s) as [-> | _]; [contradiction | reflexivity].
  - intros H. now rewrite IH.
Qed.

(** *** The loop that fills [serviceCounts] *)

Lemma countService_counted (counts : JS.object) (t : HubSpotTicket) :
  countService counts t = fold_left countOne (countedService t) counts.
Proof.
  unfold countService, countedService.
  destruct (service_provided (properties t)) as [s|]; [|reflexivity].
  destruct (s =? "")%string; [reflexivity|].
  destruct (s =? "null")%string; reflexivity.
Qed.

Lemma serviceCounts_counted (tickets : list HubSpotTicket) (counts : JS.object) :
  fold_left countService tickets counts
  = fold_left countOne (countedServices tickets) counts.
Proof.
  revert counts. induction tickets as [|t tickets IH]; intros counts; [reflexivity|].
  unfold countedServices. cbn [fold_left flat_map].
  rewrite fold_left_app, IH, countService_counted. reflexivity.
Qed.

Lemma not_inherited (s : string) :
  inherited s = false ->
  (s =? "__proto__")%string = false /\ JS.get_inherited s = VUndefined.
Proof.
  unfold inherited, JS.get_inherited.
  destruct (s =? "__proto__")%string; [discriminate|].
  destruct (existsb (String.eqb s) JS.prototype_methods); [discriminate|].
  now split.
Qed.

(** One more service, when it is not the name of an inherited member. *)
Lemma countOne_tallied (seen : list string) (s : string) :
  inherited s = false -> countOne (tallied seen) s = tallied (seen ++ [s]).
Proof.
  intros Hs. destruct (not_inherited s Hs) as [Hproto Hinh].
  unfold countOne, JS.set, JS.get, tallied. rewrite Hproto, get_own_table.
  rewrite distinct_snoc, existsb_distinct.
  destruct (existsb (String.eqb s) seen) eqn:Hseen.
  - pose proof (occurrences_present s seen Hseen) as Hpos.
    unfold JS.or. cbn [JS.truthy].
    destruct (Z.eqb_spec (occurrences s seen) 0) as [H0 | _]; [lia|]. cbn [negb JS.plus_one].
    rewrite update_own_present
      by (try apply distinct_NoDup; now rewrite existsb_distinct).
    unfold table. apply map_ext. intros k. rewrite occurrences_snoc.
    destruct (String.eqb_spec k s) as [-> | _]; [reflexivity|].
    now rewrite Z.add_0_r.
  - rewrite Hinh. unfold JS.or. cbn [JS.truthy JS.plus_one].
    rewrite update_own_absent by now rewrite existsb_distinct.
    unfold table. rewrite map_app. cbn [map].
    rewrite occurrences_snoc, String.eqb_refl, (occurrences_absent s seen Hseen).
    f_equal. apply map_ext_in. intros k Hin. rewrite occurrences_snoc.
    destruct (String.eqb_spec k s) as [-> | _]; [|now rewrite Z.add_0_r].
    apply (proj1 (distinct_In s seen)) in Hin.
    apply (proj2 (existsb_In s seen)) in Hin. congruence.
Qed.

Lemma countOne_fold (services seen : list string) :
  Forall (fun s => inherited s = false) services ->
  fold_left countOne services (tallied seen) = tallied (seen ++ services).
Proof.
  intros Hs. revert seen.
  induction Hs as [|s services Hs _ IH]; intros seen.
  - now rewrite app_nil_r.
  - cbn [fold_left]. rewrite countOne_tallied by exact Hs.
    rewrite IH, <- app_assoc. reflexivity.
Qed.

Lemma serviceCounts_tallied (tickets : list HubSpotTicket) :
  Forall (fun s => inherited s = false) (countedServices tickets) ->
  serviceCounts tickets = tallied (countedServices tickets).
Proof.
  intros Hs. unfold serviceCounts. rewrite serviceCounts_counted.
  exact (countOne_fold _ [] Hs).
Qed.

(** *** The order of the own keys *)

Lemma insert_index_permutation (x : Z * (string * value)) (l : list (Z * (string * value))) :
  Permutation (JS.insert_index x l) (x :: l).
Proof.
  induction l as [|y l IH]; [reflexivity|].
  cbn [JS.insert_index]. destruct (fst x <=? fst y); [reflexivity|].
  rewrite IH. apply perm_swap.
Qed.

Lemma sorted_index_permutation (l : list (Z * (string * value))) :
  Permutation (fold_right JS.insert_index [] l) l.
Proof.
  induction l as [|x l IH]; [reflexivity|].
  cbn [fold_right]. rewrite insert_index_permutation. now constructor.
Qed.

Lemma insert_index_sorted (x : Z * (string * value)) (l : list (Z * (string * value))) :
  Sorted (fun a b => fst a <= fst b) l ->
  Sorted (fun a b => fst a <= fst b) (JS.insert_index x l).
Proof.
  intros Hs. induction Hs as [|y l Hs IH Hhd]; cbn [JS.insert_index].
  - repeat constructor.
  - destruct (Z.leb_spec (fst x) (fst y)) as [Hle | Hgt].
    + constructor; [now constructor | now constructor].
    + constructor; [exact IH|].
      destruct l as [|z l']; cbn [JS.insert_index].
      * constructor. lia.
      * destruct (fst x <=? fst z); constructor; [lia | now inversion Hhd].
Qed.

Lemma sorted_index_sorted (l : list (Z * (string * value))) :
  Sorted (fun a b => fst a <= fst b) (fold_right JS.insert_index [] l).
Proof.
  induction l as [|x l IH]; [constructor|].
  cbn [fold_right]. now apply insert_index_sorted.
Qed.

Lemma index_entries_keys (o : JS.object) :
  map snd (JS.index_entries o) = filter (fun kv => JS.is_index (fst kv)) o.
Proof.
  unfold JS.index_entries, JS.is_index.
  induction o as [|kv o IH]; [reflexivity|].
  cbn [flat_map filter]. destruct (JS.array_index (fst kv)); cbn [app map]; now rewrite IH.
Qed.

Lemma index_entries_indexed (o : JS.object) :
  Forall (fun e => JS.array_index (fst (snd e)) = Some (fst e)) (JS.index_entries o).
Proof.
  unfold JS.index_entries.
  induction o as [|kv o IH]; [constructor|].
  cbn [flat_map]. destruct (JS.array_index (fst kv)) eqn:E; cbn [app]; [|exact IH].
  constructor; [exact E | exact IH].
Qed.

Lemma sorted_keys (l : list (Z * (string * value))) :
  Forall (fun e => JS.array_index (fst (snd e)) = Some (fst e)) l ->
  Sorted (fun a b => fst a <= fst b) l ->
  Sorted indexLe (map (fun e => fst (snd e)) l).
Proof.
  intros Hall Hs. induction Hs as [|x l Hs IH Hhd]; [constructor|].
  apply Forall_cons_iff in Hall as [Hx Hall].
  cbn [map]. constructor; [now apply IH|].
  destruct Hhd as [|y l' Hle]; cbn [map]; constructor.
  apply Forall_cons_iff in Hall as [Hy _].
  unfold indexLe. now rewrite Hx, Hy.
Qed.

Lemma filter_table (p : string -> bool) (g : string -> value) (ks : list string) :
  map fst (filter (fun kv => p (fst kv)) (table g ks)) = filter p ks.
Proof.
  induction ks as [|k ks IH]; [reflexivity|].
  cbn [table map filter fst]. fold (table g ks).
  destruct (p k); cbn [map fst]; now rewrite IH.
Qed.

Lemma own_entries_subset (o : JS.object) (e : string * value) :
  In e (JS.own_entries o) -> In e o.
Proof.
  unfold JS.own_entries. rewrite in_app_iff, filter_In. intros [H | [H _]]; [|exact H].
  apply (Permutation_in _ (Permutation_map snd (sorted_index_permutation _))) in H.
  rewrite index_entries_keys in H. now apply filter_In in H.
Qed.

(** The keys of a table: its array indices in ascending order, then its
    other keys in the order of creation; the values follow the keys. *)
Lemma keys_of_table (g : string -> value) (ks : list string) :
  exists indexed : list string,
    Permutation indexed (filter JS.is_index ks)
    /\ Sorted indexLe indexed
    /\ JS.keys (table g ks) = indexed ++ filter (fun k => negb (JS.is_index k)) ks
    /\ JS.values (table g ks) = map g (JS.keys (table g ks)).
Proof.
  set (o := table g ks).
  set (entries := fold_right JS.insert_index [] (JS.index_entries o)).
  exists (map (fun e => fst (snd e)) entries).
  split; [|split; [|split]].
  - rewrite <- (filter_table JS.is_index g ks). fold o.
    rewrite <- index_entries_keys, map_map.
    apply Permutation_map, sorted_index_permutation.
  - apply sorted_keys; [|apply sorted_index_sorted].
    eapply Permutation_Forall; [|apply index_entries_indexed].
    symmetry. apply sorted_index_permutation.
  - unfold JS.keys, JS.own_entries. fold entries.
    rewrite map_app, map_map. f_equal.
    apply (filter_table (fun k => negb (JS.is_index k))).
  - unfold JS.keys, JS.values. rewrite map_map. apply map_ext_in.
    intros e He. apply own_entries_subset in He.
    unfold o, table in He. apply in_map_iff in He as [k [<- _]]. reflexivity.
Qed.

End ServiceFacts.

(** A ticket without a service that counts leaves the pie as it is. *)
Lemma serviceChart_skips (t : HubSpotTicket) (before after : list HubSpotTicket) :
  countedService t = [] ->
  serviceChart (before ++ t :: after) = serviceChart (before ++ after).
Proof.
  intros Ht. unfold serviceChart, serviceCounts.
  rewrite !fold_left_app. cbn [fold_left].
  now rewrite (ServiceFacts.countService_counted _ t), Ht.
Qed.

(** C4, amended. A ticket whose service_provided is absent, empty or the
    string "null" changes no slice.  When no counted value is the name of
    a member that objects inherit, the pie has one slice per distinct
    counted value, whose count is the occurrence frequency of the value;
    the values that are array indices come first, in ascending numeric
    order, and the other values follow in first-seen order (so the whole
    pie is in first-seen order when no value is an array index). *)
Theorem C4_service_distribution (tickets : list HubSpotTicket)
    (Hplain : Forall (fun s => inherited s = false) (countedServices tickets)) :
  (forall (t : HubSpotTicket) (before after : list HubSpotTicket),
     service_provided (properties t) = None
     \/ service_provided (properties t) = Some ""
     \/ service_provided (properties t) = Some "null" ->
     serviceChart (before ++ t :: after) = serviceChart (before ++ after))
  /\ exists indexed : list string,
       Permutation indexed (filter JS.is_index (distinct (countedServices tickets)))
       /\ Sorted indexLe indexed
       /\ labels (serviceChart tickets)
          = indexed
            ++ filter (fun k => negb (JS.is_index k)) (distinct (countedServices tickets))
       /\ values (serviceChart tickets)
          = map (fun k => VInt (occurrences k (countedServices tickets)))
              (labels (serviceChart tickets))
       /\ (Forall (fun s => JS.is_index s = false) (countedServices tickets)
           -> labels (serviceChart tickets) = distinct (countedServices tickets)).
Proof.
  split.
  - intros t before after Ht. apply serviceChart_skips. unfold countedService.
    destruct Ht as [-> | [-> | ->]]; reflexivity.
  - unfold serviceChart. cbn [labels values].
    rewrite (ServiceFacts.serviceCounts_tallied tickets Hplain). unfold tallied.
    destruct (ServiceFacts.keys_of_table
                (fun k => VInt (occurrences k (countedServices tickets)))
                (distinct (countedServices tickets)))
      as [indexed [Hperm [Hsorted [Hkeys Hvalues]]]].
    exists indexed. repeat split; try assumption.
    intros Hnone. rewrite Hkeys.
    assert (Hall : forall k, In k (distinct (countedServices tickets)) ->
                             JS.is_index k = false).
    { intros k Hk. apply (proj1 (ServiceFacts.distinct_In k _)) in Hk.
      rewrite Forall_forall in Hnone. now apply Hnone. }
    assert (Hempty : filter JS.is_index (distinct (countedServices tickets)) = []).
    { clear - Hall. induction (distinct (countedServices tickets)) as [|k ks IH];
        [reflexivity|].
      cbn [filter]. rewrite (Hall k (or_introl eq_refl)).
      apply IH. intros k' Hk'. apply Hall. now right. }
    rewrite Hempty in Hperm. symmetry in Hperm.
    apply Permutation_nil in Hperm. subst indexed.
    cbn [app]. clear - Hall.
    induction (distinct (countedServices tickets)) as [|k ks IH]; [reflexivity|].
    cbn [filter]. rewrite (Hall k (or_introl eq_refl)). cbn [negb]. f_equal.
    apply IH. intros k' Hk'. apply Hall. now right.
Qed.

(** Six tickets: Rent twice, Food, the keys "2" and "1", and a "null". *)
Lemma C4_witness :
  Forall (fun s => inherited s = false)
    (countedServices
       [ Sample.ticket None None (Some "Rent") None None;
         Sample.ticket None None (Some "2") None None;
         Sample.ticket None None (Some "null") None None;
         Sample.ticket None None (Some "Food") None None;
         Sample.ticket None None (Some "1") None None;
         Sample.ticket None None (Some "Rent") None None ])
  /\ labels (serviceChart
               [ Sample.ticket None None (Some "Rent") None None;
                 Sample.ticket None None (Some "2") None None;
                 Sample.ticket None None (Some "null") None None;
                 Sample.ticket None None (Some "Food") None None;
                 Sample.ticket None None (Some "1") None None;
                 Sample.ticket None None (Some "Rent") None None ])
     = ["1"; "2"; "Rent"; "Food"]
  /\ values (serviceChart
               [ Sample.ticket None None (Some "Rent") None None;
                 Sample.ticket None None (Some "2") None None;
                 Sample.ticket None None (Some "null") None None;
                 Sample.ticket None None (Some "Food") None None;
                 Sample.ticket None None (Some "1") None None;
                 Sample.ticket None None (Some "Rent") None None ])
     = map (fun k =>
              VInt (occurrences k
                      (countedServices
                         [ Sample.ticket None None (Some "Rent") None None;
                           Sample.ticket None None (Some "2") None None;
                           Sample.ticket None None (Some "null") None None;
                           Sample.ticket None None (Some "Food") None None;
                           Sample.ticket None None (Some "1") None None;
                           Sample.ticket None None (Some "Rent") None None ])))
         ["1"; "2"; "Rent"; "Food"].
Proof.
  assert (Hplain :
    Forall (fun s => inherited s = false)
      (countedServices
         [ Sample.ticket None None (Some "Rent") None None;
           Sample.ticket None None (Some "2") None None;
           Sample.ticket None None (Some "null") None None;
           Sample.ticket None None (Some "Food") None None;
           Sample.ticket None None (Some "1") None None;
           Sample.ticket None None (Some "Rent") None None ])).
  { vm_compute. repeat constructor. }
  split; [exact Hplain|].
  destruct (proj2 (C4_service_distribution _ Hplain))
    as [indexed [_ [_ [Hlabels [Hvalues _]]]]].
  split; [reflexivity|].
  rewrite Hvalues. reflexivity.
Defined.

(** C4 as stated fails: the services "2" then "1" come out as "1", "2". *)
Lemma C4_counterexample :
  ~ slicesAsSpecified
      [ Sample.ticket None None (Some "2") None None;
        Sample.ticket None None (Some "1") None None ].
Proof.
  intros [Hlabels _]. vm_compute in Hlabels. discriminate Hlabels.
Qed.

(** The names that objects inherit are counted wrongly: "constructor"
    gets a slice whose value is a string, "__proto__" gets none. *)
Example serviceChart_inherited_names :
  serviceChart
    [ Sample.ticket None None (Some "constructor") None None;
      Sample.ticket None None (Some "__proto__") None None;
      Sample.ticket None None (Some "constructor") None None ]
  = {| labels := ["constructor"];
       values := [VString "function Object() { [native code] }11"] |}.
Proof. vm_compute. reflexivity. Qed.

(* ================================================================= *)
(** * Further properties *)

(* ================================================================= *)
(** ** The five statistics *)

Lemma stats_osw (h : JSDate.Host) (now : Z) (tickets : list HubSpotTicket) :
  osw_count (generateDashboardStats h now tickets)
  = count (fun t => JS.strict_eq (status t) (VString "IN_PROCESS_OSW")) tickets.
Proof. destruct tickets; reflexivity. Qed.

Lemma stats_staffmark (h : JSDate.Host) (now : Z) (tickets : list HubSpotTicket) :
  staffmark_count (generateDashboardStats h now tickets)
  = count (fun t => JS.strict_eq (status t) (VString "IN_PROCESS_STAFFMARK")) tickets.
Proof. destruct tickets; reflexivity. Qed.

(** A status is at most one of the four process labels, and then it is
    in the Open set. *)
Lemma process_labels_are_open (v : value) :
  (if JS.strict_eq v (VString "IN_PROCESS_OSW") then 1 else 0)
  + (if JS.strict_eq v (VString "IN_PROCESS_STAFFMARK") then 1 else 0)
  + (if JS.strict_eq v (VString "RESOURCE_SUPPORT") then 1 else 0)
  + (if JS.strict_eq v (VString "WAITING_FOR_RESPONSE") then 1 else 0)
  <= (if JS.includes openStatuses v then 1 else 0).
Proof.
  destruct v as [| | n | s | key |]; try (cbn; lia).
  cbn [JS.strict_eq].
  destruct (String.eqb_spec s "IN_PROCESS_OSW") as [-> | _]; [cbn; lia|].
  destruct (String.eqb_spec s "IN_PROCESS_STAFFMARK") as [-> | _]; [cbn; lia|].
  destruct (String.eqb_spec s "RESOURCE_SUPPORT") as [-> | _]; [cbn; lia|].
  destruct (String.eqb_spec s "WAITING_FOR_RESPONSE") as [-> | _]; [cbn; lia|].
  destruct (JS.includes openStatuses (VString s)); lia.
Qed.

(** X1. Each of the five statistics lies between 0 and the number of
    tickets; the OSW and Staffmark counts and the two bars of the
    resource-support chart count pairwise different tickets, all of them
    open: together they are at most open_tickets. *)
Theorem stats_within_bounds (h : JSDate.Host) (now : Z) (tickets : list HubSpotTicket) :
  let s := generateDashboardStats h now tickets in
  let n := Z.of_nat (List.length tickets) in
  0 <= open_tickets s <= n
  /\ 0 <= closed_tickets s <= n
  /\ 0 <= new_tickets_this_week s <= n
  /\ 0 <= osw_count s /\ 0 <= staffmark_count s
  /\ Forall (fun bar => 0 <= bar) (resource_y (resourceChart tickets))
  /\ osw_count s + staffmark_count s + total (resource_y (resourceChart tickets))
     <= open_tickets s.
Proof.
  intros s n. subst s n.
  rewrite stats_open, stats_closed, stats_new, stats_osw, stats_staffmark.
  unfold resourceChart, total. cbn [resource_y fold_right].
  repeat match goal with
         | |- context [count ?p tickets] =>
             lazymatch goal with
             | H : 0 <= count p tickets <= _ |- _ => fail
             | _ => pose proof (count_bounds p tickets)
             end
         end.
  repeat split; try lia; try (repeat constructor; lia).
  clear. induction tickets as [|t tickets IH]; [rewrite !count_nil; lia|].
  rewrite !count_cons. pose proof (process_labels_are_open (status t)). lia.
Qed.

(* ================================================================= *)
(** ** The order of the tickets *)

Lemma count_permutation {A : Type} (p : A -> bool) (l l' : list A) :
  Permutation l l' -> count p l = count p l'.
Proof.
  intros H. induction H as [| x l l' _ IH | x y l | l l' l'' _ IH1 _ IH2].
  - reflexivity.
  - rewrite !count_cons, IH. reflexivity.
  - rewrite !count_cons. lia.
  - now rewrite IH1.
Qed.

Lemma ages_permutation (h : JSDate.Host) (now : Z) (tickets tickets' : list HubSpotTicket) :
  Permutation tickets tickets' ->
  Permutation (ages h now tickets) (ages h now tickets').
Proof.
  intros H. unfold ages. induction H as [| x l l' _ IH | x y l | l l' l'' _ IH1 _ IH2].
  - reflexivity.
  - cbn [flat_map]. now apply Permutation_app_head.
  - cbn [flat_map]. rewrite !app_assoc. apply Permutation_app_tail, Permutation_app_comm.
  - now rewrite IH1.
Qed.

(** X2. The aggregator, the resource-support chart and the age chart do
    not depend on the order of the tickets. *)
Theorem order_is_irrelevant (h : JSDate.Host) (now : Z)
    (tickets tickets' : list HubSpotTicket)
    (Hperm : Permutation tickets tickets') :
  generateDashboardStats h now tickets = generateDashboardStats h now tickets'
  /\ resourceChart tickets = resourceChart tickets'
  /\ ageChart h now tickets = ageChart h now tickets'.
Proof.
  split; [|split].
  - destruct tickets as [|t l]; [apply Permutation_nil in Hperm; now subst|].
    destruct tickets' as [|t' l'];
      [symmetry in Hperm; apply Permutation_nil in Hperm; discriminate Hperm|].
    unfold generateDashboardStats.
    now rewrite !(count_permutation _ _ _ Hperm).
  - unfold resourceChart. now rewrite !(count_permutation _ _ _ Hperm).
  - unfold ageChart. rewrite !ageGroupsOrdered_spec.
    rewrite (Permutation_length (ages_permutation h now _ _ Hperm)).
    assert (Hgroups :
      map (fun r => (fst r, count (fun t => inRange (snd r) (ticketAge h now t)) tickets))
          ageRanges
      = map (fun r => (fst r, count (fun t => inRange (snd r) (ticketAge h now t)) tickets'))
          ageRanges).
    { apply map_ext. intros r. now rewrite (count_permutation _ _ _ Hperm). }
    now rewrite Hgroups.
Qed.

Lemma order_is_irrelevant_witness :
  Permutation
    [ Sample.ticket (Some "1") (Some "2026-11-02T08:00:00.000Z") None None (Some "2000-05-05");
      Sample.ticket (Some "4") (Some "2026-10-02T08:00:00.000Z") None None (Some "1950-05-05") ]
    [ Sample.ticket (Some "4") (Some "2026-10-02T08:00:00.000Z") None None (Some "1950-05-05");
      Sample.ticket (Some "1") (Some "2026-11-02T08:00:00.000Z") None None (Some "2000-05-05") ]
  /\ generateDashboardStats Sample.host 1793701230123
       [ Sample.ticket (Some "1") (Some "2026-11-02T08:00:00.000Z") None None
           (Some "2000-05-05");
         Sample.ticket (Some "4") (Some "2026-10-02T08:00:00.000Z") None None
           (Some "1950-05-05") ]
     = generateDashboardStats Sample.host 1793701230123
         [ Sample.ticket (Some "4") (Some "2026-10-02T08:00:00.000Z") None None
             (Some "1950-05-05");
           Sample.ticket (Some "1") (Some "2026-11-02T08:00:00.000Z") None None
             (Some "2000-05-05") ].
Proof.
  assert (Hperm :
    Permutation
      [ Sample.ticket (Some "1") (Some "2026-11-02T08:00:00.000Z") None None
          (Some "2000-05-05");
        Sample.ticket (Some "4") (Some "2026-10-02T08:00:00.000Z") None None
          (Some "1950-05-05") ]
      [ Sample.ticket (Some "4") (Some "2026-10-02T08:00:00.000Z") None None
          (Some "1950-05-05");
        Sample.ticket (Some "1") (Some "2026-11-02T08:00:00.000Z") None None
          (Some "2000-05-05") ]) by apply perm_swap.
  split; [exact Hperm|].
  exact (proj1 (order_is_irrelevant Sample.host 1793701230123 _ _ Hperm)).
Defined.

(* ================================================================= *)
(** ** The week *)

(** At most one instant is the most recent Sunday midnight of [now]. *)
Lemma mostRecentSunday_unique (h : JSDate.Host) (offset now s s' : Z) :
  fixedOffset h offset ->
  mostRecentSunday h now s -> mostRecentSunday h now s' -> s = s'.
Proof.
  intros Hfixed. unfold mostRecentSunday.
  rewrite !(DateFacts.LocalTime_fixed h offset Hfixed).
  unfold JSDate.TimeWithinDay, JSDate.WeekDay, JSDate.Day, JSDate.msPerDay.
  intros [Hm [Hw Hr]] [Hm' [Hw' Hr']].
  Z.div_mod_to_equations. lia.
Qed.

(** X3. On a host whose offset never changes, the statistics stay the
    same through the week: at any later instant before the next Sunday
    midnight of the local time, [startOfWeek] is the same boundary and the
    aggregator returns the same five numbers for the same tickets. *)
Theorem stats_constant_through_week (h : JSDate.Host) (offset now now' start : Z)
    (tickets : list HubSpotTicket)
    (Hfixed : fixedOffset h offset)
    (Hnow : - 8640000000000000 + 7 * JSDate.msPerDay <= now <= 8640000000000000)
    (Hnow' : - 8640000000000000 + 7 * JSDate.msPerDay <= now' <= 8640000000000000)
    (Hstart : startOfWeek h now = Some start)
    (Hweek : start <= now' < start + 7 * JSDate.msPerDay) :
  startOfWeek h now' = Some start
  /\ generateDashboardStats h now' tickets = generateDashboardStats h now tickets.
Proof.
  assert (Hsame : startOfWeek h now' = Some start).
  { rewrite (DateFacts.startOfWeek_value h offset Hfixed now' Hnow'). f_equal.
    pose proof (DateFacts.startOfWeek_is_sunday h offset Hfixed now') as Hs'.
    pose proof (DateFacts.startOfWeek_is_sunday h offset Hfixed now) as Hs.
    rewrite (DateFacts.startOfWeek_value h offset Hfixed now Hnow) in Hstart.
    injection Hstart as Hstart. rewrite Hstart in Hs.
    apply (mostRecentSunday_unique h offset now' _ _ Hfixed); [exact Hs'|].
    destruct Hs as [Hm [Hw _]]. now repeat split. }
  split; [exact Hsame|].
  destruct tickets as [|t l]; [reflexivity|].
  unfold generateDashboardStats. now rewrite Hsame, Hstart.
Qed.

(** Tuesday 10:20 and the following Saturday 23:59 local time, five hours
    behind UTC. *)
Lemma stats_constant_through_week_witness :
  fixedOffset Sample.host (- 18000000)
  /\ (- 8640000000000000 + 7 * JSDate.msPerDay <= 1793701230123 <= 8640000000000000)
  /\ (- 8640000000000000 + 7 * JSDate.msPerDay <= 1794113940000 <= 8640000000000000)
  /\ startOfWeek Sample.host 1793701230123 = Some 1793509200000
  /\ (1793509200000 <= 1794113940000 < 1793509200000 + 7 * JSDate.msPerDay)
  /\ startOfWeek Sample.host 1794113940000 = Some 1793509200000.
Proof.
  assert (H0 : fixedOffset Sample.host (- 18000000)) by (intros t isUTC; reflexivity).
  assert (H1 : - 8640000000000000 + 7 * JSDate.msPerDay <= 1793701230123
               <= 8640000000000000) by (unfold JSDate.msPerDay; lia).
  assert (H2 : - 8640000000000000 + 7 * JSDate.msPerDay <= 1794113940000
               <= 8640000000000000) by (unfold JSDate.msPerDay; lia).
  assert (H3 : startOfWeek Sample.host 1793701230123 = Some 1793509200000)
    by (vm_compute; reflexivity).
  assert (H4 : 1793509200000 <= 1794113940000 < 1793509200000 + 7 * JSDate.msPerDay)
    by (unfold JSDate.msPerDay; lia).
  split; [exact H0|].
  split; [exact H1|]. split; [exact H2|]. split; [exact H3|]. split; [exact H4|].
  exact (proj1 (stats_constant_through_week Sample.host _ _ _ _ [] H0 H1 H2 H3 H4)).
Defined.

(* ================================================================= *)
(** ** The classifier and the two status sets *)

Lemma getStatusFromStage_truthy (stage : option string) :
  JS.truthy (getStatusFromStage stage) = true.
Proof.
  destruct stage as [code|]; [|reflexivity].
  unfold getStatusFromStage.
  destruct (code =? "")%string; [reflexivity|].
  unfold JS.or. destruct (JS.truthy (JS.get stageMapping code)) eqn:E; [exact E|].
  reflexivity.
Qed.

(** X4. The classifier never returns an empty or undefined status, and,
    for a stage code that is not the name of an inherited member, the
    ticket counts as open or closed exactly when the code is one of the
    keys of the static table: every label of the table belongs to one of
    the two sets, and nothing else does. *)
Theorem table_codes_are_the_settled_ones (stage : option string)
    (Hplain : match stage with Some code => inherited code = false | None => True end) :
  JS.truthy (getStatusFromStage stage) = true
  /\ (settled (getStatusFromStage stage)
      <-> exists code : string, stage = Some code /\ tabulated code = true).
Proof.
  split; [apply getStatusFromStage_truthy|]. split.
  - intros Hs.
    apply (classified_settled_or_unclassified stage Hplain) in Hs.
    destruct stage as [code|]; [|exfalso; apply Hs; now left].
    exists code. split; [reflexivity|].
    destruct (tabulated code) eqn:Htab; [reflexivity|].
    exfalso. apply Hs.
    destruct (String.eqb_spec code "") as [-> | Hne]; [now left|].
    right. exists code. now apply getStatusFromStage_other.
  - intros [code [-> Htab]]. now apply getStatusFromStage_tabulated.
Qed.

Lemma table_codes_are_the_settled_ones_witness :
  inherited "12345" = false
  /\ ~ settled (getStatusFromStage (Some "12345")).
Proof.
  assert (Hplain : inherited "12345" = false) by reflexivity.
  split; [exact Hplain|].
  intros Hs.
  apply (proj2 (table_codes_are_the_settled_ones (Some "12345") Hplain)) in Hs.
  destruct Hs as [code [Hcode Htab]]. injection Hcode as <-. discriminate Htab.
Defined.

(* ================================================================= *)
(** ** Pagination *)

Lemma paginated_nonempty (env : Environment) (apiKey : string) (call : nat)
    (after : option string) (pages : list Page) :
  paginated env apiKey call after pages -> pages <> [].
Proof. destruct pages; [contradiction | discriminate]. Qed.

(** The loop ends normally exactly on the paginated sequences of pages
    that fit the bound, with their tickets appended in order. *)
Lemma fetchPages_collects (env : Environment) (apiKey : string) (fuel call : nat)
    (after : option string) (allTickets tickets : list HubSpotTicket) :
  fetchPages env apiKey fuel call after allTickets = Some (Normal tickets)
  <-> exists pages : list Page,
        paginated env apiKey call after pages
        /\ (List.length pages <= fuel)%nat
        /\ tickets = allTickets ++ flat_map pageTickets pages.
Proof.
  revert call after allTickets.
  induction fuel as [|fuel IH]; intros call after allTickets.
  - split; [discriminate|].
    intros [pages [Hp [Hlen _]]]. apply paginated_nonempty in Hp.
    destruct pages; [contradiction | cbn in Hlen; lia].
  - cbn [fetchPages]. split.
    + destruct (fetch env call (pageRequest apiKey after)) as [e | r] eqn:Ef;
        [discriminate|].
      destruct (ok r) eqn:Eok; cbn [negb]; [|discriminate].
      destruct (json r) as [data | e] eqn:Ej; [|discriminate].
      fold (pageTickets data).
      destruct (present (paging_next_after data)) as [next|] eqn:En.
      * intros H. apply IH in H as [pages [Hp [Hlen ->]]].
        exists (data :: pages). split; [|split].
        -- cbn [paginated]. split; [now exists r|].
           destruct pages as [|p pages']; [contradiction|].
           exists next. now split.
        -- cbn [List.length]. lia.
        -- cbn [flat_map]. now rewrite app_assoc.
      * intros H. injection H as <-. exists [data]. split; [|split].
        -- cbn [paginated]. split; [now exists r | exact En].
        -- cbn [List.length]. lia.
        -- cbn [flat_map]. now rewrite app_nil_r.
    + intros [pages [Hp [Hlen ->]]].
      destruct pages as [|data rest]; [contradiction|].
      cbn [paginated] in Hp. destruct Hp as [[r [Ef [Eok Ej]]] Hrest].
      rewrite Ef, Eok, Ej. cbn [negb]. fold (pageTickets data).
      destruct rest as [|p rest'].
      * rewrite Hrest. cbn [flat_map]. now rewrite app_nil_r.
      * destruct Hrest as [next [En Hp]]. rewrite En.
        apply IH. exists (p :: rest'). split; [exact Hp|]. split.
        -- cbn [List.length] in *. lia.
        -- cbn [flat_map]. now rewrite app_assoc.
Qed.

(** X5. The fetch returns tickets exactly when the credential is set and
    the network serves a paginated sequence of pages within the bound: the
    result is the tickets of these pages, transformed, in the order of the
    pages; a page without results contributes none, and the loop stops at
    the first page whose cursor is absent or empty. *)
Theorem fetch_collects_pages (env : Environment) (fuel : nat) (tickets : list HubSpotTicket) :
  fetchHubSpotTickets env fuel = Some (Normal tickets)
  <-> exists (apiKey : string) (pages : list Page),
        present (HUBSPOT_API_KEY env) = Some apiKey
        /\ paginated env apiKey 0 None pages
        /\ (List.length pages <= fuel)%nat
        /\ tickets = flat_map pageTickets pages.
Proof.
  unfold fetchHubSpotTickets.
  destruct (present (HUBSPOT_API_KEY env)) as [apiKey|].
  - rewrite fetchPages_collects. split.
    + intros [pages [Hp [Hlen Ht]]]. now exists apiKey, pages.
    + intros [apiKey' [pages [Hkey [Hp [Hlen Ht]]]]]. injection Hkey as <-.
      now exists pages.
  - split; [discriminate|]. intros [apiKey [pages [Hkey _]]]. discriminate Hkey.
Qed.

Example fetch_two_pages :
  fetchHubSpotTickets Cases.twoPages 2
  = Some (Normal
            [ Sample.ticket (Some "1") (Some "2026-11-02T08:00:00.000Z")
                (Some "Rent") (Some "40") (Some "1990-01-01");
              Sample.ticket (Some "4") (Some "2026-10-02T08:00:00.000Z")
                (Some "Food") None None ])
  /\ fetchHubSpotTickets Cases.twoPages 1 = None.
Proof. split; reflexivity. Qed.

(** X6. Every ticket the fetch returns carries the classification of its
    own stage code as status and its own createdate as created_at. *)
Theorem fetched_tickets_are_classified (env : Environment) (fuel : nat)
    (tickets : list HubSpotTicket)
    (Hfetch : fetchHubSpotTickets env fuel = Some (Normal tickets)) :
  Forall (fun t =>
            status t = getStatusFromStage (hs_pipeline_stage (properties t))
            /\ created_at t = createdate (properties t)
            /\ JS.truthy (status t) = true) tickets.
Proof.
  apply fetch_collects_pages in Hfetch as [apiKey [pages [_ [_ [_ ->]]]]].
  apply Forall_forall. intros t Ht.
  apply in_flat_map in Ht as [data [_ Ht]]. unfold pageTickets in Ht.
  destruct (results data) as [rs|]; [|contradiction].
  apply in_map_iff in Ht as [raw [<- _]].
  cbn [transformTicket status created_at properties].
  repeat split. apply getStatusFromStage_truthy.
Qed.

Lemma fetched_tickets_are_classified_witness :
  fetchHubSpotTickets Cases.twoPages 2
  = Some (Normal
            [ Sample.ticket (Some "1") (Some "2026-11-02T08:00:00.000Z")
                (Some "Rent") (Some "40") (Some "1990-01-01");
              Sample.ticket (Some "4") (Some "2026-10-02T08:00:00.000Z")
                (Some "Food") None None ])
  /\ Forall (fun t =>
               status t = getStatusFromStage (hs_pipeline_stage (properties t))
               /\ created_at t = createdate (properties t)
               /\ JS.truthy (status t) = true)
       [ Sample.ticket (Some "1") (Some "2026-11-02T08:00:00.000Z")
           (Some "Rent") (Some "40") (Some "1990-01-01");
         Sample.ticket (Some "4") (Some "2026-10-02T08:00:00.000Z")
           (Some "Food") None None ].
Proof.
  assert (Hfetch :
    fetchHubSpotTickets Cases.twoPages 2
    = Some (Normal
              [ Sample.ticket (Some "1") (Some "2026-11-02T08:00:00.000Z")
                  (Some "Rent") (Some "40") (Some "1990-01-01");
                Sample.ticket (Some "4") (Some "2026-10-02T08:00:00.000Z")
                  (Some "Food") None None ])) by reflexivity.
  split; [exact Hfetch|].
  exact (fetched_tickets_are_classified Cases.twoPages 2 _ Hfetch).
Defined.

(** The loop is still running after any number of pages when every
    answer names a next page. *)
Lemma fetchPages_endless (env : Environment) (apiKey : string) (fuel call : nat)
    (after : option string) (allTickets : list HubSpotTicket) :
  endless env -> fetchPages env apiKey fuel call after allTickets = None.
Proof.
  intros Hend. revert call after allTickets.
  induction fuel as [|fuel IH]; intros call after allTickets; [reflexivity|].
  cbn [fetchPages].
  destruct (Hend call (pageRequest apiKey after)) as [r [data [next [Ef [Eok [Ej En]]]]]].
  rewrite Ef, Eok, Ej, En. cbn [negb]. apply IH.
Qed.

(** X7. The loop has no bound of its own: when the credential is set and
    every answer of the network names a next page, the fetch never
    returns and the handler never answers, whatever the number of pages
    allowed. *)
Theorem endless_pagination_never_answers (env : Environment) (apiKey : string)
    (Hkey : present (HUBSPOT_API_KEY env) = Some apiKey)
    (Hendless : endless env) :
  forall fuel : nat, fetchHubSpotTickets env fuel = None /\ GET env fuel = None.
Proof.
  intros fuel.
  assert (H : fetchHubSpotTickets env fuel = None).
  { unfold fetchHubSpotTickets. rewrite Hkey. now apply fetchPages_endless. }
  split; [exact H|]. unfold GET. now rewrite H.
Qed.

Lemma endless_pagination_never_answers_witness :
  present (HUBSPOT_API_KEY Cases.endlessEnv) = Some "secret"
  /\ endless Cases.endlessEnv
  /\ forall fuel : nat,
       fetchHubSpotTickets Cases.endlessEnv fuel = None
       /\ GET Cases.endlessEnv fuel = None.
Proof.
  assert (Hkey : present (HUBSPOT_API_KEY Cases.endlessEnv) = Some "secret")
    by reflexivity.
  assert (Hendless : endless Cases.endlessEnv).
  { intros call request. do 3 eexists. repeat split; reflexivity. }
  split; [exact Hkey|]. split; [exact Hendless|].
  exact (endless_pagination_never_answers Cases.endlessEnv "secret" Hkey Hendless).
Defined.

(* ================================================================= *)
(** ** The answers of the handler *)

(** X8. An answer of the handler is of one of two shapes: status 200
    with success true, the statistics of the fetched tickets, their four
    charts and no error; or status 500 with success false, the message of
    the error that the fetch or the chart builder threw, and neither
    statistics nor charts. *)
Theorem GET_answer_shapes (env : Environment) (fuel : nat) (r : NextResponse)
    (Hanswer : GET env fuel = Some r) :
  (exists (tickets : list HubSpotTicket) (built : Charts),
     fetchHubSpotTickets env fuel = Some (Normal tickets)
     /\ generateCharts (env_host env) (chartsInstant env) tickets = Normal built
     /\ r = {| http_status := 200;
               body := {| success := true;
                          stats := Some (generateDashboardStats (env_host env)
                                           (statsInstant env) tickets);
                          charts := Some built;
                          error := None |} |})
  \/ (exists e : Error,
        (fetchHubSpotTickets env fuel = Some (Throw e)
         \/ exists tickets : list HubSpotTicket,
              fetchHubSpotTickets env fuel = Some (Normal tickets)
              /\ generateCharts (env_host env) (chartsInstant env) tickets = Throw e)
        /\ r = {| http_status := 500;
                  body := {| success := false; stats := None; charts := None;
                             error := Some (message e) |} |}).
Proof.
  unfold GET in Hanswer.
  destruct (fetchHubSpotTickets env fuel) as [[tickets | e]|]; [| |discriminate].
  - cbn [bind] in Hanswer. unfold respond in Hanswer.
    destruct (generateCharts (env_host env) (chartsInstant env) tickets)
      as [built | e] eqn:Ecl; cbn [bind] in Hanswer; injection Hanswer as <-.
    + left. now exists tickets, built.
    + right. exists e. split; [right; now exists tickets | reflexivity].
  - cbn [bind] in Hanswer. injection Hanswer as <-.
    right. exists e. split; [now left | reflexivity].
Qed.

Lemma GET_answer_shapes_witness :
  exists r : NextResponse,
    GET Cases.twoPages 2 = Some r
    /\ http_status r = 200
    /\ stats (body r)
       = Some {| open_tickets := 1; new_tickets_this_week := 1; osw_count := 0;
                 staffmark_count := 0; closed_tickets := 1 |}.
Proof.
  destruct (GET Cases.twoPages 2) as [r|] eqn:Hanswer; [|vm_compute in Hanswer; discriminate].
  exists r. split; [reflexivity|].
  destruct (GET_answer_shapes Cases.twoPages 2 r Hanswer)
    as [[tickets [built [Hf [Hc ->]]]] | [e [He ->]]].
  - split; [reflexivity|]. cbn [body stats].
    vm_compute in Hf. injection Hf as <-. vm_compute. reflexivity.
  - exfalso. destruct He as [He | [tickets [Hf Hc]]].
    + vm_compute in He. discriminate He.
    + vm_compute in Hf. injection Hf as <-. vm_compute in Hc. discriminate Hc.
Defined.

(* ================================================================= *)
(** ** Totals of the charts *)

Lemma total_app (l l' : list Z) : total (l ++ l') = total l + total l'.
Proof.
  unfold total. induction l as [|x l IH]; [reflexivity|].
  cbn [app fold_right]. rewrite IH. lia.
Qed.

Lemma total_filter_positive (groups : list (string * Z)) :
  Forall (fun g => 0 <= snd g) groups ->
  total (map snd (filter (fun g => 0 <? snd g) groups)) = total (map snd groups).
Proof.
  intros H. induction H as [|g groups Hg _ IH]; [reflexivity|].
  cbn [filter]. destruct (Z.ltb_spec 0 (snd g)); cbn [map]; unfold total in *;
    cbn [fold_right]; rewrite IH; lia.
Qed.

(** Each valid age falls in exactly one of the seven ranges. *)
Lemma ranges_partition (l : list Z) :
  Forall (fun a => 0 <= a <= 120) l ->
  count (fun a => inRange (0, 17) (Some a)) l
  + count (fun a => inRange (18, 24) (Some a)) l
  + count (fun a => inRange (25, 34) (Some a)) l
  + count (fun a => inRange (35, 44) (Some a)) l
  + count (fun a => inRange (45, 54) (Some a)) l
  + count (fun a => inRange (55, 64) (Some a)) l
  + count (fun a => inRange (65, 120) (Some a)) l
  = Z.of_nat (List.length l).
Proof.
  intros H. induction H as [|a l Ha _ IH]; [reflexivity|].
  rewrite !count_cons. cbn [List.length].
  unfold inRange at 1 3 5 7 9 11 13. cbn [fst snd].
  assert (Hcase : a < 18 \/ 18 <= a < 25 \/ 25 <= a < 35 \/ 35 <= a < 45
                  \/ 45 <= a < 55 \/ 55 <= a < 65 \/ 65 <= a) by lia.
  destruct Hcase as [H | [H | [H | [H | [H | [H | H]]]]]];
    settle_tests; cbn [andb]; lia.
Qed.

(** X9. The bars of the age chart add up to the number of tickets whose
    age lies in [0, 120], which is the number of people its title names. *)
Theorem age_bars_add_up (h : JSDate.Host) (now : Z) (tickets : list HubSpotTicket) :
  total (map snd (bars (ageChart h now tickets)))
  = count (fun t => inRange (0, 120) (ticketAge h now t)) tickets
  /\ (age_data (ageChart h now tickets) <> [] ->
      age_title (ageChart h now tickets)
      = ("Age Demographics Distribution ("
         ++ JS.decimal (total (map snd (bars (ageChart h now tickets))))
         ++ " people)")%string).
Proof.
  assert (Hsum : total (map snd (bars (ageChart h now tickets)))
                 = Z.of_nat (List.length (ages h now tickets))).
  { rewrite ageChart_bars. unfold histogram.
    rewrite total_filter_positive.
    - rewrite <- ageGroupsOrdered_spec. unfold ageGroupsOrdered, ageGroupsInitial.
      rewrite ageGroups_fold by apply ages_valid.
      unfold total. cbn [map snd fold_right].
      rewrite <- (ranges_partition _ (ages_valid h now tickets)). lia.
    - apply Forall_forall. intros g Hg. apply in_map_iff in Hg as [r [<- _]].
      cbn [snd]. apply count_bounds. }
  split.
  - rewrite Hsum. clear Hsum. unfold ages.
    induction tickets as [|t tickets IH]; [reflexivity|].
    cbn [flat_map]. rewrite length_app, count_cons, Nat2Z.inj_add, IH. f_equal.
    unfold ageEntry, ticketAge, inRange. cbn [fst snd].
    destruct (present _); [|reflexivity].
    destruct (ageAt _ _) as [age|]; [|reflexivity].
    destruct ((0 <=? age) && (age <=? 120)); reflexivity.
  - rewrite Hsum. unfold ageChart.
    destruct (filter _ _) as [|g groups]; [intros H; now elim H|].
    intros _. reflexivity.
Qed.

(** *** The service pie *)

Lemma total_occurrences_snoc (seen : list string) (s : string) (ks : list string) :
  NoDup ks ->
  total (map (fun k => occurrences k (seen ++ [s])) ks)
  = total (map (fun k => occurrences k seen) ks)
    + (if existsb (String.eqb s) ks then 1 else 0).
Proof.
  intros Hnd. induction Hnd as [|k ks Hk _ IH]; [reflexivity|].
  cbn [map existsb]. unfold total in *. cbn [fold_right]. rewrite IH.
  rewrite ServiceFacts.occurrences_snoc, (String.eqb_sym s k).
  destruct (String.eqb_spec k s) as [-> | _]; cbn [orb]; [|lia].
  destruct (existsb (String.eqb s) ks) eqn:E; [|lia].
  apply ServiceFacts.existsb_In in E. contradiction.
Qed.

(** The frequencies of the distinct values add up to the length. *)
Lemma total_occurrences (l : list string) :
  total (map (fun k => occurrences k l) (distinct l)) = Z.of_nat (List.length l).
Proof.
  induction l as [|s l IH] using rev_ind; [reflexivity|].
  rewrite ServiceFacts.distinct_snoc, length_app. cbn [List.length].
  destruct (existsb (String.eqb s) l) eqn:E.
  - rewrite total_occurrences_snoc by apply ServiceFacts.distinct_NoDup.
    rewrite ServiceFacts.existsb_distinct, E, IH. lia.
  - rewrite map_app, total_app.
    rewrite total_occurrences_snoc by apply ServiceFacts.distinct_NoDup.
    rewrite ServiceFacts.existsb_distinct, E, IH. cbn [map].
    rewrite ServiceFacts.occurrences_snoc, String.eqb_refl,
      (ServiceFacts.occurrences_absent s l E).
    unfold total. cbn [fold_right]. lia.
Qed.

Lemma filter_partition_permutation {A : Type} (p : A -> bool) (l : list A) :
  Permutation (filter p l ++ filter (fun x => negb (p x)) l) l.
Proof.
  induction l as [|x l IH]; [reflexivity|].
  cbn [filter]. destruct (p x); cbn [negb app].
  - now constructor.
  - rewrite <- Permutation_middle. now constructor.
Qed.

Lemma total_permutation (l l' : list Z) : Permutation l l' -> total l = total l'.
Proof.
  intros H. unfold total.
  induction H as [| x l l' _ IH | x y l | l l' l'' _ IH1 _ IH2]; cbn [fold_right]; lia.
Qed.

(** X10. When no counted value is the name of an inherited member, the
    pie has as many values as labels, no label twice, no label that is
    empty or "null", every value is a positive count, and the counts add
    up to the number of tickets that carry a service that counts. *)
Theorem service_slices_add_up (tickets : list HubSpotTicket)
    (Hplain : Forall (fun s => inherited s = false) (countedServices tickets)) :
  List.length (values (serviceChart tickets)) = List.length (labels (serviceChart tickets))
  /\ NoDup (labels (serviceChart tickets))
  /\ Forall (fun k => k <> "" /\ k <> "null") (labels (serviceChart tickets))
  /\ Forall (fun v => exists n, v = VInt n /\ 0 < n) (values (serviceChart tickets))
  /\ total (map sliceCount (values (serviceChart tickets)))
     = Z.of_nat (List.length (countedServices tickets)).
Proof.
  destruct (ServiceFacts.keys_of_table
              (fun k => VInt (occurrences k (countedServices tickets)))
              (distinct (countedServices tickets)))
    as [indexed [Hperm [_ [Hlabels Hvalues]]]].
  unfold serviceChart. cbn [labels values].
  rewrite (ServiceFacts.serviceCounts_tallied tickets Hplain). unfold tallied.
  set (keys := JS.keys _) in *. set (vals := JS.values _) in *.
  assert (Hall : Permutation keys (distinct (countedServices tickets))).
  { rewrite Hlabels, Hperm. apply filter_partition_permutation. }
  assert (Hin : forall k, In k keys -> In k (countedServices tickets)).
  { intros k Hk. apply (Permutation_in _ Hall) in Hk.
    now apply (proj1 (ServiceFacts.distinct_In k _)) in Hk. }
  split; [rewrite Hvalues; apply length_map|].
  split; [apply (Permutation_NoDup (Permutation_sym Hall)), ServiceFacts.distinct_NoDup|].
  split; [|split].
  - apply Forall_forall. intros k Hk. apply Hin in Hk.
    unfold countedServices in Hk. apply in_flat_map in Hk as [t [_ Hk]].
    unfold countedService in Hk.
    destruct (service_provided (properties t)) as [service|]; [|contradiction].
    destruct (String.eqb_spec service "") as [Hempty | Hne]; [contradiction|].
    destruct (String.eqb_spec service "null") as [Hnull | Hnn]; [contradiction|].
    destruct Hk as [<- | []]. now split.
  - rewrite Hvalues. apply Forall_forall. intros v Hv.
    apply in_map_iff in Hv as [k [<- Hk]]. eexists. split; [reflexivity|].
    apply ServiceFacts.occurrences_present, ServiceFacts.existsb_In. now apply Hin.
  - rewrite Hvalues, map_map. cbn [sliceCount].
    rewrite (total_permutation _ _ (Permutation_map _ Hall)).
    apply total_occurrences.
Qed.

Lemma service_slices_add_up_witness :
  Forall (fun s => inherited s = false)
    (countedServices
       [ Sample.ticket None None (Some "Rent") None None;
         Sample.ticket None None (Some "") None None;
         Sample.ticket None None (Some "Food") None None;
         Sample.ticket None None (Some "Rent") None None ])
  /\ total (map sliceCount
              (values (serviceChart
                         [ Sample.ticket None None (Some "Rent") None None;
                           Sample.ticket None None (Some "") None None;
                           Sample.ticket None None (Some "Food") None None;
                           Sample.ticket None None (Some "Rent") None None ])))
     = 3.
Proof.
  assert (Hplain :
    Forall (fun s => inherited s = false)
      (countedServices
         [ Sample.ticket None None (Some "Rent") None None;
           Sample.ticket None None (Some "") None None;
           Sample.ticket None None (Some "Food") None None;
           Sample.ticket None None (Some "Rent") None None ])).
  { vm_compute. repeat constructor. }
  split; [exact Hplain|].
  destruct (service_slices_add_up _ Hplain) as [_ [_ [_ [_ Htotal]]]].
  rewrite Htotal. reflexivity.
Defined.

(* ================================================================= *)
(** ** Doubles: bounds of a rounded quotient *)

Module RoundingFacts.
Import Double.

Lemma pow2_pos (k : Z) : 0 <= k -> 0 < 2 ^ k.
Proof. intros Hk. apply Z.pow_pos_nonneg; lia. Qed.

(** A double is a multiple of the spacing of any smaller magnitude. *)
Lemma representable_multiple (y n : Z) :
  0 <= n <= y -> representable y -> y mod 2 ^ ulp_shift n = 0.
Proof.
  intros [Hn Hny] Hy. unfold representable in Hy.
  pose proof (DoubleFacts.ulp_shift_mono n y Hny) as Hk.
  pose proof (DoubleFacts.ulp_shift_nonneg n) as Hk0.
  pose proof (pow2_pos _ (DoubleFacts.ulp_shift_nonneg y)) as Hpy.
  pose proof (pow2_pos _ Hk0) as Hpn.
  apply Z.mod_divide in Hy; [|lia].
  apply Z.mod_divide; [lia|].
  destruct Hy as [j Hj]. exists (j * 2 ^ (ulp_shift y - ulp_shift n)).
  assert (Hsplit : 2 ^ ulp_shift y
                   = 2 ^ (ulp_shift y - ulp_shift n) * 2 ^ ulp_shift n)
    by (rewrite <- Z.pow_add_r by lia; f_equal; lia).
  rewrite <- Z.mul_assoc, <- Hsplit. exact Hj.
Qed.

(** The truncation of [n] to 53 significant bits stays above any double
    below [n]. *)
Lemma truncation_lower (x n : Z) :
  0 <= x <= n -> representable x ->
  x <= n / 2 ^ ulp_shift n * 2 ^ ulp_shift n.
Proof.
  intros [Hx Hxn] Hrep.
  set (k := ulp_shift n).
  pose proof (DoubleFacts.ulp_shift_nonneg n) as Hk. fold k in Hk.
  pose proof (pow2_pos k Hk) as H2k.
  destruct (Z.eq_dec k 0) as [Hk0 | Hk0].
  - rewrite Hk0. change (2 ^ 0) with 1. rewrite Z.div_1_r. lia.
  - assert (Hkpos : 0 < k) by lia.
    pose proof (DoubleFacts.significand_range n Hkpos) as Hsig. fold k in Hsig.
    pose proof (DoubleFacts.ulp_shift_mono x n Hxn) as Hmono. fold k in Hmono.
    destruct (Z.eq_dec (ulp_shift x) k) as [Heq | Hne].
    + unfold representable in Hrep. rewrite Heq in Hrep.
      pose proof (Z.div_mod x (2 ^ k)) as Hdm.
      pose proof (Z.div_le_mono x n (2 ^ k) H2k Hxn) as Hdiv.
      nia.
    + assert (Hlt : x < 2 ^ 52 * 2 ^ k).
      { destruct (Z.eq_dec x 0) as [-> | Hx0]; [lia|].
        destruct (Z.log2_spec x ltac:(lia)) as [_ Hhi].
        assert (Hle : Z.succ (Z.log2 x) <= 52 + k) by (unfold ulp_shift in *; lia).
        rewrite <- Z.pow_add_r by lia.
        eapply Z.lt_le_trans; [exact Hhi|].
        apply Z.pow_le_mono_r; lia. }
      nia.
Qed.

Section Ratio.
Variables p q : Z.
Hypothesis Hq : 0 < q.
Hypothesis Hp : 0 <= p.

Let k := ulp_shift (p / q).
Let d := q * 2 ^ k.

Lemma ratio_shift_nonneg : 0 <= k.
Proof. apply DoubleFacts.ulp_shift_nonneg. Qed.

Lemma ratio_divisor_pos : 0 < d.
Proof. unfold d. pose proof (pow2_pos k ratio_shift_nonneg). nia. Qed.

(** The rounding of [p / q] is its truncation or the double above it,
    and the latter only when something was cut off. *)
Lemma round_ratio_cases :
  round_ratio p q = p / d * 2 ^ k
  \/ (round_ratio p q = (p / d + 1) * 2 ^ k /\ 0 < p mod d).
Proof.
  unfold round_ratio. fold k. fold d.
  pose proof ratio_divisor_pos as Hd.
  pose proof (Z.mod_pos_bound p d Hd) as Hr.
  destruct ((d <? 2 * (p mod d)) || ((d =? 2 * (p mod d)) && Z.odd (p / d))) eqn:Hup;
    [|now left].
  right. split; [reflexivity|].
  apply orb_true_iff in Hup as [Hup | Hup].
  - apply Z.ltb_lt in Hup. lia.
  - apply andb_true_iff in Hup as [Hup _]. apply Z.eqb_eq in Hup. lia.
Qed.

Lemma ratio_truncation : p / d = p / q / 2 ^ k.
Proof.
  unfold d. rewrite Z.div_div; [reflexivity | lia |].
  apply pow2_pos, ratio_shift_nonneg.
Qed.

(** The rounding is not above a double that bounds the quotient. *)
Lemma round_ratio_le (y : Z) :
  p <= y * q -> representable y -> round_ratio p q <= y.
Proof.
  intros Hpy Hy.
  pose proof ratio_divisor_pos as Hd.
  pose proof (pow2_pos k ratio_shift_nonneg) as H2k.
  pose proof (Z.div_mod p d ltac:(lia)) as Hdm.
  pose proof (Z.mod_pos_bound p d Hd) as Hr.
  assert (Hm : 0 <= p / d) by (apply Z.div_pos; lia).
  assert (Hy0 : 0 <= y) by nia.
  destruct round_ratio_cases as [-> | [-> Hcut]].
  - unfold d in *. nia.
  - assert (Hfloor : 0 <= p / q <= y).
    { split; [apply Z.div_pos; lia|]. apply Z.div_le_upper_bound; lia. }
    pose proof (representable_multiple y (p / q) Hfloor Hy) as Hmult. fold k in Hmult.
    apply Z.mod_divide in Hmult; [|lia]. destruct Hmult as [j Hj].
    assert (Hgt : p / d * 2 ^ k < y) by (unfold d in *; nia).
    assert (Hjm : p / d < j) by nia.
    nia.
Qed.

(** The rounding is not below a double that the quotient dominates. *)
Lemma round_ratio_ge (x : Z) :
  0 <= x -> x * q <= p -> representable x -> x <= round_ratio p q.
Proof.
  intros Hx Hxp Hrep.
  pose proof (pow2_pos k ratio_shift_nonneg) as H2k.
  assert (Hfloor : 0 <= x <= p / q).
  { split; [exact Hx|]. apply Z.div_le_lower_bound; lia. }
  pose proof (truncation_lower x (p / q) Hfloor Hrep) as Hlow. fold k in Hlow.
  rewrite <- ratio_truncation in Hlow.
  destruct round_ratio_cases as [-> | [-> _]]; nia.
Qed.

End Ratio.

(** An integer below 2^53 is a double. *)
Lemma integer_representable (z : Z) :
  0 <= z < 2 ^ 53 -> representable (z * 2 ^ unit_exponent).
Proof.
  intros Hz. unfold representable, unit_exponent.
  destruct (Z.eq_dec z 0) as [-> | Hz0]; [reflexivity|].
  assert (Hlog : Z.log2 (z * 2 ^ 1074) = 1074 + Z.log2 z)
    by (apply Z.log2_mul_pow2; lia).
  assert (Hl : 0 <= Z.log2 z < 53).
  { split; [apply Z.log2_nonneg|]. apply Z.log2_lt_pow2; lia. }
  unfold ulp_shift. rewrite Hlog. rewrite Z.max_r by lia.
  replace (2 ^ 1074) with (2 ^ (52 - Z.log2 z) * 2 ^ (1074 + Z.log2 z - 52))
    by (rewrite <- Z.pow_add_r by lia; f_equal; lia).
  rewrite Z.mul_assoc. apply Z.mod_mul.
  apply Z.pow_nonzero; lia.
Qed.

(** Rounding leaves a double as it is. *)
Lemma round_ratio_exact (n : Z) :
  0 <= n -> representable n -> round_ratio n 1 = n.
Proof.
  intros Hn Hrep. apply Z.le_antisymm.
  - apply round_ratio_le; first [ lia | exact Hrep ].
  - apply round_ratio_ge; first [ lia | exact Hrep ].
Qed.

Lemma of_Z_integer (z : Z) :
  0 <= z < 2 ^ 53 -> of_Z z = Finite (z * 2 ^ unit_exponent).
Proof.
  intros Hz. unfold of_Z, of_ratio.
  destruct (Z.ltb_spec z 0); [lia|]. rewrite Z.abs_eq by lia.
  rewrite round_ratio_exact by (try apply integer_representable; unfold unit_exponent; lia).
  destruct (Z.eqb_spec (z * 2 ^ unit_exponent) 0) as [H0 | H0].
  - now rewrite H0.
  - destruct (Z.leb_spec (2 ^ 2098) (z * 2 ^ unit_exponent)) as [Hbig | _]; [|reflexivity].
    exfalso. unfold unit_exponent in *.
    assert (z * 2 ^ 1074 < 2 ^ 53 * 2 ^ 1074) by (apply Z.mul_lt_mono_pos_r; lia).
    change (2 ^ 2098) with (2 ^ 1024 * 2 ^ 1074) in Hbig.
    assert (2 ^ 53 < 2 ^ 1024) by (apply Z.pow_lt_mono_r; lia).
    assert (0 < 2 ^ 1074) by lia. nia.
Qed.

End RoundingFacts.

(* ================================================================= *)
(** ** The page: percentages *)

Module PageFacts.
Import Double DoubleArith.

Local Notation "'U'" := (2 ^ unit_exponent).

Lemma U_pos : 0 < U.
Proof. apply RoundingFacts.pow2_pos. unfold unit_exponent. lia. Qed.

Lemma or_integer (z : Z) : or (Finite (z * U)) (Finite 0) = Finite (z * U).
Proof.
  unfold or, truthy. cbn [is_zero isNaN]. rewrite orb_false_r.
  destruct (Z.eqb_spec (z * U) 0) as [-> | _]; reflexivity.
Qed.

Lemma integer_below_overflow (z : Z) : 0 <= z < 2 ^ 53 -> z * U < 2 ^ 2098.
Proof.
  intros Hz. pose proof U_pos as HU. unfold unit_exponent in *.
  change (2 ^ 2098) with (2 ^ 1024 * 2 ^ 1074).
  assert (2 ^ 53 < 2 ^ 1024) by (apply Z.pow_lt_mono_r; lia). nia.
Qed.

Lemma add_integers (a b : Z) :
  0 <= a -> 0 <= b -> a + b < 2 ^ 53 ->
  add (Finite (a * U)) (Finite (b * U)) = Finite ((a + b) * U).
Proof.
  intros Ha Hb Hab. pose proof U_pos as HU. cbn [add]. unfold of_ratio.
  replace (a * U + b * U) with ((a + b) * U) by lia.
  destruct (Z.ltb_spec ((a + b) * U) 0); [nia|]. rewrite Z.abs_eq by nia.
  rewrite RoundingFacts.round_ratio_exact
    by (try apply RoundingFacts.integer_representable; nia).
  destruct (Z.eqb_spec ((a + b) * U) 0) as [H0 | _]; [now rewrite H0|].
  pose proof (integer_below_overflow (a + b) ltac:(lia)).
  destruct (Z.leb_spec (2 ^ 2098) ((a + b) * U)); [lia | reflexivity].
Qed.

Lemma hundred_value : Page.hundred = Finite (100 * U).
Proof. unfold Page.hundred. apply RoundingFacts.of_Z_integer. lia. Qed.

(** The rounded percentage of [c] out of [t]. *)
Lemma percentage_bounds (c t : Z) :
  0 <= c <= t -> 0 < t < 2 ^ 53 ->
  exists p : Z,
    Page.percentage (Finite (c * U)) (Finite (t * U)) = IInt p
    /\ 0 <= p <= 100 /\ (c = 0 -> p = 0) /\ (c = t -> p = 100).
Proof.
  intros Hc Ht. pose proof U_pos as HU.
  unfold Page.percentage. rewrite hundred_value.
  assert (Hround0 : round (Finite 0) = IInt 0) by reflexivity.
  assert (Hmul0 : mul (Finite 0) (Finite (100 * U)) = Finite 0).
  { unfold mul. cbn [is_zero negative]. rewrite Z.eqb_refl. cbn [orb].
    destruct (Z.ltb_spec (100 * U) 0); [lia | reflexivity]. }
  unfold div. cbn [is_zero negative magnitude].
  destruct (Z.ltb_spec (c * U) 0); [nia|].
  destruct (Z.ltb_spec (t * U) 0); [nia|]. cbn [xorb].
  destruct (Z.eqb_spec (t * U) 0); [nia|].
  destruct (Z.eqb_spec (c * U) 0) as [Hc0 | Hc0].
  { cbn [zero]. rewrite Hmul0, Hround0. exists 0.
    split; [reflexivity|]. split; [lia|]. split; [reflexivity|]. intros ->. nia. }
  rewrite !Z.abs_eq by nia.
  set (x := round_ratio (c * U * U) (t * U)).
  assert (Hx : 0 <= x <= U /\ (c = t -> x = U)).
  { assert (Hone : representable U).
    { replace U with (1 * U) by lia. apply RoundingFacts.integer_representable. lia. }
    assert (Hle : x <= U) by (apply RoundingFacts.round_ratio_le; first [nia | exact Hone]).
    assert (Hge : 0 <= x)
      by (apply RoundingFacts.round_ratio_ge; first [nia | reflexivity]).
    split; [lia|]. intros ->.
    assert (U <= x) by (apply RoundingFacts.round_ratio_ge; first [nia | exact Hone]).
    lia. }
  destruct Hx as [Hx Hfull].
  unfold of_ratio. fold x.
  destruct (Z.eqb_spec x 0) as [Hx0 | Hx0].
  { rewrite Hmul0, Hround0. exists 0.
    split; [reflexivity|]. split; [lia|]. split; [reflexivity|].
    intros Hct. specialize (Hfull Hct). lia. }
  assert (HUsmall : U < 2 ^ 2098).
  { pose proof (integer_below_overflow 1 ltac:(lia)). lia. }
  destruct (Z.leb_spec (2 ^ 2098) x); [lia|].
  unfold mul. cbn [is_zero negative magnitude].
  destruct (Z.eqb_spec x 0); [lia|].
  destruct (Z.eqb_spec (100 * U) 0); [lia|]. cbn [orb].
  destruct (Z.ltb_spec x 0); [lia|].
  destruct (Z.ltb_spec (100 * U) 0); [lia|]. cbn [xorb].
  rewrite !Z.abs_eq by lia.
  set (w := round_ratio (x * (100 * U)) U).
  assert (Hw : 0 <= w <= 100 * U /\ (c = t -> w = 100 * U)).
  { assert (Hhundred : representable (100 * U))
      by (apply RoundingFacts.integer_representable; lia).
    assert (Hle : w <= 100 * U)
      by (apply RoundingFacts.round_ratio_le; first [nia | exact Hhundred]).
    assert (Hge : 0 <= w)
      by (apply RoundingFacts.round_ratio_ge; first [nia | reflexivity]).
    split; [lia|]. intros Hct. specialize (Hfull Hct).
    assert (100 * U <= w)
      by (apply RoundingFacts.round_ratio_ge; first [nia | exact Hhundred]).
    lia. }
  destruct Hw as [Hw Hwfull].
  unfold of_ratio. fold w.
  assert (Hhalf : 2 ^ (unit_exponent + 1) = 2 * U)
    by (rewrite Z.pow_add_r by (unfold unit_exponent; lia); lia).
  destruct (Z.eqb_spec w 0) as [Hw0 | Hw0].
  { rewrite Hround0. exists 0.
    split; [reflexivity|]. split; [lia|]. split; [reflexivity|].
    intros Hct. specialize (Hwfull Hct). lia. }
  pose proof (integer_below_overflow 100 ltac:(lia)).
  destruct (Z.leb_spec (2 ^ 2098) w); [lia|].
  unfold round. rewrite Hhalf.
  destruct (Z.ltb_spec w 0); [lia|]. rewrite andb_false_r.
  exists ((2 * w + U) / (2 * U)).
  split; [reflexivity|].
  assert (Hz : 0 <= (2 * w + U) / (2 * U) <= 100).
  { split; [apply Z.div_pos; lia|].
    assert ((2 * w + U) / (2 * U) < 101) by (apply Z.div_lt_upper_bound; lia).
    lia. }
  split; [exact Hz|]. split.
  - intros ->. lia.
  - intros Hct. rewrite (Hwfull Hct).
    replace (2 * (100 * U) + U) with (U + 100 * (2 * U)) by lia.
    rewrite Z.div_add by lia. rewrite Z.div_small by lia. reflexivity.
Qed.

End PageFacts.

(* ================================================================= *)
(** ** The page: the status pie and the legend *)

Lemma received_counts (s : DashboardStats) (built : Charts) :
  0 <= open_tickets s -> 0 <= closed_tickets s ->
  open_tickets s + closed_tickets s < 2 ^ 53 ->
  Double.of_Z (open_tickets s)
  = Double.Finite (open_tickets s * 2 ^ Double.unit_exponent)
  /\ Double.of_Z (closed_tickets s)
     = Double.Finite (closed_tickets s * 2 ^ Double.unit_exponent).
Proof.
  intros Ho Hc Hsum. split; apply RoundingFacts.of_Z_integer; lia.
Qed.

Lemma gtb_integer (t : Z) :
  DoubleArith.gtb (Double.Finite (t * 2 ^ Double.unit_exponent)) (Double.Finite 0)
  = (0 <? t).
Proof.
  pose proof PageFacts.U_pos as HU.
  unfold DoubleArith.gtb. cbn [Double.leb].
  destruct (Z.leb_spec 0 (t * 2 ^ Double.unit_exponent)),
           (Z.leb_spec (t * 2 ^ Double.unit_exponent) 0),
           (Z.ltb_spec 0 t); cbn [andb negb]; try reflexivity; nia.
Qed.

(** X11. For counts of open and closed tickets that are not negative (and
    below 2^53 together), the status pie holds the two counts, closed
    first, and its annotation is a whole percentage between 0 and 100:
    0 when no ticket is closed (also when there is no ticket at all) and
    100 when every ticket is closed. *)
Theorem status_pie_percentage (s : DashboardStats) (built : Charts)
    (Hopen : 0 <= open_tickets s) (Hclosed : 0 <= closed_tickets s)
    (Hsum : open_tickets s + closed_tickets s < 2 ^ 53) :
  exists p : Z,
    Page.createStatusPieChart (Some (receivedBody (successBody s built)))
    = Normal (Some {| Page.pie_values :=
                        [Double.of_Z (closed_tickets s); Double.of_Z (open_tickets s)];
                      Page.pie_labels := ["Closed"; "Open"];
                      Page.annotation := DoubleArith.IInt p |})
    /\ 0 <= p <= 100
    /\ (closed_tickets s = 0 -> p = 0)
    /\ (open_tickets s = 0 -> 0 < closed_tickets s -> p = 100).
Proof.
  destruct (received_counts s built Hopen Hclosed Hsum) as [Eo Ec].
  unfold Page.createStatusPieChart, receivedBody, successBody, receivedStats.
  cbn [Page.statsOf Page.stats option_map stats bind Page.open_tickets Page.closed_tickets].
  rewrite Eo, Ec, !PageFacts.or_integer.
  rewrite PageFacts.add_integers by lia. rewrite gtb_integer.
  destruct (Z.ltb_spec 0 (open_tickets s + closed_tickets s)) as [Hpos | Hzero].
  - destruct (PageFacts.percentage_bounds (closed_tickets s)
                (open_tickets s + closed_tickets s) ltac:(lia) ltac:(lia))
      as [p [Hp [Hrange [Hnone Hall]]]].
    exists p. rewrite Hp. split; [reflexivity|]. split; [exact Hrange|].
    split; [exact Hnone|]. intros Ho _. apply Hall. lia.
  - exists 0. split; [reflexivity|]. split; [lia|]. split; [reflexivity | lia].
Qed.

Lemma status_pie_percentage_witness :
  exists p : Z,
    option_map Page.annotation
      (match Page.createStatusPieChart
               (Some (receivedBody
                        (successBody
                           {| open_tickets := 171; new_tickets_this_week := 4;
                              osw_count := 2; staffmark_count := 1;
                              closed_tickets := 29 |}
                           {| resource_support := resourceChart [];
                              service_chart := serviceChart [];
                              crisis_wish_tracking :=
                                {| dates := []; runningCounts := []; runningTotals := [] |};
                              age_demographics := emptyAgeChart |})))
       with Normal pie => pie | Throw _ => None end)
    = Some (DoubleArith.IInt p)
    /\ 0 <= p <= 100.
Proof.
  destruct (status_pie_percentage
              {| open_tickets := 171; new_tickets_this_week := 4;
                 osw_count := 2; staffmark_count := 1; closed_tickets := 29 |}
              {| resource_support := resourceChart [];
                 service_chart := serviceChart [];
                 crisis_wish_tracking :=
                   {| dates := []; runningCounts := []; runningTotals := [] |};
                 age_demographics := emptyAgeChart |}
              ltac:(cbn; lia) ltac:(cbn; lia) ltac:(cbn; lia))
    as [p [Hpie [Hrange _]]].
  exists p. rewrite Hpie. split; [reflexivity | exact Hrange].
Defined.

(** 29 closed tickets out of 200 are annotated 14%: the quotient 0.145
    times 100 is the double 14.499999999999998. *)
Example pie_of_29_closed_out_of_200 :
  Page.percentage (Double.of_Z 29) (Double.of_Z 200) = DoubleArith.IInt 14.
Proof. vm_compute. reflexivity. Qed.

(** A success body that carries statistics and no charts: the render
    throws on the first read of [data.charts]. *)
Example render_without_charts :
  Page.render
    {| Page.isLoading := false; Page.errorText := None;
       Page.data :=
         Some {| Page.success := true;
                 Page.stats :=
                   Some {| Page.open_tickets := Double.of_Z 1;
                           Page.new_tickets_this_week := Double.of_Z 0;
                           Page.osw_count := Double.of_Z 0;
                           Page.staffmark_count := Double.of_Z 0;
                           Page.closed_tickets := Double.of_Z 1 |};
                 Page.charts := None; Page.error := None |} |}
  = Throw {| name := "TypeError";
             message := "Cannot read properties of undefined (reading 'resource_support')" |}.
Proof. vm_compute. reflexivity. Qed.

(** X12. On the dashboard, the percentages of the legend are whole
    numbers between 0 and 100, and the one of the closed tickets is the
    annotation of the pie, as soon as there is an open or closed ticket;
    when there is none, the annotation is 0 while both percentages of the
    legend are NaN (the legend divides by the total without a test). *)
Theorem legend_percentages (s : DashboardStats) (built : Charts)
    (Hopen : 0 <= open_tickets s) (Hclosed : 0 <= closed_tickets s)
    (Hsum : open_tickets s + closed_tickets s < 2 ^ 53) :
  exists view : Page.View,
    Page.render (holding (successBody s built)) = Normal (Page.Dashboard view)
    /\ (0 < open_tickets s + closed_tickets s ->
        exists p q : Z,
          Page.legendClosed view = DoubleArith.IInt p
          /\ Page.legendOpen view = DoubleArith.IInt q
          /\ 0 <= p <= 100 /\ 0 <= q <= 100
          /\ option_map Page.annotation (Page.pie view) = Some (DoubleArith.IInt p))
    /\ (open_tickets s + closed_tickets s = 0 ->
        Page.legendClosed view = DoubleArith.INaN
        /\ Page.legendOpen view = DoubleArith.INaN
        /\ option_map Page.annotation (Page.pie view) = Some (DoubleArith.IInt 0)).
Proof.
  destruct (received_counts s built Hopen Hclosed Hsum) as [Eo Ec].
  unfold Page.render, holding.
  cbn [Page.isLoading Page.errorText present Page.data].
  unfold Page.createStatusPieChart, Page.legend, Page.shown,
    receivedBody, successBody, receivedStats.
  cbn [Page.statsOf Page.stats option_map stats bind Page.open_tickets Page.closed_tickets].
  eexists. split; [reflexivity|].
  cbn [Page.legendClosed Page.legendOpen Page.pie option_map Page.annotation].
  rewrite Eo, Ec, !PageFacts.or_integer.
  rewrite PageFacts.add_integers by lia. rewrite gtb_integer.
  split.
  - intros Hpos.
    destruct (PageFacts.percentage_bounds (closed_tickets s)
                (open_tickets s + closed_tickets s) ltac:(lia) ltac:(lia))
      as [p [Hp [Hprange _]]].
    destruct (PageFacts.percentage_bounds (open_tickets s)
                (open_tickets s + closed_tickets s) ltac:(lia) ltac:(lia))
      as [q [Hq [Hqrange _]]].
    exists p, q. rewrite Hp, Hq.
    destruct (Z.ltb_spec 0 (open_tickets s + closed_tickets s)); [|lia].
    repeat split; lia.
  - intros Hzero.
    assert (Ho : open_tickets s = 0) by lia.
    assert (Hc : closed_tickets s = 0) by lia.
    rewrite Ho, Hc. cbn [Z.add Z.mul]. repeat split.
Qed.

Lemma legend_percentages_witness :
  exists view : Page.View,
    Page.render
      (holding
         (successBody (generateDashboardStats Sample.host 1793701230123 [])
            {| resource_support := resourceChart [];
               service_chart := serviceChart [];
               crisis_wish_tracking :=
                 {| dates := []; runningCounts := []; runningTotals := [] |};
               age_demographics := emptyAgeChart |}))
    = Normal (Page.Dashboard view)
    /\ Page.legendClosed view = DoubleArith.INaN
    /\ Page.legendOpen view = DoubleArith.INaN
    /\ option_map Page.annotation (Page.pie view) = Some (DoubleArith.IInt 0).
Proof.
  destruct (legend_percentages
              (generateDashboardStats Sample.host 1793701230123 [])
              {| resource_support := resourceChart [];
                 service_chart := serviceChart [];
                 crisis_wish_tracking :=
                   {| dates := []; runningCounts := []; runningTotals := [] |};
                 age_demographics := emptyAgeChart |}
              ltac:(cbn; lia) ltac:(cbn; lia) ltac:(cbn; lia))
    as [view [Hrender [_ Hzero]]].
  exists view. split; [exact Hrender|]. apply Hzero. reflexivity.
Defined.

(* ================================================================= *)
(** ** The page and the handler *)

(** What one load does, by the outcome of the fetch. *)
Lemma loadDashboard_failed (s : Page.State) (outcome : Page.Fetched) (e : Error) :
  Page.tryLoad {| Page.isLoading := true; Page.errorText := None; Page.data := Page.data s |}
    outcome = Throw e ->
  Page.loadDashboard s outcome
  = {| Page.isLoading := false; Page.errorText := Some cannotConnect;
       Page.data := Page.data s |}.
Proof. intros H. unfold Page.loadDashboard. now rewrite H. Qed.

(** X13. The page never shows the error message of the handler: a
    failure answer (status 500, whatever its error text) leaves the page
    with the fixed text "Cannot connect to server. ..." and with the data
    it had before; a success answer replaces the data, clears the error,
    and carries the statistics. *)
Theorem page_hides_handler_error (env : Environment) (fuel : nat) (r : NextResponse)
    (s : Page.State) (Hanswer : GET env fuel = Some r) :
  (success (body r) = false
   /\ Page.loadDashboard s (served r)
      = {| Page.isLoading := false; Page.errorText := Some cannotConnect;
           Page.data := Page.data s |})
  \/ (exists (st : DashboardStats) (built : Charts),
        body r = successBody st built
        /\ Page.loadDashboard s (served r) = holding (successBody st built)).
Proof.
  destruct (GET_answer_shapes env fuel r Hanswer)
    as [[tickets [built [_ [_ ->]]]] | [e [_ ->]]].
  - right. eexists. exists built. split; reflexivity.
  - left. split; reflexivity.
Qed.

Lemma page_hides_handler_error_witness :
  GET (Sample.env None []) 1
  = Some {| http_status := 500;
            body := {| success := false; stats := None; charts := None;
                       error := Some "HUBSPOT_API_KEY environment variable is not set" |} |}
  /\ Page.loadDashboard Page.initial
       (served {| http_status := 500;
                  body := {| success := false; stats := None; charts := None;
                             error := Some "HUBSPOT_API_KEY environment variable is not set" |} |})
     = {| Page.isLoading := false; Page.errorText := Some cannotConnect;
          Page.data := None |}.
Proof.
  assert (Hanswer :
    GET (Sample.env None []) 1
    = Some {| http_status := 500;
              body := {| success := false; stats := None; charts := None;
                         error := Some "HUBSPOT_API_KEY environment variable is not set" |} |})
    by reflexivity.
  split; [exact Hanswer|].
  destruct (page_hides_handler_error _ _ _ Page.initial Hanswer)
    as [[_ Hload] | [st [built [Hbody _]]]]; [exact Hload | discriminate Hbody].
Defined.

Lemma loadDashboard_from_handler (s : Page.State) (outcome : Page.Fetched) :
  holdsHandlerData s -> fromHandler outcome ->
  holdsHandlerData (Page.loadDashboard s outcome)
  /\ Page.isLoading (Page.loadDashboard s outcome) = false
  /\ (Page.errorText (Page.loadDashboard s outcome) = Some cannotConnect
      \/ (Page.errorText (Page.loadDashboard s outcome) = None
          /\ Page.data (Page.loadDashboard s outcome) <> None)).
Proof.
  intros Hs [[e ->] | [env [fuel [r [Hanswer ->]]]]].
  - cbn. split; [exact Hs|]. split; [reflexivity | now left].
  - destruct (page_hides_handler_error env fuel r s Hanswer)
      as [[_ ->] | [st [built [_ ->]]]].
    + cbn. split; [exact Hs|]. split; [reflexivity | now left].
    + split; [|split; [reflexivity | right; split; [reflexivity | discriminate]]].
      intros d Hd. cbn in Hd. injection Hd as <-. now exists st, built.
Qed.

Lemma afterLoads_snoc (outcomes : list Page.Fetched) (outcome : Page.Fetched) :
  afterLoads (outcomes ++ [outcome]) = Page.loadDashboard (afterLoads outcomes) outcome.
Proof. unfold afterLoads. now rewrite fold_left_app. Qed.

Lemma afterLoads_from_handler (outcomes : list Page.Fetched) :
  Forall fromHandler outcomes -> holdsHandlerData (afterLoads outcomes).
Proof.
  induction outcomes as [|outcome outcomes IH] using rev_ind; intros Hall.
  - intros d Hd. discriminate Hd.
  - apply Forall_app in Hall as [Hall Hlast]. apply Forall_cons_iff in Hlast as [Hlast _].
    rewrite afterLoads_snoc.
    now apply loadDashboard_from_handler; [apply IH|].
Qed.

(** X14. After one or more loads, each of which ended on a network
    failure or on an answer of the handler, the page is not loading any
    more and renders without throwing: either the error box with the
    fixed text, or the dashboard built from the statistics of a
    successful answer. *)
Theorem page_renders_after_loads (outcomes : list Page.Fetched)
    (Hsome : outcomes <> []) (Hall : Forall fromHandler outcomes) :
  Page.isLoading (afterLoads outcomes) = false
  /\ (Page.render (afterLoads outcomes) = Normal (Page.ErrorBox cannotConnect)
      \/ exists (st : DashboardStats) (built : Charts) (view : Page.View),
           Page.data (afterLoads outcomes) = Some (receivedBody (successBody st built))
           /\ Page.render (afterLoads outcomes) = Normal (Page.Dashboard view)).
Proof.
  destruct outcomes as [|outcome outcomes _] using rev_ind; [now elim Hsome|].
  apply Forall_app in Hall as [Hall Hlast]. apply Forall_cons_iff in Hlast as [Hlast _].
  rewrite afterLoads_snoc.
  destruct (loadDashboard_from_handler _ _ (afterLoads_from_handler _ Hall) Hlast)
    as [Hdata [Hloading Hcases]].
  split; [exact Hloading|].
  unfold Page.render. rewrite Hloading.
  destruct Hcases as [-> | [-> Hsomedata]]; [now left|].
  right. cbn [present].
  destruct (Page.data (Page.loadDashboard (afterLoads outcomes) outcome)) as [d|] eqn:Ed;
    [|now elim Hsomedata].
  destruct (Hdata d Ed) as [st [built ->]].
  exists st, built. eexists. split; reflexivity.
Qed.

(** A failed load, a successful one, and a reload that fails again. *)
Lemma page_renders_after_loads_witness :
  [ served {| http_status := 500;
              body := {| success := false; stats := None; charts := None;
                         error := Some "fetch failed" |} |};
    Page.Rejected {| name := "TypeError"; message := "Failed to fetch" |} ] <> []
  /\ Forall fromHandler
       [ served {| http_status := 500;
                   body := {| success := false; stats := None; charts := None;
                              error := Some "fetch failed" |} |};
         Page.Rejected {| name := "TypeError"; message := "Failed to fetch" |} ]
  /\ Page.isLoading
       (afterLoads
          [ served {| http_status := 500;
                      body := {| success := false; stats := None; charts := None;
                                 error := Some "fetch failed" |} |};
            Page.Rejected {| name := "TypeError"; message := "Failed to fetch" |} ])
     = false.
Proof.
  assert (Hsome :
    [ served {| http_status := 500;
                body := {| success := false; stats := None; charts := None;
                           error := Some "fetch failed" |} |};
      Page.Rejected {| name := "TypeError"; message := "Failed to fetch" |} ] <> [])
    by discriminate.
  assert (Hall :
    Forall fromHandler
      [ served {| http_status := 500;
                  body := {| success := false; stats := None; charts := None;
                             error := Some "fetch failed" |} |};
        Page.Rejected {| name := "TypeError"; message := "Failed to fetch" |} ]).
  { constructor.
    - right. exists (Sample.env (Some "secret") []), 1%nat. eexists.
      split; reflexivity.
    - constructor; [|constructor]. left. eexists. reflexivity. }
  split; [exact Hsome|]. split; [exact Hall|].
  exact (proj1 (page_renders_after_loads _ Hsome Hall)).
Defined.

(** The text kept for an answer that reports a failure is not empty. *)
Lemma error_text_shown (e : option string) :
  match present e with Some t => t | None => "Unknown error" end <> ""
  /\ present (Some match present e with Some t => t | None => "Unknown error" end)
     = Some match present e with Some t => t | None => "Unknown error" end.
Proof.
  unfold present. destruct e as [t|]; [|split; [discriminate | reflexivity]].
  destruct (String.eqb_spec t "") as [-> | Hne]; [split; [discriminate | reflexivity]|].
  split; [exact Hne|]. destruct (String.eqb_spec t ""); [contradiction | reflexivity].
Qed.

(** X15. Whatever the outcomes of its loads (one at least), the page ends
    not loading, and either with an error text that is not empty, which
    it renders in the error box, or without error and with the data of an
    answer whose success is true. *)
Theorem page_settles (outcomes : list Page.Fetched) (Hsome : outcomes <> []) :
  let s := afterLoads outcomes in
  Page.isLoading s = false
  /\ ((exists text : string,
         Page.errorText s = Some text /\ text <> ""
         /\ Page.render s = Normal (Page.ErrorBox text))
      \/ (Page.errorText s = None
          /\ exists d : Page.DashboardData,
               Page.data s = Some d /\ Page.success d = true)).
Proof.
  assert (Hinv : forall l : list Page.Fetched,
            forall d : Page.DashboardData,
              Page.data (afterLoads l) = Some d -> Page.success d = true).
  { induction l as [|outcome l IH] using rev_ind; [discriminate|].
    rewrite afterLoads_snoc. intros d.
    unfold Page.loadDashboard, Page.tryLoad.
    destruct outcome as [e | response]; [apply IH|].
    destruct (negb (Page.ok response)); [apply IH|].
    destruct (Page.json response) as [body | e]; [|apply IH].
    cbn [bind]. destruct (Page.success body) eqn:Es; [|apply IH].
    cbn. intros Hd. injection Hd as <-. exact Es. }
  destruct outcomes as [|outcome outcomes _] using rev_ind; [now elim Hsome|].
  intros s. subst s. rewrite afterLoads_snoc.
  specialize (Hinv (outcomes ++ [outcome])). rewrite afterLoads_snoc in Hinv.
  revert Hinv. generalize (afterLoads outcomes). intros s Hinv.
  split; [reflexivity|].
  unfold Page.render. unfold Page.loadDashboard, Page.tryLoad in *.
  assert (Hfixed : cannotConnect <> "") by discriminate.
  destruct outcome as [e | response];
    [left; exists cannotConnect; repeat split; exact Hfixed|].
  destruct (negb (Page.ok response));
    [left; exists cannotConnect; repeat split; exact Hfixed|].
  destruct (Page.json response) as [body | e];
    [|left; exists cannotConnect; repeat split; exact Hfixed].
  cbn [bind] in *. destruct (Page.success body) eqn:Es.
  - right. split; [reflexivity|]. exists body. split; [reflexivity | exact Es].
  - left. clear Hinv. cbn [Page.isLoading Page.errorText].
    destruct (error_text_shown (Page.error body)) as [Hne Hshown].
    eexists. split; [reflexivity|]. split; [exact Hne|]. now rewrite Hshown.
Qed.

Lemma page_settles_witness :
  [ Page.Fulfilled {| Page.ok := true; Page.status := 200;
                      Page.json :=
                        Normal {| Page.success := false; Page.stats := None;
                                  Page.charts := None; Page.error := Some "" |} |} ] <> []
  /\ Page.render
       (afterLoads
          [ Page.Fulfilled {| Page.ok := true; Page.status := 200;
                              Page.json :=
                                Normal {| Page.success := false; Page.stats := None;
                                          Page.charts := None;
                                          Page.error := Some "" |} |} ])
     = Normal (Page.ErrorBox "Unknown error").
Proof.
  assert (Hsome :
    [ Page.Fulfilled {| Page.ok := true; Page.status := 200;
                        Page.json :=
                          Normal {| Page.success := false; Page.stats := None;
                                    Page.charts := None; Page.error := Some "" |} |} ] <> [])
    by discriminate.
  split; [exact Hsome|].
  destruct (page_settles _ Hsome) as [_ [[text [Htext [_ Hrender]]] | [Hnone _]]].
  - cbn in Htext. injection Htext as <-. exact Hrender.
  - discriminate Hnone.
Defined.

(* ================================================================= *)
(** ** Doubles: agreement with [SpecFloat] on samples *)

Example parseFloat_sample :
  map (fun s => toSpecFloat (Double.parseFloat s))
    [ "0.1"; "  -12.5e3 dollars"; "1e23"; "9007199254740993"; "4.9e-324"; ".5" ]
  = [ SpecFloat.S754_finite false 7205759403792794 (-56);
      SpecFloat.S754_finite true 6871947673600000 (-39);
      SpecFloat.S754_finite false 5960464477539062 24;
      SpecFloat.S754_finite false 4503599627370496 1;
      SpecFloat.S754_finite false 1 (-1074);
      SpecFloat.S754_finite false 4503599627370496 (-53) ].
Proof. vm_compute. reflexivity. Qed.

Example arithmetic_sample :
  let pairs :=
    map (fun p => (Double.parseFloat (fst p), Double.parseFloat (snd p)))
      [ ("0.1", "0.2"); ("29", "200"); ("0.145", "100"); ("1e308", "1e308");
        ("1e-320", "3"); ("-7", "3"); ("9007199254740992", "1");
        ("1.5", "-2.25e10"); ("123456789.123", "0.000123") ] in
  map (fun p => toSpecFloat (Double.add (fst p) (snd p))) pairs
  = map (fun p => SpecFloat.SFadd 53 1024 (toSpecFloat (fst p)) (toSpecFloat (snd p))) pairs
  /\ map (fun p => toSpecFloat (DoubleArith.div (fst p) (snd p))) pairs
     = map (fun p => SpecFloat.SFdiv 53 1024 (toSpecFloat (fst p)) (toSpecFloat (snd p)))
         pairs
  /\ map (fun p => toSpecFloat (DoubleArith.mul (fst p) (snd p))) pairs
     = map (fun p => SpecFloat.SFmul 53 1024 (toSpecFloat (fst p)) (toSpecFloat (snd p)))
         pairs.
Proof. vm_compute. repeat split. Qed.

(* ================================================================= *)
(** ** The crisis-wish chart: shape and ties *)

Lemma partialSums_length (total : Double.number) (amounts : list Double.number) :
  List.length (partialSums total amounts) = List.length amounts.
Proof.
  revert total. induction amounts as [|a amounts IH]; intros total; [reflexivity|].
  cbn [partialSums List.length]. now rewrite IH.
Qed.

Lemma partialSums_totals (total : Double.number) (amounts : list Double.number) :
  isTotal total -> Forall nonNegative amounts ->
  Forall isTotal (partialSums total amounts).
Proof.
  intros Ht Ha. revert total Ht.
  induction Ha as [|a amounts Ha _ IH]; intros total Ht; [constructor|].
  cbn [partialSums].
  destruct (DoubleFacts.add_nonNegative total a Ht Ha) as [_ Ht'].
  constructor; [exact Ht' | now apply IH].
Qed.

Lemma isTotal_nonNegative (a : Double.number) : isTotal a -> nonNegative a.
Proof.
  unfold nonNegative. destruct a as [| [|] | | n]; cbn; try contradiction; [reflexivity|].
  intros [Hn _]. now apply Z.leb_le.
Qed.

Lemma crisisData_length (h : JSDate.Host) (tickets : list HubSpotTicket) :
  (List.length (crisisData h tickets) <= List.length tickets)%nat.
Proof.
  unfold crisisData. induction tickets as [|t tickets IH]; [reflexivity|].
  cbn [flat_map]. rewrite length_app. cbn [List.length].
  assert (List.length (crisisEntry h t) <= 1)%nat; [|lia].
  unfold crisisEntry.
  destruct (present (crisis_wish (properties t))); [|cbn; lia].
  destruct (present (created_at t)); [|cbn; lia].
  destruct (negb _); cbn; lia.
Qed.

(** X16. A crisis-wish chart that is emitted has one date, one running
    count and one running total per selected record (at most one per
    ticket), its last running count is the number of selected records,
    and, when no amount is negative, no running total is negative or NaN. *)
Theorem crisis_chart_shape (h : JSDate.Host) (tickets : list HubSpotTicket)
    (chart : CrisisChart) (Hchart : crisisChart h tickets = Normal chart) :
  let n := List.length (crisisData h tickets) in
  List.length (dates chart) = n
  /\ List.length (runningCounts chart) = n
  /\ List.length (runningTotals chart) = n
  /\ (n <= List.length tickets)%nat
  /\ last (runningCounts chart) 0 = Z.of_nat n
  /\ (Forall (fun i => nonNegative (amount i)) (crisisData h tickets)
      -> Forall nonNegative (runningTotals chart)).
Proof.
  intros n. subst n.
  pose proof (sort_permutation byDate (crisisData h tickets)) as Hperm.
  destruct (invalid_or_all_valid (crisisData h tickets)) as [Hvalid | Hinvalid];
    [|rewrite (crisisChart_invalid h tickets Hinvalid) in Hchart; discriminate Hchart].
  assert (Hsorted : Forall (fun i => date i <> None) (sort byDate (crisisData h tickets)))
    by (eapply Permutation_Forall; [symmetry; exact Hperm | exact Hvalid]).
  unfold crisisChart in Hchart.
  rewrite (runningTally_valid _ _ _ Hsorted) in Hchart. cbn [bind] in Hchart.
  injection Hchart as <-. cbn [dates runningCounts runningTotals].
  rewrite !length_map, partialSums_length, !length_map, length_seq.
  rewrite (Permutation_length Hperm).
  repeat split; try reflexivity.
  - apply crisisData_length.
  - destruct (List.length (crisisData h tickets)) as [|m]; [reflexivity|].
    rewrite seq_S, map_app. cbn [map]. rewrite last_last. lia.
  - intros Hpos. eapply Forall_impl; [exact isTotal_nonNegative|].
    apply partialSums_totals; [split; [lia | reflexivity]|].
    apply Forall_map. eapply Permutation_Forall; [symmetry; exact Hperm | exact Hpos].
Qed.

Lemma crisis_chart_shape_witness :
  exists chart : CrisisChart,
    crisisChart Sample.host
      [ Sample.ticket (Some "1") (Some "2026-11-02T08:00:00.000Z") None (Some "25.50") None;
        Sample.ticket (Some "2") (Some "2026-10-30T08:00:00.000Z") None (Some "abc") None;
        Sample.ticket (Some "2") (Some "2026-10-30T08:00:00.000Z") None (Some "10") None ]
    = Normal chart
    /\ List.length (dates chart) = 2%nat
    /\ last (runningCounts chart) 0 = 2.
Proof.
  destruct (crisisChart Sample.host
              [ Sample.ticket (Some "1") (Some "2026-11-02T08:00:00.000Z") None
                  (Some "25.50") None;
                Sample.ticket (Some "2") (Some "2026-10-30T08:00:00.000Z") None
                  (Some "abc") None;
                Sample.ticket (Some "2") (Some "2026-10-30T08:00:00.000Z") None
                  (Some "10") None ]) as [chart|e] eqn:Hchart;
    [|vm_compute in Hchart; discriminate Hchart].
  exists chart. split; [reflexivity|].
  destruct (crisis_chart_shape _ _ _ Hchart) as [Hdates [_ [_ [_ [Hlast _]]]]].
  split; [rewrite Hdates | rewrite Hlast]; vm_compute; reflexivity.
Defined.

Lemma insert_at_head (x : CrisisItem) (l : list CrisisItem) :
  date x <> None -> HdRel dateLe x l -> insert byDate x l = x :: l.
Proof.
  intros Hx Hhd. destruct Hhd as [|y l Hxy]; [reflexivity|].
  cbn [insert]. unfold dateLe in Hxy.
  destruct (date x) as [tx|] eqn:Ex; [|contradiction].
  destruct (date y) as [ty|] eqn:Ey; [|contradiction].
  rewrite (byDate_valid x y tx ty Ex Ey).
  destruct (Z.compare_spec tx ty); [reflexivity | reflexivity | lia].
Qed.

Lemma sort_sorted (l : list CrisisItem) :
  Forall (fun i => date i <> None) l -> Sorted dateLe l -> sort byDate l = l.
Proof.
  intros Hvalid Hsorted. induction Hsorted as [|x l Hs IH Hhd]; [reflexivity|].
  apply Forall_cons_iff in Hvalid as [Hx Hl].
  unfold sort in *. cbn [fold_right]. rewrite (IH Hl).
  now apply insert_at_head.
Qed.

(** X17. The sort only moves a record before the records of a later
    date: when the selected records come in ascending order of their
    dates, records of the same date included, the chart lists them in
    the order of the tickets. *)
Theorem sorted_records_keep_ticket_order (h : JSDate.Host) (tickets : list HubSpotTicket)
    (Hvalid : Forall (fun i => date i <> None) (crisisData h tickets))
    (Hsorted : byAscendingDate (crisisData h tickets)) :
  crisisChart h tickets
  = Normal {| dates := map isoDay (crisisData h tickets);
              runningCounts :=
                map Z.of_nat (seq 1 (List.length (crisisData h tickets)));
              runningTotals :=
                partialSums (Double.Finite 0) (map amount (crisisData h tickets)) |}.
Proof.
  unfold crisisChart. rewrite (sort_sorted _ Hvalid Hsorted).
  rewrite (runningTally_valid _ _ _ Hvalid). reflexivity.
Qed.

(** Two records of the same instant: the first ticket stays first. *)
Lemma sorted_records_keep_ticket_order_witness :
  Forall (fun i => date i <> None)
    (crisisData Sample.host
       [ Sample.ticket (Some "1") (Some "2026-10-30T08:00:00.000Z") None (Some "7") None;
         Sample.ticket (Some "2") (Some "2026-10-30T08:00:00.000Z") None (Some "5") None ])
  /\ byAscendingDate
       (crisisData Sample.host
          [ Sample.ticket (Some "1") (Some "2026-10-30T08:00:00.000Z") None (Some "7") None;
            Sample.ticket (Some "2") (Some "2026-10-30T08:00:00.000Z") None (Some "5") None ])
  /\ option_map runningTotals
       (match crisisChart Sample.host
                [ Sample.ticket (Some "1") (Some "2026-10-30T08:00:00.000Z") None
                    (Some "7") None;
                  Sample.ticket (Some "2") (Some "2026-10-30T08:00:00.000Z") None
                    (Some "5") None ]
        with Normal c => Some c | Throw _ => None end)
     = Some [Double.parseFloat "7"; Double.parseFloat "12"].
Proof.
  assert (Hvalid :
    Forall (fun i => date i <> None)
      (crisisData Sample.host
         [ Sample.ticket (Some "1") (Some "2026-10-30T08:00:00.000Z") None (Some "7") None;
           Sample.ticket (Some "2") (Some "2026-10-30T08:00:00.000Z") None (Some "5") None ])).
  { vm_compute. repeat constructor; discriminate. }
  assert (Hsorted :
    byAscendingDate
      (crisisData Sample.host
         [ Sample.ticket (Some "1") (Some "2026-10-30T08:00:00.000Z") None (Some "7") None;
           Sample.ticket (Some "2") (Some "2026-10-30T08:00:00.000Z") None (Some "5") None ])).
  { vm_compute. repeat constructor. intros H. discriminate H. }
  split; [exact Hvalid|]. split; [exact Hsorted|].
  rewrite (sorted_records_keep_ticket_order Sample.host _ Hvalid Hsorted).
  vm_compute. reflexivity.
Defined.

(* ================================================================= *)
(** ** The age in doubles *)

Module AgeFacts.
Import Double DoubleArith RoundingFacts.

Lemma year_in_doubles : yearInDoubles = Finite (31557600000 * 2 ^ unit_exponent).
Proof. vm_compute. reflexivity. Qed.

Lemma scaled_representable (z e : Z) :
  0 <= z < 2 ^ 53 -> 0 <= e -> representable (z * 2 ^ e).
Proof.
  intros Hz He. unfold representable.
  destruct (Z.eq_dec z 0) as [-> | Hz0]; [reflexivity|].
  assert (Hlog : Z.log2 (z * 2 ^ e) = e + Z.log2 z)
    by (apply Z.log2_mul_pow2; lia).
  assert (Hl : 0 <= Z.log2 z < 53).
  { split; [apply Z.log2_nonneg|]. apply Z.log2_lt_pow2; lia. }
  unfold ulp_shift. rewrite Hlog.
  destruct (Z.max_spec 0 (e + Z.log2 z - 52)) as [[Hm ->] | [Hm ->]].
  - replace (2 ^ e) with (2 ^ (52 - Z.log2 z) * 2 ^ (e + Z.log2 z - 52))
      by (rewrite <- Z.pow_add_r by lia; f_equal; lia).
    rewrite Z.mul_assoc. apply Z.mod_mul. apply Z.pow_nonzero; lia.
  - change (2 ^ 0) with 1. apply Z.mod_1_r.
Qed.


(** An integer below 2^53 in magnitude is a double. *)
Lemma of_Z_exact (z : Z) :
  - 2 ^ 53 < z < 2 ^ 53 -> of_Z z = Finite (z * 2 ^ unit_exponent).
Proof.
  intros Hz.
  destruct (Z.le_gt_cases 0 z) as [Hpos | Hneg]; [apply of_Z_integer; lia|].
  pose proof PageFacts.U_pos as HU.
  unfold of_Z, of_ratio.
  destruct (Z.ltb_spec z 0); [|lia]. rewrite Z.abs_neq by lia.
  rewrite round_ratio_exact
    by (try apply integer_representable; try lia; nia).
  destruct (Z.eqb_spec (- z * 2 ^ unit_exponent) 0) as [H0 | H0]; [nia|].
  destruct (Z.leb_spec (2 ^ 2098) (- z * 2 ^ unit_exponent)) as [Hbig | _].
  - exfalso. unfold unit_exponent in *.
    assert (- z * 2 ^ 1074 < 2 ^ 53 * 2 ^ 1074) by (apply Z.mul_lt_mono_pos_r; lia).
    change (2 ^ 2098) with (2 ^ 1024 * 2 ^ 1074) in Hbig.
    assert (2 ^ 53 < 2 ^ 1024) by (apply Z.pow_lt_mono_r; lia).
    assert (0 < 2 ^ 1074) by lia. nia.
  - f_equal. lia.
Qed.

(** The difference of two such integers is the rounding of their exact
    difference. *)
Lemma sub_integers (a b : Z) :
  - 2 ^ 53 < a < 2 ^ 53 -> - 2 ^ 53 < b < 2 ^ 53 ->
  sub (of_Z a) (of_Z b) = of_Z (a - b).
Proof.
  intros Ha Hb. pose proof PageFacts.U_pos as HU.
  rewrite (of_Z_exact a Ha), (of_Z_exact b Hb).
  unfold sub, negate.
  destruct (Z.eqb_spec (b * 2 ^ unit_exponent) 0) as [E | E].
  - assert (b = 0) by nia. subst b. cbn [add].
    rewrite Z.sub_0_r. symmetry. apply of_Z_exact, Ha.
  - cbn [add]. unfold of_Z. f_equal.
    + destruct (Z.ltb_spec (a * 2 ^ unit_exponent + - (b * 2 ^ unit_exponent)) 0),
        (Z.ltb_spec (a - b) 0); try reflexivity; nia.
    + replace (a * 2 ^ unit_exponent + - (b * 2 ^ unit_exponent))
        with ((a - b) * 2 ^ unit_exponent) by ring.
      rewrite Z.abs_mul, (Z.abs_eq (2 ^ unit_exponent)) by lia. reflexivity.
Qed.


(** What [of_Z] gives on a positive integer below 2^54: a double between
    the doubles around it. *)
Lemma of_Z_positive (x : Z) :
  0 < x < 2 ^ 54 ->
  exists m : Z,
    of_Z x = Finite m /\ 2 ^ unit_exponent <= m <= 2 ^ 54 * 2 ^ unit_exponent
    /\ (forall y : Z, 0 <= y <= x * 2 ^ unit_exponent -> representable y -> y <= m)
    /\ (x < 2 ^ 53 -> m = x * 2 ^ unit_exponent).
Proof.
  intros Hx. pose proof PageFacts.U_pos as HU.
  assert (Hp : 0 <= x * 2 ^ unit_exponent) by nia.
  assert (Hlow : forall y : Z, 0 <= y <= x * 2 ^ unit_exponent -> representable y ->
                   y <= round_ratio (x * 2 ^ unit_exponent) 1)
    by (intros y Hy Hrep; apply round_ratio_ge; first [lia | exact Hrep]).
  assert (Hone : 2 ^ unit_exponent <= round_ratio (x * 2 ^ unit_exponent) 1).
  { apply Hlow; [nia|].
    replace (2 ^ unit_exponent) with (1 * 2 ^ unit_exponent) by lia.
    apply integer_representable. lia. }
  assert (Hup : round_ratio (x * 2 ^ unit_exponent) 1 <= 2 ^ 54 * 2 ^ unit_exponent).
  { apply round_ratio_le; try lia; [nia|].
    replace (2 ^ 54 * 2 ^ unit_exponent) with (1 * 2 ^ (54 + unit_exponent))
      by (rewrite Z.pow_add_r by (unfold unit_exponent; lia); lia).
    apply scaled_representable; unfold unit_exponent; lia. }
  exists (round_ratio (x * 2 ^ unit_exponent) 1).
  split; [|split; [lia|split; [exact Hlow|]]].
  - unfold of_Z, of_ratio.
    destruct (Z.ltb_spec x 0); [lia|]. rewrite Z.abs_eq by lia.
    destruct (Z.eqb_spec (round_ratio (x * 2 ^ unit_exponent) 1) 0) as [E | _]; [lia|].
    destruct (Z.leb_spec (2 ^ 2098) (round_ratio (x * 2 ^ unit_exponent) 1))
      as [Hbig | _]; [|reflexivity].
    exfalso. unfold unit_exponent in *.
    change (2 ^ 2098) with (2 ^ 1024 * 2 ^ 1074) in Hbig.
    assert (2 ^ 54 < 2 ^ 1024) by (apply Z.pow_lt_mono_r; lia).
    assert (0 < 2 ^ 1074) by lia. nia.
  - intros Hsmall. apply round_ratio_exact; [lia|].
    apply integer_representable. lia.
Qed.


(** The quotient of a positive double by the year. *)
Lemma div_by_year (m : Z) :
  0 < m ->
  div (Finite m) (Finite (31557600000 * 2 ^ unit_exponent))
  = of_ratio false (m * 2 ^ unit_exponent) (31557600000 * 2 ^ unit_exponent)
  /\ div (Finite (- m)) (Finite (31557600000 * 2 ^ unit_exponent))
     = of_ratio true (m * 2 ^ unit_exponent) (31557600000 * 2 ^ unit_exponent).
Proof.
  intros Hm. pose proof PageFacts.U_pos as HU.
  unfold div, negative, is_zero, magnitude.
  destruct (Z.eqb_spec (31557600000 * 2 ^ unit_exponent) 0); [lia|].
  destruct (Z.eqb_spec m 0); [lia|].
  destruct (Z.eqb_spec (- m) 0); [lia|].
  destruct (Z.ltb_spec m 0); [lia|].
  destruct (Z.ltb_spec (- m) 0); [|lia].
  destruct (Z.ltb_spec (31557600000 * 2 ^ unit_exponent) 0); [lia|].
  rewrite Z.abs_opp, !Z.abs_eq by lia. cbn [xorb]. split; reflexivity.
Qed.

(** The floor of the quotient of an integer below 122 years by the year
    is the exact one. *)
Lemma floor_of_quotient (x : Z) :
  0 < x < 122 * 31557600000 ->
  floor (of_ratio false (x * 2 ^ unit_exponent * 2 ^ unit_exponent)
               (31557600000 * 2 ^ unit_exponent))
  = IInt (x / 31557600000).
Proof.
  intros Hx. pose proof PageFacts.U_pos as HU.
  set (U := 2 ^ unit_exponent) in *.
  set (k := x / 31557600000).
  assert (Hk : k * 31557600000 <= x < (k + 1) * 31557600000)
    by (unfold k; Z.div_mod_to_equations; lia).
  assert (Hk0 : 0 <= k <= 121) by lia.
  assert (HV : U = 2 ^ 36 * 2 ^ 1038)
    by (unfold U, unit_exponent; rewrite <- Z.pow_add_r by lia; reflexivity).
  assert (HVpos : 0 < 2 ^ 1038) by lia.
  set (r := round_ratio (x * U * U) (31557600000 * U)).
  assert (Hlow : k * U <= r).
  { apply round_ratio_ge; try nia.
    apply integer_representable. lia. }
  assert (Hup : r <= ((k + 1) * 2 ^ 36 - 1) * 2 ^ 1038).
  { apply round_ratio_le; try nia.
    apply scaled_representable; lia. }
  assert (Hr : r / U = k).
  { symmetry. apply (Z.div_unique r U k (r - k * U)); [|lia].
    left. split; [lia|]. rewrite HV in *. change (2 ^ 36) with 68719476736 in *.
    generalize dependent (2 ^ 1038). intros V. intros. nia. }
  unfold of_ratio. fold r.
  destruct (Z.eqb_spec r 0) as [E | _].
  - cbn [floor]. f_equal. fold U. rewrite <- Hr, E. reflexivity.
  - destruct (Z.leb_spec (2 ^ 2098) r) as [Hbig | _].
    + exfalso.
      assert (r < 2 ^ 53 * 2 ^ 1038).
      { eapply Z.le_lt_trans; [exact Hup|]. apply Z.mul_lt_mono_pos_r; lia. }
      assert (2 ^ 53 * 2 ^ 1038 < 2 ^ 2098)
        by (rewrite <- Z.pow_add_r by lia; apply Z.pow_lt_mono_r; lia).
      lia.
    + cbn [floor]. fold U. now rewrite Hr.
Qed.


(** From 122 years on the floor of the double quotient is 122 at least,
    or the quotient is infinite. *)
Lemma floor_of_large_quotient (m : Z) :
  122 * 31557600000 * 2 ^ unit_exponent <= m ->
  keptAge (floor (of_ratio false (m * 2 ^ unit_exponent)
                        (31557600000 * 2 ^ unit_exponent))) = None.
Proof.
  intros Hm. pose proof PageFacts.U_pos as HU.
  set (U := 2 ^ unit_exponent) in *.
  set (r := round_ratio (m * U) (31557600000 * U)).
  assert (Hlow : 122 * U <= r).
  { apply round_ratio_ge; try nia.
    apply integer_representable. lia. }
  unfold of_ratio. fold r.
  destruct (Z.eqb_spec r 0) as [E | _]; [lia|].
  destruct (Z.leb_spec (2 ^ 2098) r) as [Hbig | _]; [reflexivity|].
  cbn [floor keptAge]. fold U.
  assert (122 <= r / U) by (apply Z.div_le_lower_bound; lia).
  destruct (Z.leb_spec (r / U) 120); [lia|].
  now rewrite andb_false_r.
Qed.

(** The quotient of a negative difference is below zero, and not -0. *)
Lemma floor_of_negative_quotient (m : Z) :
  2 ^ unit_exponent <= m ->
  keptAge (floor (of_ratio true (m * 2 ^ unit_exponent)
                        (31557600000 * 2 ^ unit_exponent))) = None.
Proof.
  intros Hm. pose proof PageFacts.U_pos as HU.
  assert (HV : 2 ^ unit_exponent = 2 ^ 74 * 2 ^ 1000)
    by (unfold unit_exponent; rewrite <- Z.pow_add_r by lia; reflexivity).
  set (U := 2 ^ unit_exponent) in *.
  set (r := round_ratio (m * U) (31557600000 * U)).
  assert (Hlow : 2 ^ 1000 <= r).
  { apply round_ratio_ge; try nia.
    replace (2 ^ 1000) with (1 * 2 ^ 1000) by lia.
    apply scaled_representable; lia. }
  assert (0 < 2 ^ 1000) by lia.
  unfold of_ratio. fold r.
  destruct (Z.eqb_spec r 0) as [E | _]; [lia|].
  destruct (Z.leb_spec (2 ^ 2098) r) as [Hbig | _]; [reflexivity|].
  cbn [floor keptAge]. fold U.
  assert (- r / U < 0) by (apply Z.div_lt_upper_bound; lia).
  destruct (Z.leb_spec 0 (- r / U)); [lia | reflexivity].
Qed.

(** The age in doubles is kept exactly when the exact one lies in
    [0, 120], and is then the exact one. *)
Theorem age_in_doubles (now birth : Z) :
  Z.abs now <= 8640000000000000 -> Z.abs birth <= 8640000000000000 ->
  keptAge (ageOfDoubles now birth)
  = (if (0 <=? (now - birth) / 31557600000) && ((now - birth) / 31557600000 <=? 120)
     then Some ((now - birth) / 31557600000) else None).
Proof.
  intros Hnow Hbirth. pose proof PageFacts.U_pos as HU.
  unfold ageOfDoubles. rewrite year_in_doubles.
  rewrite sub_integers by lia.
  set (x := now - birth).
  assert (Hx : - 2 ^ 54 < x < 2 ^ 54) by (unfold x; lia).
  destruct (Z.lt_trichotomy x 0) as [Hneg | [Hzero | Hpos]].
  - (* the birthday lies after [now] *)
    assert (Hq : x / 31557600000 < 0) by (apply Z.div_lt_upper_bound; lia).
    destruct (Z.leb_spec 0 (x / 31557600000)); [lia|]. cbn [andb].
    destruct (of_Z_positive (- x) ltac:(lia)) as [m [Hm [[Hm1 _] _]]].
    assert (Eneg : of_Z x = Finite (- m)).
    { unfold of_Z, of_ratio in *.
      destruct (Z.ltb_spec x 0); [|lia].
      destruct (Z.ltb_spec (- x) 0); [lia|].
      rewrite Z.abs_opp in Hm.
      destruct (round_ratio (Z.abs x * 2 ^ unit_exponent) 1 =? 0);
        [injection Hm as <-; lia|].
      destruct (2 ^ 2098 <=? round_ratio (Z.abs x * 2 ^ unit_exponent) 1);
        [discriminate Hm|].
      injection Hm as <-. reflexivity. }
    rewrite Eneg, (proj2 (div_by_year m ltac:(lia))).
    now apply floor_of_negative_quotient.
  - rewrite Hzero. reflexivity.
  - destruct (of_Z_positive x ltac:(lia)) as [m [Hm [[Hm1 _] [Hlow Hexact]]]].
    rewrite Hm, (proj1 (div_by_year m ltac:(lia))).
    destruct (Z.lt_ge_cases x (122 * 31557600000)) as [Hsmall | Hlarge].
    + rewrite (Hexact ltac:(lia)), floor_of_quotient by lia. reflexivity.
    + assert (Hq : 122 <= x / 31557600000) by (apply Z.div_le_lower_bound; lia).
      destruct (Z.leb_spec (x / 31557600000) 120); [lia|]. rewrite andb_false_r.
      apply floor_of_large_quotient.
      apply Hlow; [nia|].
      replace (122 * 31557600000 * 2 ^ unit_exponent)
        with (3850027200000 * 2 ^ unit_exponent) by lia.
      apply integer_representable. lia.
Qed.

End AgeFacts.

Lemma of_string_range (h : JSDate.Host) (s : string) (t : Z) :
  JSDate.of_string h s = Some t -> Z.abs t <= 8640000000000000.
Proof.
  unfold JSDate.of_string, JSDate.TimeClip.
  destruct (JSDate.Date_parse h s) as [u|]; [|discriminate].
  destruct (Z.ltb_spec 8640000000000000 (Z.abs u)); [discriminate|].
  intros E. injection E as <-. lia.
Qed.

(** X18. The ages the chart builder keeps are those the program computes
    in doubles: for a birthday that parses, subtracting the two time
    values, dividing by 365.25 * 24 * 60 * 60 * 1000 and taking
    [Math.floor], all in binary64, then testing [age >= 0 && age <= 120],
    pushes the exact number of whole years when it lies in [0, 120] and
    nothing otherwise. *)
Theorem age_is_computed_in_doubles (h : JSDate.Host) (now : Z) (t : HubSpotTicket)
    (b : string)
    (Hnow : Z.abs now <= 8640000000000000)
    (Hb : birthday (properties t) = Some b) (Hne : b <> ""%string) :
  ageEntry h now t
  = match JSDate.of_string h b with
    | Some birth =>
        match keptAge (ageOfDoubles now birth) with
        | Some age => [age]
        | None => []
        end
    | None => []
    end.
Proof.
  unfold ageEntry, present. rewrite Hb.
  destruct (String.eqb_spec b "") as [E | _]; [now elim Hne|].
  destruct (JSDate.of_string h b) as [birth|] eqn:Eparse; [|reflexivity].
  cbn [ageAt option_map]. unfold msPerYear.
  rewrite (AgeFacts.age_in_doubles now birth Hnow (of_string_range h b birth Eparse)).
  destruct ((0 <=? (now - birth) / 31557600000)
            && ((now - birth) / 31557600000 <=? 120)); reflexivity.
Qed.

Lemma age_is_computed_in_doubles_witness :
  (Z.abs 1793701230123 <= 8640000000000000
   /\ birthday (properties (Sample.ticket None None None None (Some "2008-11-03")))
      = Some "2008-11-03"%string
   /\ "2008-11-03"%string <> ""%string)
  /\ ageEntry Sample.host 1793701230123
       (Sample.ticket None None None None (Some "2008-11-03"))
     = match JSDate.of_string Sample.host "2008-11-03" with
       | Some birth =>
           match keptAge (ageOfDoubles 1793701230123 birth) with
           | Some age => [age]
           | None => []
           end
       | None => []
       end.
Proof.
  assert (H1 : Z.abs 1793701230123 <= 8640000000000000) by (cbn; lia).
  assert (H2 : birthday (properties (Sample.ticket None None None None (Some "2008-11-03")))
               = Some "2008-11-03"%string) by reflexivity.
  assert (H3 : "2008-11-03"%string <> ""%string) by discriminate.
  split; [split; [exact H1 | split; [exact H2 | exact H3]]|].
  exact (age_is_computed_in_doubles Sample.host 1793701230123 _ _ H1 H2 H3).
Defined.

(** The doubles at work: 17 whole years on the sample birthday; and two
    instants more than 2^53 milliseconds apart, where the difference is
    rounded and the floor in doubles is one above the exact one, both far
    outside the ages that are kept. *)
Example age_in_doubles_samples :
  ageOfDoubles 1793701230123 1225670400000 = DoubleArith.IInt 17
  /\ ageOfDoubles 8640000000000000 (- 367201749599999) = DoubleArith.IInt 285421
  /\ (8640000000000000 - - 367201749599999) / 31557600000 = 285420.
Proof. split; [|split]; vm_compute; reflexivity. Qed.
